(** * Bike service: services, repositories and ownership policy

    A shallow embedding of the bike/component microservice:

    - [Component], [Bike], [TokenPayload]: the domain records
      (internal/core/domain);
    - [bikes], [components]: the two tables of the migrations, with their
      column types, CHECK constraints, foreign key and cascade;
    - [BikeRepository], [ComponentRepository]: the SQL statements of the
      postgres adapter, executed on those tables;
    - [BikeService], [ComponentService]: the service layer
      (internal/core/services);
    - [BikeHandler], [ComponentHandler]: the control flow of the HTTP
      handlers, up to status code and message.

    Stateful code is written in explicit state-passing style over a
    [World] holding the two tables, the cache, the scheduled failures of the
    storage and cache connections, the stream of random identifiers, the
    trace of port calls and the log.  The libraries the program links
    against (uuid, encoding/json, utf8) are an interface, [Externals]. *)

From Stdlib Require Import ZArith Ascii String List Lia Bool.
From stdpp Require Import base option gmap strings list sorting.

Local Open Scope string_scope.
Local Open Scope Z_scope.

(** ** Go values *)

(** [uuid.UUID] is a 128-bit value; [uuid.Nil] is the all-zero one. *)
Definition UUID : Type := N.
Definition uuid_Nil : UUID := 0%N.

(** [time.Time], as an offset from Go's zero time (year 1), and
    [time.Duration] in nanoseconds. *)
Definition Time : Type := Z.
Definition time_zero : Time := 0.
Definition Duration : Type := Z.
Definition time_Second : Duration := 1000000000.
Definition time_Minute : Duration := 60 * time_Second.

(** Go's [int] on the 64-bit targets: two's complement with wrap-around. *)
Definition int_min : Z := - 2 ^ 63.
Definition int_max : Z := 2 ^ 63 - 1.
Definition is_int (z : Z) : Prop := int_min <= z <= int_max.
Definition int_wrap (z : Z) : Z := (z + 2 ^ 63) mod 2 ^ 64 - 2 ^ 63.
Definition int_sub (a b : Z) : Z := int_wrap (a - b).

(** Go errors: a value with a message, possibly wrapping a cause. *)
Inductive error : Type :=
| errors_New (msg : string)
| fmt_Errorf_w (msg : string) (cause : error)
| pq_Error (code : string)
| sql_ErrNoRows
| driver_error (msg : string)
| uuid_error (input : string)
| validator_ValidationErrors (failed : list (string * string))
| cache_error (msg : string).

#[global] Instance error_eq_dec : EqDecision error.
Proof.
  intros x. induction x; intros []; try (right; discriminate).
  - destruct (decide (msg = msg0)); [left|right]; congruence.
  - destruct (decide (msg = msg0)); [|right; congruence].
    destruct (IHx cause) as [->|]; [left|right]; congruence.
  - destruct (decide (code = code0)); [left|right]; congruence.
  - by left.
  - destruct (decide (msg = msg0)); [left|right]; congruence.
  - destruct (decide (input = input0)); [left|right]; congruence.
  - destruct (decide (failed = failed0)); [left|right]; congruence.
  - destruct (decide (msg = msg0)); [left|right]; congruence.
Defined.

Inductive Result (A : Type) : Type :=
| Ok (a : A)
| Err (e : error).
Arguments Ok {A} a.
Arguments Err {A} e.

Definition is_Ok {A} (r : Result A) : bool :=
  match r with Ok _ => true | Err _ => false end.

(** ** Domain model *)

Module Component.

(** [domain.Component] (bike_struct.go). *)
Record t : Type := mk {
  ID : UUID;
  BikeID : UUID;
  Name : string;
  Brand : string;
  Model : string;
  InstalledAt : Time;
  InstalledMileage : Z;
  MaxMileage : Z;
  CreatedAt : Time;
  UpdatedAt : Time
}.

Definition zero : t := mk uuid_Nil uuid_Nil "" "" "" time_zero 0 0 time_zero time_zero.

(** [c.ID = id] *)
Definition set_ID (id : UUID) (c : t) : t :=
  mk id (BikeID c) (Name c) (Brand c) (Model c) (InstalledAt c)
    (InstalledMileage c) (MaxMileage c) (CreatedAt c) (UpdatedAt c).

(** [func (c *Component) CurrentMileage(bikeMileage int) int] *)
Definition CurrentMileage (c : t) (bikeMileage : Z) : Z :=
  int_sub bikeMileage (InstalledMileage c).

(** [func (c *Component) NeedsReplacement(bikeMileage int) bool] *)
Definition NeedsReplacement (c : t) (bikeMileage : Z) : bool :=
  MaxMileage c <=? CurrentMileage c bikeMileage.

End Component.

Module Bike.

(** [domain.Bike] (Bike.go); [Type'] is the field [Type]. *)
Record t : Type := mk {
  UserID : UUID;
  BikeID : UUID;
  BikeName : string;
  Type' : string;
  Model : string;
  Components : list Component.t;
  Year : Z;
  Mileage : Z;
  CreatedAt : Time;
  UpdatedAt : Time
}.

Definition zero : t := mk uuid_Nil uuid_Nil "" "" "" [] 0 0 time_zero time_zero.

(** [bike.BikeID = id] *)
Definition set_BikeID (id : UUID) (bike : t) : t :=
  mk (UserID bike) id (BikeName bike) (Type' bike) (Model bike) (Components bike)
    (Year bike) (Mileage bike) (CreatedAt bike) (UpdatedAt bike).

(** [bike.Components = components] *)
Definition set_Components (components : list Component.t) (bike : t) : t :=
  mk (UserID bike) (BikeID bike) (BikeName bike) (Type' bike) (Model bike) components
    (Year bike) (Mileage bike) (CreatedAt bike) (UpdatedAt bike).

End Bike.

(** [domain.UserRole] and [domain.TokenPayload] (tokenPayload.go). *)
Definition Admin : string := "admin".
Definition AppUser : string := "appuser".

Module TokenPayload.
Record t : Type := mk {
  ID : UUID;
  UserID : UUID;
  Role : string
}.
End TokenPayload.

(** ** Libraries the program links against *)

(** [uuid.Parse]/[UUID.String] (google/uuid), [json.Marshal]/[json.Unmarshal]
    on [domain.Bike] (encoding/json) and the rune count the validator uses for
    [max=] on strings. *)
Class Externals : Type := {
  uuid_Parse : string -> option UUID;
  uuid_String : UUID -> string;
  Bytes : Type;
  json_Marshal : Bike.t -> option Bytes;
  json_Unmarshal : Bytes -> option Bike.t;
  utf8_RuneCountInString : string -> nat
}.

(** ** The persisted schema (migrations) *)

Module bikes.
(** One row of table [bikes]. *)
Record row : Type := mk {
  bike_id : UUID;
  user_id : UUID;
  bike_name : string;
  type : string;
  model : string;
  year : Z;
  mileage : Z;
  created_at : Time;
  updated_at : Time
}.

(** [CHECK (type IN ('bmx', 'mtb', 'road'))] *)
Definition type_check (s : string) : bool :=
  bool_decide (s = "bmx") || bool_decide (s = "mtb") || bool_decide (s = "road").
End bikes.

Module components.
(** One row of table [components]. *)
Record row : Type := mk {
  id : UUID;
  bike_id : UUID;
  name : string;
  brand : string;
  model : string;
  installed_at : Time;
  installed_mileage : Z;
  max_mileage : Z;
  created_at : Time;
  updated_at : Time
}.

(** [CHECK (name IN ('handlebars', 'frame', 'wheels'))] *)
Definition name_check (s : string) : bool :=
  bool_decide (s = "handlebars") || bool_decide (s = "frame") || bool_decide (s = "wheels").
End components.

(** *** SQL expressions and column types *)

Definition NULLIF {A} `{EqDecision A} (a b : A) : option A :=
  if decide (a = b) then None else Some a.

Definition COALESCE {A} (o : option A) (col : A) : A :=
  match o with Some v => v | None => col end.

(** [INT]: a statement whose integer parameter is outside 32 bits fails. *)
Definition int4_ok (z : Z) : bool := (- 2 ^ 31 <=? z) && (z <? 2 ^ 31).

Fixpoint all_spaces (s : string) : bool :=
  match s with
  | EmptyString => true
  | String c s' => bool_decide (c = " "%char) && all_spaces s'
  end.

(** Storing into [VARCHAR(n)]: a longer string is an error unless the excess
    is all spaces, in which case it is cut to [n]. *)
Definition varchar (n : nat) (s : string) : option string :=
  if (String.length s <=? n)%nat then Some s
  else if all_spaces (substring n (String.length s - n)%nat s)
       then Some (substring 0 n s)
       else None.

(** ** The world the services run in *)

(** Calls made on the storage and cache ports, in order. *)
Inductive Event : Type :=
| SqlInsertBike (bike_id : UUID)
| SqlSelectBike (bike_id : UUID)
| SqlSelectBikesByUser (user_id : UUID)
| SqlUpdateBike (bike_id : UUID)
| SqlDeleteBike (bike_id : UUID)
| SqlInsertComponent (id : UUID)
| SqlSelectComponent (id : UUID)
| SqlSelectComponentsByBike (bike_id : UUID)
| SqlUpdateComponent (id : UUID)
| SqlDeleteComponent (id : UUID)
| CacheGet (key : string)
| CacheSet (key : string) (ttl : Duration)
| CacheDelete (key : string).

(** A failure of the storage connection, decided by the environment. *)
Inductive DbFault : Type :=
| FaultPq (code : string)
| FaultDriver (msg : string).

Definition fault_error (f : DbFault) : error :=
  match f with
  | FaultPq code => pq_Error code
  | FaultDriver msg => driver_error msg
  end.

Inductive Level : Type := LError | LWarn | LInfo.

Record World `{Externals} : Type := mkWorld {
  db_bikes : gmap UUID bikes.row;
  db_components : gmap UUID components.row;
  db_now : Time;                       (* CURRENT_TIMESTAMP *)
  db_faults : list (option DbFault);   (* one entry per statement, in order *)
  cache_store : gmap string (Bytes * Duration);
  cache_faults : list bool;            (* one entry per cache call, in order *)
  rand_uuid : nat -> UUID;             (* the values uuid.New() returns *)
  rand_used : nat;
  trace : list Event;
  log : list (Level * string)
}.

Section WorldOps.
Context `{Externals}.

Definition emit (ev : Event) (w : World) : World :=
  mkWorld _ (db_bikes w) (db_components w) (db_now w) (db_faults w)
    (cache_store w) (cache_faults w) (rand_uuid w) (rand_used w)
    (trace w ++ [ev]) (log w).

Definition logger (lvl : Level) (msg : string) (w : World) : World :=
  mkWorld _ (db_bikes w) (db_components w) (db_now w) (db_faults w)
    (cache_store w) (cache_faults w) (rand_uuid w) (rand_used w)
    (trace w) (log w ++ [(lvl, msg)]).

Definition set_bikes (m : gmap UUID bikes.row) (w : World) : World :=
  mkWorld _ m (db_components w) (db_now w) (db_faults w)
    (cache_store w) (cache_faults w) (rand_uuid w) (rand_used w)
    (trace w) (log w).

Definition set_components (m : gmap UUID components.row) (w : World) : World :=
  mkWorld _ (db_bikes w) m (db_now w) (db_faults w)
    (cache_store w) (cache_faults w) (rand_uuid w) (rand_used w)
    (trace w) (log w).

Definition set_db_faults (l : list (option DbFault)) (w : World) : World :=
  mkWorld _ (db_bikes w) (db_components w) (db_now w) l
    (cache_store w) (cache_faults w) (rand_uuid w) (rand_used w)
    (trace w) (log w).

Definition set_cache (m : gmap string (Bytes * Duration)) (w : World) : World :=
  mkWorld _ (db_bikes w) (db_components w) (db_now w) (db_faults w)
    m (cache_faults w) (rand_uuid w) (rand_used w)
    (trace w) (log w).

Definition set_cache_faults (l : list bool) (w : World) : World :=
  mkWorld _ (db_bikes w) (db_components w) (db_now w) (db_faults w)
    (cache_store w) l (rand_uuid w) (rand_used w)
    (trace w) (log w).

(** [uuid.New()] *)
Definition uuid_New (w : World) : UUID * World :=
  (rand_uuid w (rand_used w),
   mkWorld _ (db_bikes w) (db_components w) (db_now w) (db_faults w)
     (cache_store w) (cache_faults w) (rand_uuid w) (S (rand_used w))
     (trace w) (log w)).

(** A statement reaches the server: it is recorded, and the environment
    says whether the connection fails on it. *)
Definition db_call (ev : Event) (w : World) : option error * World :=
  let w := emit ev w in
  match db_faults w with
  | [] => (None, w)
  | f :: rest => (fault_error <$> f, set_db_faults rest w)
  end.

Definition cache_call (ev : Event) (w : World) : bool * World :=
  let w := emit ev w in
  match cache_faults w with
  | [] => (false, w)
  | f :: rest => (f, set_cache_faults rest w)
  end.

End WorldOps.

(** ** Cache port *)

Module CachePort.
Section CachePort.
Context `{Externals}.

(** Modelled from the spec: the cache adapter behind [ports.CachePort] is
    not part of the sources; section 4.5 gives its contract,
    [Get(key) -> bytes, found], [Set(key, bytes, ttl)], [Delete(key)], each
    of which may fail.  A missing key is reported as an error by [Get]. *)
Definition Get (key : string) (w : World) : Result Bytes * World :=
  let '(failed, w) := cache_call (CacheGet key) w in
  if failed then (Err (cache_error "get"), w)
  else match cache_store w !! key with
       | Some (data, _) => (Ok data, w)
       | None => (Err (cache_error "key not found"), w)
       end.

(** Modelled from the spec: [Set(key, bytes, ttl)] of the cache adapter
    (section 4.5); a failed call changes nothing. *)
Definition Set' (key : string) (data : Bytes) (ttl : Duration) (w : World)
  : option error * World :=
  let '(failed, w) := cache_call (CacheSet key ttl) w in
  if failed then (Some (cache_error "set"), w)
  else (None, set_cache (<[key := (data, ttl)]> (cache_store w)) w).

(** Modelled from the spec: [Delete(key)] of the cache adapter (section 4.5);
    a failed call changes nothing. *)
Definition Delete (key : string) (w : World) : option error * World :=
  let '(failed, w) := cache_call (CacheDelete key) w in
  if failed then (Some (cache_error "delete"), w)
  else (None, set_cache (delete key (cache_store w)) w).

End CachePort.
End CachePort.

(** ** Storage adapter (postgres) *)

(** The error mapping shared by the two INSERTs:
    [switch pqErr.Code { case "23502": ...; case "23503": ...; default: err }]. *)
Definition insert_error (fk_msg : string) (e : error) : error :=
  match e with
  | pq_Error code =>
      if decide (code = "23502") then errors_New "required field is missing"
      else if decide (code = "23503") then errors_New fk_msg
      else e
  | _ => e
  end.

(** The error mapping shared by the two UPDATEs. *)
Definition update_error (what : string) (e : error) : error :=
  match e with
  | sql_ErrNoRows => errors_New (what ++ " not found")
  | pq_Error code =>
      if decide (code = "23502") then errors_New "required field is missing"
      else fmt_Errorf_w ("error updating " ++ what) e
  | _ => fmt_Errorf_w ("error updating " ++ what) e
  end.

Module BikeRepository.
Section BikeRepository.
Context `{Externals}.

(** [Scan] of a full row into [bike]; [Components] is not a column. *)
Definition scan (r : bikes.row) (bike : Bike.t) : Bike.t :=
  Bike.mk (bikes.user_id r) (bikes.bike_id r) (bikes.bike_name r)
    (bikes.type r) (bikes.model r) (Bike.Components bike)
    (bikes.year r) (bikes.mileage r) (bikes.created_at r) (bikes.updated_at r).

(** [INSERT INTO bikes (...) VALUES ($1..$7)] on the table. *)
Definition insert (bike : Bike.t) (w : World) : Result bikes.row * World :=
  if negb (int4_ok (Bike.Year bike) && int4_ok (Bike.Mileage bike))
  then (Err (pq_Error "22003"), w)
  else
    match varchar 255 (Bike.BikeName bike), varchar 50 (Bike.Type' bike),
          varchar 255 (Bike.Model bike) with
    | Some n, Some t, Some m =>
        if negb (bikes.type_check t) then (Err (pq_Error "23514"), w)
        else match db_bikes w !! Bike.BikeID bike with
             | Some _ => (Err (pq_Error "23505"), w)
             | None =>
                 let r := bikes.mk (Bike.BikeID bike) (Bike.UserID bike) n t m
                            (Bike.Year bike) (Bike.Mileage bike)
                            (db_now w) (db_now w) in
                 (Ok r, set_bikes (<[Bike.BikeID bike := r]> (db_bikes w)) w)
             end
    | _, _, _ => (Err (pq_Error "22001"), w)
    end.

Definition CreateBike (bike : Bike.t) (w : World) : Result Bike.t * World :=
  let '(fault, w) := db_call (SqlInsertBike (Bike.BikeID bike)) w in
  match fault with
  | Some e => (Err (insert_error "user does not exist" e), w)
  | None =>
      match insert bike w with
      | (Err e, w) => (Err (insert_error "user does not exist" e), w)
      | (Ok r, w) =>
          (* RETURNING bike_id, created_at, updated_at *)
          (Ok (Bike.mk (Bike.UserID bike) (bikes.bike_id r) (Bike.BikeName bike)
                 (Bike.Type' bike) (Bike.Model bike) (Bike.Components bike)
                 (Bike.Year bike) (Bike.Mileage bike)
                 (bikes.created_at r) (bikes.updated_at r)), w)
      end
  end.

Definition GetBikeByID (bike_id : UUID) (w : World) : Result Bike.t * World :=
  let '(fault, w) := db_call (SqlSelectBike bike_id) w in
  match fault with
  | Some e => (Err e, w)
  | None =>
      match db_bikes w !! bike_id with
      | None => (Err (errors_New "bike not found"), w)
      | Some r => (Ok (scan r Bike.zero), w)
      end
  end.

Definition GetBikesByUserID (user_id : UUID) (w : World)
  : Result (list Bike.t) * World :=
  let '(fault, w) := db_call (SqlSelectBikesByUser user_id) w in
  match fault with
  | Some e => (Err e, w)
  | None =>
      (Ok ((fun r => scan r Bike.zero) <$>
             filter (fun r => bikes.user_id r = user_id)
                    (snd <$> map_to_list (db_bikes w))), w)
  end.

(** [DELETE FROM bikes WHERE bike_id = $1]; the foreign key of
    [components] is [ON DELETE CASCADE]. *)
Definition DeleteBike (bike_id : UUID) (w : World) : option error * World :=
  let '(fault, w) := db_call (SqlDeleteBike bike_id) w in
  match fault with
  | Some e => (Some e, w)
  | None =>
      match db_bikes w !! bike_id with
      | None => (Some (errors_New "Bike not found"), w)
      | Some _ =>
          let w := set_bikes (delete bike_id (db_bikes w)) w in
          let w := set_components
                     (filter (fun kr => components.bike_id (snd kr) <> bike_id)
                             (db_components w)) w in
          (None, w)
      end
  end.

(** The SET clause of the UPDATE, on the matching row. *)
Definition update_set (bike : Bike.t) (now : Time) (r : bikes.row)
  : Result bikes.row :=
  match varchar 255 (COALESCE (NULLIF (Bike.BikeName bike) "") (bikes.bike_name r)),
        varchar 50 (COALESCE (NULLIF (Bike.Type' bike) "") (bikes.type r)),
        varchar 255 (COALESCE (NULLIF (Bike.Model bike) "") (bikes.model r)) with
  | Some n, Some t, Some m =>
      if negb (bikes.type_check t) then Err (pq_Error "23514")
      else Ok (bikes.mk (bikes.bike_id r) (bikes.user_id r) n t m
                 (COALESCE (NULLIF (Bike.Year bike) 0) (bikes.year r))
                 (COALESCE (NULLIF (Bike.Mileage bike) 0) (bikes.mileage r))
                 (bikes.created_at r) now)
  | _, _, _ => Err (pq_Error "22001")
  end.

(** [UPDATE bikes SET ... WHERE bike_id = $6 RETURNING ...] on the table. *)
Definition update (bike : Bike.t) (w : World) : Result bikes.row * World :=
  if negb (int4_ok (Bike.Year bike) && int4_ok (Bike.Mileage bike))
  then (Err (pq_Error "22003"), w)
  else
    match db_bikes w !! Bike.BikeID bike with
    | None => (Err sql_ErrNoRows, w)
    | Some r =>
        match update_set bike (db_now w) r with
        | Err e => (Err e, w)
        | Ok r' => (Ok r', set_bikes (<[Bike.BikeID bike := r']> (db_bikes w)) w)
        end
    end.

Definition UpdateBike (bike : Bike.t) (w : World) : Result Bike.t * World :=
  let '(fault, w) := db_call (SqlUpdateBike (Bike.BikeID bike)) w in
  match fault with
  | Some e => (Err (update_error "bike" e), w)
  | None =>
      match update bike w with
      | (Err e, w) => (Err (update_error "bike" e), w)
      | (Ok r, w) => (Ok (scan r bike), w)
      end
  end.

End BikeRepository.
End BikeRepository.

Module ComponentRepository.
Section ComponentRepository.
Context `{Externals}.

(** [Scan] of a full row. *)
Definition scan (r : components.row) : Component.t :=
  Component.mk (components.id r) (components.bike_id r) (components.name r)
    (components.brand r) (components.model r) (components.installed_at r)
    (components.installed_mileage r) (components.max_mileage r)
    (components.created_at r) (components.updated_at r).

(** [INSERT INTO components (...) VALUES ($1..$8)] on the table;
    [fk_bike] requires the parent row. *)
Definition insert (c : Component.t) (w : World) : Result components.row * World :=
  if negb (int4_ok (Component.InstalledMileage c) && int4_ok (Component.MaxMileage c))
  then (Err (pq_Error "22003"), w)
  else
    match varchar 50 (Component.Name c), varchar 100 (Component.Brand c),
          varchar 100 (Component.Model c) with
    | Some n, Some b, Some m =>
        if negb (components.name_check n) then (Err (pq_Error "23514"), w)
        else match db_components w !! Component.ID c with
             | Some _ => (Err (pq_Error "23505"), w)
             | None =>
                 match db_bikes w !! Component.BikeID c with
                 | None => (Err (pq_Error "23503"), w)
                 | Some _ =>
                     let r := components.mk (Component.ID c) (Component.BikeID c)
                                n b m (Component.InstalledAt c)
                                (Component.InstalledMileage c) (Component.MaxMileage c)
                                (db_now w) (db_now w) in
                     (Ok r, set_components (<[Component.ID c := r]> (db_components w)) w)
                 end
             end
    | _, _, _ => (Err (pq_Error "22001"), w)
    end.

Definition CreateComponent (component : Component.t) (w : World)
  : Result Component.t * World :=
  let '(fault, w) := db_call (SqlInsertComponent (Component.ID component)) w in
  match fault with
  | Some e => (Err (insert_error "bike does not exist" e), w)
  | None =>
      match insert component w with
      | (Err e, w) => (Err (insert_error "bike does not exist" e), w)
      | (Ok r, w) =>
          (* RETURNING id, created_at, updated_at *)
          (Ok (Component.mk (components.id r) (Component.BikeID component)
                 (Component.Name component) (Component.Brand component)
                 (Component.Model component) (Component.InstalledAt component)
                 (Component.InstalledMileage component) (Component.MaxMileage component)
                 (components.created_at r) (components.updated_at r)), w)
      end
  end.

Definition GetComponentByID (componentID : UUID) (w : World)
  : Result Component.t * World :=
  let '(fault, w) := db_call (SqlSelectComponent componentID) w in
  match fault with
  | Some e => (Err (fmt_Errorf_w "failed to get component" e), w)
  | None =>
      match db_components w !! componentID with
      | None => (Err (errors_New "component not found"), w)
      | Some r => (Ok (scan r), w)
      end
  end.

(** [ORDER BY installed_at DESC] *)
Definition installed_desc (a b : components.row) : Prop :=
  components.installed_at b <= components.installed_at a.

#[local] Instance installed_desc_dec a b : Decision (installed_desc a b).
Proof. unfold installed_desc. apply _. Defined.

Definition GetComponentsByBikeID (bike_id : UUID) (w : World)
  : Result (list Component.t) * World :=
  let '(fault, w) := db_call (SqlSelectComponentsByBike bike_id) w in
  match fault with
  | Some e => (Err e, w)
  | None =>
      (Ok (scan <$>
             merge_sort installed_desc
               (filter (fun r => components.bike_id r = bike_id)
                       (snd <$> map_to_list (db_components w)))), w)
  end.

(** The SET clause of the UPDATE, on the matching row. *)
Definition update_set (c : Component.t) (now : Time) (r : components.row)
  : Result components.row :=
  match varchar 50 (COALESCE (NULLIF (Component.Name c) "") (components.name r)),
        varchar 100 (COALESCE (NULLIF (Component.Brand c) "") (components.brand r)),
        varchar 100 (COALESCE (NULLIF (Component.Model c) "") (components.model r)) with
  | Some n, Some b, Some m =>
      if negb (components.name_check n) then Err (pq_Error "23514")
      else Ok (components.mk (components.id r) (components.bike_id r) n b m
                 (COALESCE (NULLIF (Component.InstalledAt c) time_zero)
                           (components.installed_at r))
                 (COALESCE (NULLIF (Component.InstalledMileage c) 0)
                           (components.installed_mileage r))
                 (COALESCE (NULLIF (Component.MaxMileage c) 0)
                           (components.max_mileage r))
                 (components.created_at r) now)
  | _, _, _ => Err (pq_Error "22001")
  end.

(** [UPDATE components SET ... WHERE id = $7 RETURNING ...] on the table. *)
Definition update (c : Component.t) (w : World) : Result components.row * World :=
  if negb (int4_ok (Component.InstalledMileage c) && int4_ok (Component.MaxMileage c))
  then (Err (pq_Error "22003"), w)
  else
    match db_components w !! Component.ID c with
    | None => (Err sql_ErrNoRows, w)
    | Some r =>
        match update_set c (db_now w) r with
        | Err e => (Err e, w)
        | Ok r' =>
            (Ok r', set_components (<[Component.ID c := r']> (db_components w)) w)
        end
    end.

Definition UpdateComponent (component : Component.t) (w : World)
  : Result Component.t * World :=
  let '(fault, w) := db_call (SqlUpdateComponent (Component.ID component)) w in
  match fault with
  | Some e => (Err (update_error "component" e), w)
  | None =>
      match update component w with
      | (Err e, w) => (Err (update_error "component" e), w)
      | (Ok r, w) => (Ok (scan r), w)
      end
  end.

Definition DeleteComponent (component_id : UUID) (w : World) : option error * World :=
  let '(fault, w) := db_call (SqlDeleteComponent component_id) w in
  match fault with
  | Some e => (Some e, w)
  | None =>
      match db_components w !! component_id with
      | None => (Some (errors_New "component not found"), w)
      | Some _ => (None, set_components (delete component_id (db_components w)) w)
      end
  end.

End ComponentRepository.
End ComponentRepository.


(** ** Validation (go-playground/validator on the struct tags) *)

Module validate.
Section validate.
Context `{Externals}.

(** [domain.Bike] carries no [validate] tag on any field, and its
    [Components] slice has no [dive]: nothing is checked. *)
Definition Bike_failures (bike : Bike.t) : list (string * string) := [].

(** The tags of [domain.Component]: [BikeID required], [Name required],
    [Brand max=100], [Model max=100], [InstalledAt required],
    [InstalledMileage min=0], [MaxMileage required,min=1,max=1000000]. *)
Definition Component_failures (c : Component.t) : list (string * string) :=
  (if decide (Component.BikeID c = uuid_Nil) then [("BikeID", "required")] else [])
  ++ (if decide (Component.Name c = "") then [("Name", "required")] else [])
  ++ (if (100 <? utf8_RuneCountInString (Component.Brand c))%nat
      then [("Brand", "max")] else [])
  ++ (if (100 <? utf8_RuneCountInString (Component.Model c))%nat
      then [("Model", "max")] else [])
  ++ (if decide (Component.InstalledAt c = time_zero)
      then [("InstalledAt", "required")] else [])
  ++ (if Component.InstalledMileage c <? 0 then [("InstalledMileage", "min")] else [])
  ++ (if decide (Component.MaxMileage c = 0) then [("MaxMileage", "required")]
      else if Component.MaxMileage c <? 1 then [("MaxMileage", "min")]
      else if 1000000 <? Component.MaxMileage c then [("MaxMileage", "max")]
      else []).

(** [validate.Struct(s)]: nil when no field fails. *)
Definition Struct (failures : list (string * string)) : option error :=
  match failures with
  | [] => None
  | _ => Some (validator_ValidationErrors failures)
  end.

End validate.
End validate.

(** ** Services *)

(** [fmt.Sprintf("bike:%s", id)] *)
Definition cache_key (id : string) : string := "bike:" ++ id.

Module BikeService.
Section BikeService.
Context `{Externals}.

Definition CreateBike (bike : Bike.t) (w : World) : Result Bike.t * World :=
  match validate.Struct (validate.Bike_failures bike) with
  | Some err =>
      let w := logger LError "Bike validation failed" w in
      (Err (fmt_Errorf_w "validation error" err), w)
  | None =>
      let '(bike, w) :=
        if decide (Bike.BikeID bike = uuid_Nil)
        then let '(id, w) := uuid_New w in (Bike.set_BikeID id bike, w)
        else (bike, w) in
      match BikeRepository.CreateBike bike w with
      | (Err err, w) =>
          let w := logger LError "Failed to create bike" w in
          (Err err, w)
      | (Ok createdBike, w) =>
          let w := logger LInfo "Bike created successfully" w in
          (Ok createdBike, w)
      end
  end.

Definition GetBikeByID (bikeID : string) (w : World) : Result Bike.t * World :=
  match uuid_Parse bikeID with
  | None =>
      let w := logger LError "Invalid UUID format" w in
      (Err (fmt_Errorf_w "invalid bike ID" (uuid_error bikeID)), w)
  | Some bikeUUID =>
      let cacheKey := cache_key bikeID in
      let '(cachedData, w) := CachePort.Get cacheKey w in
      match match cachedData with
            | Ok data => json_Unmarshal data
            | Err _ => None
            end with
      | Some cachedBike =>
          let w := logger LInfo "Bike found in cache" w in
          (Ok cachedBike, w)
      | None =>
          match BikeRepository.GetBikeByID bikeUUID w with
          | (Err err, w) =>
              let w := logger LError "Failed to get bike" w in
              (Err err, w)
          | (Ok bike, w) =>
              match json_Marshal bike with
              | None =>
                  let w := logger LWarn "Failed to marshal bike for cache" w in
                  (Ok bike, w)
              | Some bikeData =>
                  match CachePort.Set' cacheKey bikeData (15 * time_Minute) w with
                  | (Some _, w) =>
                      let w := logger LWarn "Failed to cache bike" w in
                      (Ok bike, w)
                  | (None, w) => (Ok bike, w)
                  end
              end
          end
      end
  end.

Definition GetBikesByUserID (userID : string) (w : World)
  : Result (list Bike.t) * World :=
  match uuid_Parse userID with
  | None =>
      let w := logger LError "Invalid UUID format" w in
      (Err (fmt_Errorf_w "invalid user ID" (uuid_error userID)), w)
  | Some userUUID =>
      match BikeRepository.GetBikesByUserID userUUID w with
      | (Err err, w) =>
          let w := logger LError "Failed to get bikes" w in
          (Err err, w)
      | (Ok bikes, w) =>
          let w := logger LInfo "Retrieved bikes for user" w in
          (Ok bikes, w)
      end
  end.

(** [s.cache.Delete(cacheKey)], its error logged and dropped. *)
Definition invalidate (cacheKey : string) (w : World) : World :=
  match CachePort.Delete cacheKey w with
  | (Some _, w) => logger LWarn "Failed to invalidate bike cache" w
  | (None, w) => w
  end.

Definition UpdateBike (bike : Bike.t) (w : World) : Result Bike.t * World :=
  match validate.Struct (validate.Bike_failures bike) with
  | Some err =>
      let w := logger LError "Bike validation failed" w in
      (Err (fmt_Errorf_w "validation error" err), w)
  | None =>
      match BikeRepository.UpdateBike bike w with
      | (Err err, w) =>
          let w := logger LError "Failed to update bike" w in
          (Err err, w)
      | (Ok updatedBike, w) =>
          (* [bike] and [updatedBike] are the same struct after the Scan *)
          let cacheKey := cache_key (uuid_String (Bike.BikeID updatedBike)) in
          let w := invalidate cacheKey w in
          let w := logger LInfo "Bike updated successfully" w in
          (Ok updatedBike, w)
      end
  end.

Definition DeleteBike (bikeID : string) (w : World) : option error * World :=
  match uuid_Parse bikeID with
  | None =>
      let w := logger LError "Invalid UUID format" w in
      (Some (fmt_Errorf_w "invalid bike ID" (uuid_error bikeID)), w)
  | Some bikeUUID =>
      match BikeRepository.DeleteBike bikeUUID w with
      | (Some err, w) =>
          let w := logger LError "Failed to delete bike" w in
          (Some err, w)
      | (None, w) =>
          let w := invalidate (cache_key bikeID) w in
          let w := logger LInfo "Bike deleted successfully" w in
          (None, w)
      end
  end.

Definition GetBikeWithComponents (bikeID : string) (w : World)
  : Result Bike.t * World :=
  match uuid_Parse bikeID with
  | None =>
      let w := logger LError "Invalid UUID format" w in
      (Err (fmt_Errorf_w "invalid bike ID" (uuid_error bikeID)), w)
  | Some bikeUUID =>
      match BikeRepository.GetBikeByID bikeUUID w with
      | (Err err, w) =>
          let w := logger LError "Failed to get bike" w in
          (Err err, w)
      | (Ok bike, w) =>
          let '(components, w) :=
            match ComponentRepository.GetComponentsByBikeID bikeUUID w with
            | (Err _, w) => ([], logger LWarn "Failed to get components" w)
            | (Ok components, w) => (components, w)
            end in
          let w := logger LInfo "Retrieved bike with components" w in
          (Ok (Bike.set_Components components bike), w)
      end
  end.

End BikeService.
End BikeService.

Module ComponentService.
Section ComponentService.
Context `{Externals}.

Definition CreateComponent (component : Component.t) (w : World)
  : Result Component.t * World :=
  match validate.Struct (validate.Component_failures component) with
  | Some err =>
      let w := logger LError "Component validation failed" w in
      (Err (fmt_Errorf_w "validation error" err), w)
  | None =>
      let '(component, w) :=
        if decide (Component.ID component = uuid_Nil)
        then let '(id, w) := uuid_New w in (Component.set_ID id component, w)
        else (component, w) in
      match ComponentRepository.CreateComponent component w with
      | (Err err, w) =>
          let w := logger LError "Failed to create component" w in
          (Err err, w)
      | (Ok createdComponent, w) =>
          (* [component] and [createdComponent] are the same struct *)
          let cacheKey := cache_key (uuid_String (Component.BikeID createdComponent)) in
          let w := BikeService.invalidate cacheKey w in
          let w := logger LInfo "Component created successfully" w in
          (Ok createdComponent, w)
      end
  end.

Definition GetComponentByID (componentID : string) (w : World)
  : Result Component.t * World :=
  match uuid_Parse componentID with
  | None =>
      let w := logger LError "Invalid UUID format" w in
      (Err (fmt_Errorf_w "invalid component ID" (uuid_error componentID)), w)
  | Some componentUUID =>
      match ComponentRepository.GetComponentByID componentUUID w with
      | (Err err, w) =>
          let w := logger LError "Failed to get component" w in
          (Err err, w)
      | (Ok component, w) =>
          let w := logger LInfo "Retrieved component" w in
          (Ok component, w)
      end
  end.

Definition GetComponentsByBikeID (bikeID : string) (w : World)
  : Result (list Component.t) * World :=
  match uuid_Parse bikeID with
  | None =>
      let w := logger LError "Invalid UUID format" w in
      (Err (fmt_Errorf_w "invalid bike ID" (uuid_error bikeID)), w)
  | Some bikeUUID =>
      match ComponentRepository.GetComponentsByBikeID bikeUUID w with
      | (Err err, w) =>
          let w := logger LError "Failed to get components" w in
          (Err err, w)
      | (Ok components, w) =>
          let w := logger LInfo "Retrieved components for bike" w in
          (Ok components, w)
      end
  end.

Definition UpdateComponent (component : Component.t) (w : World)
  : Result Component.t * World :=
  match validate.Struct (validate.Component_failures component) with
  | Some err =>
      let w := logger LError "Component validation failed" w in
      (Err (fmt_Errorf_w "validation error" err), w)
  | None =>
      match ComponentRepository.UpdateComponent component w with
      | (Err err, w) =>
          let w := logger LError "Failed to update component" w in
          (Err err, w)
      | (Ok updatedComponent, w) =>
          (* the Scan has overwritten [component.BikeID] with the stored one *)
          let cacheKey := cache_key (uuid_String (Component.BikeID updatedComponent)) in
          let w := BikeService.invalidate cacheKey w in
          let w := logger LInfo "Component updated successfully" w in
          (Ok updatedComponent, w)
      end
  end.

Definition DeleteComponent (componentID : string) (w : World) : option error * World :=
  match uuid_Parse componentID with
  | None =>
      let w := logger LError "Invalid UUID format" w in
      (Some (fmt_Errorf_w "invalid component ID" (uuid_error componentID)), w)
  | Some componentUUID =>
      match ComponentRepository.GetComponentByID componentUUID w with
      | (Err err, w) =>
          let w := logger LError "Failed to get component" w in
          (Some err, w)
      | (Ok component, w) =>
          match ComponentRepository.DeleteComponent componentUUID w with
          | (Some err, w) =>
              let w := logger LError "Failed to delete component" w in
              (Some err, w)
          | (None, w) =>
              let cacheKey := cache_key (uuid_String (Component.BikeID component)) in
              let w := BikeService.invalidate cacheKey w in
              let w := logger LInfo "Component deleted successfully" w in
              (None, w)
          end
      end
  end.

End ComponentService.
End ComponentService.

(** ** HTTP handlers *)

(** What a handler reads from [*gin.Context]: the payload the authentication
    middleware stored under ["authorization_payload"] ([getAuthPayload], absent
    when there is no valid identity), the [:id] path parameter and the wall
    clock. *)
Record Context : Type := mkContext {
  authorization_payload : option TokenPayload.t;
  Param_id : string;
  time_Now : Time
}.

(** Request bodies; [None] for a field is an absent JSON key. *)
Record BikeRequest : Type := mkBikeRequest {
  br_Model : string;
  br_Type : string;
  br_Mileage : Z
}.

Record UpdateBike : Type := mkUpdateBike {
  ub_Model : option string;
  ub_Type : option string;
  ub_Mileage : option Z
}.

Record ComponentRequest : Type := mkComponentRequest {
  cr_BikeID : string;
  cr_Name : string;
  cr_Brand : string;
  cr_Model : string;
  cr_InstalledMileage : Z;
  cr_MaxMileage : Z
}.

Record UpdateComponent : Type := mkUpdateComponent {
  uc_Name : option string;
  uc_Brand : option string;
  uc_Model : option string;
  uc_InstalledMileage : option Z;
  uc_MaxMileage : option Z
}.

Inductive Data : Type :=
| NoData
| BikeData (bike : Bike.t)
| BikesData (bikes : list Bike.t)
| ComponentData (component : Component.t)
| BikeWithUserData (bike_id model : string) (mileage : Z) (user : option string).

Record Response : Type := mkResponse {
  status : Z;
  message : string;
  data : Data
}.

Definition StatusOK : Z := 200.
Definition StatusCreated : Z := 201.
Definition StatusBadRequest : Z := 400.
Definition StatusUnauthorized : Z := 401.
Definition StatusForbidden : Z := 403.
Definition StatusNotFound : Z := 404.
Definition StatusInternalServerError : Z := 500.

(** Modelled from the spec: the two response helpers are not part of the
    sources; section 6 gives the envelope, a status code with a message and,
    on success, the entity. *)
Definition newErrorResponse (code : Z) (msg : string) : Response :=
  mkResponse code msg NoData.

Definition newSuccessResponse (code : Z) (msg : string) (d : Data) : Response :=
  mkResponse code msg d.

(** [payload.Role != domain.Admin && payload.UserID != bike.UserID] *)
Definition denied (payload : TokenPayload.t) (bike : Bike.t) : bool :=
  negb (bool_decide (TokenPayload.Role payload = Admin))
  && negb (bool_decide (TokenPayload.UserID payload = Bike.UserID bike)).

(** [binding:"required"] of gin on the two create bodies: the zero value of
    a required field fails the bind. *)
Definition bind_BikeRequest (body : option BikeRequest) : option BikeRequest :=
  match body with
  | Some req =>
      if bool_decide (br_Model req = "") || bool_decide (br_Type req = "")
         || bool_decide (br_Mileage req = 0)
      then None else Some req
  | None => None
  end.

Definition bind_ComponentRequest (body : option ComponentRequest)
  : option ComponentRequest :=
  match body with
  | Some req =>
      if bool_decide (cr_BikeID req = "") || bool_decide (cr_Name req = "")
         || bool_decide (cr_InstalledMileage req = 0)
         || bool_decide (cr_MaxMileage req = 0)
      then None else Some req
  | None => None
  end.

Module BikeHandler.
Section BikeHandler.
Context `{Externals}.

Definition CreateBike (c : Context) (body : option BikeRequest) (w : World)
  : Response * World :=
  match authorization_payload c with
  | None =>
      let w := logger LWarn "Unauthorized access attempt to CreateBike" w in
      (newErrorResponse StatusUnauthorized "Unauthorized", w)
  | Some payload =>
      match bind_BikeRequest body with
      | None =>
          let w := logger LError "Failed JSON parse in create bike" w in
          (newErrorResponse StatusBadRequest "Invalid JSON format", w)
      | Some req =>
          let bike := Bike.mk (TokenPayload.UserID payload) uuid_Nil "" (br_Type req)
                        (br_Model req) [] 0 (br_Mileage req) time_zero time_zero in
          match BikeService.CreateBike bike w with
          | (Err _, w) =>
              let w := logger LError "Failed to create bike" w in
              (newErrorResponse StatusInternalServerError "Failed to create bike", w)
          | (Ok createdBike, w) =>
              let w := logger LInfo "Bike created successfully" w in
              (newSuccessResponse StatusCreated "Bike created successfully"
                 (BikeData createdBike), w)
          end
      end
  end.

Definition GetBike (c : Context) (w : World) : Response * World :=
  let bikeID := Param_id c in
  match authorization_payload c with
  | None =>
      let w := logger LWarn "Unauthorized access attempt to GetBike" w in
      (newErrorResponse StatusUnauthorized "Unauthorized", w)
  | Some payload =>
      match BikeService.GetBikeByID bikeID w with
      | (Err _, w) =>
          let w := logger LError "Failed to get bike" w in
          (newErrorResponse StatusNotFound "Bike not found", w)
      | (Ok bike, w) =>
          if denied payload bike then
            let w := logger LWarn "Access denied to bike" w in
            (newErrorResponse StatusForbidden "Access denied", w)
          else (newSuccessResponse StatusOK "Bike found" (BikeData bike), w)
      end
  end.

Definition GetMyBikes (c : Context) (w : World) : Response * World :=
  match authorization_payload c with
  | None =>
      let w := logger LWarn "Unauthorized access attempt to GetMyBikes" w in
      (newErrorResponse StatusUnauthorized "Unauthorized", w)
  | Some payload =>
      match BikeService.GetBikesByUserID (uuid_String (TokenPayload.UserID payload)) w with
      | (Err _, w) =>
          let w := logger LError "Failed to get bikes" w in
          (newErrorResponse StatusInternalServerError "Failed to get bikes", w)
      | (Ok bikes, w) =>
          (newSuccessResponse StatusOK "Bikes retrieved successfully" (BikesData bikes), w)
      end
  end.

Definition UpdateBike (c : Context) (body : option UpdateBike) (w : World)
  : Response * World :=
  let bikeID := Param_id c in
  match authorization_payload c with
  | None =>
      let w := logger LWarn "Unauthorized access attempt to UpdateBike" w in
      (newErrorResponse StatusUnauthorized "Unauthorized", w)
  | Some payload =>
      match BikeService.GetBikeByID bikeID w with
      | (Err _, w) =>
          let w := logger LError "Failed to get bike" w in
          (newErrorResponse StatusNotFound "Bike not found", w)
      | (Ok existingBike, w) =>
          if denied payload existingBike then
            let w := logger LWarn "Access denied to update bike" w in
            (newErrorResponse StatusForbidden "Access denied", w)
          else
            match body with
            | None =>
                let w := logger LError "Failed JSON parse in update bike" w in
                (newErrorResponse StatusBadRequest "Invalid JSON format", w)
            | Some req =>
                match uuid_Parse bikeID with
                | None =>
                    let w := logger LError "Invalid bike ID format" w in
                    (newErrorResponse StatusBadRequest "Invalid bike ID", w)
                | Some parsedID =>
                    let bike :=
                      Bike.mk (Bike.UserID existingBike) parsedID ""
                        (default "" (ub_Type req)) (default "" (ub_Model req)) []
                        0 (default 0 (ub_Mileage req)) time_zero time_zero in
                    match BikeService.UpdateBike bike w with
                    | (Err _, w) =>
                        let w := logger LError "Failed to update bike" w in
                        (newErrorResponse StatusInternalServerError "Update failed", w)
                    | (Ok updatedBike, w) =>
                        let w := logger LInfo "Bike updated successfully" w in
                        (newSuccessResponse StatusOK "Bike updated successfully"
                           (BikeData updatedBike), w)
                    end
                end
            end
      end
  end.

Definition DeleteBike (c : Context) (w : World) : Response * World :=
  let bikeID := Param_id c in
  match authorization_payload c with
  | None =>
      let w := logger LWarn "Unauthorized access attempt to DeleteBike" w in
      (newErrorResponse StatusUnauthorized "Unauthorized", w)
  | Some payload =>
      match BikeService.GetBikeByID bikeID w with
      | (Err _, w) =>
          let w := logger LError "Failed to get bike" w in
          (newErrorResponse StatusNotFound "Bike not found", w)
      | (Ok existingBike, w) =>
          if denied payload existingBike then
            let w := logger LWarn "Access denied to delete bike" w in
            (newErrorResponse StatusForbidden "Access denied", w)
          else
            match BikeService.DeleteBike bikeID w with
            | (Some _, w) =>
                let w := logger LError "Failed to delete bike" w in
                (newErrorResponse StatusInternalServerError "Delete failed", w)
            | (None, w) =>
                let w := logger LInfo "Bike deleted successfully" w in
                (newSuccessResponse StatusOK "Bike deleted successfully" NoData, w)
            end
      end
  end.

Definition GetBikeWithComponents (c : Context) (w : World) : Response * World :=
  let bikeID := Param_id c in
  match authorization_payload c with
  | None =>
      let w := logger LWarn "Unauthorized access attempt to GetBikeWithComponents" w in
      (newErrorResponse StatusUnauthorized "Unauthorized", w)
  | Some payload =>
      match BikeService.GetBikeWithComponents bikeID w with
      | (Err _, w) =>
          let w := logger LError "Failed to get bike with components" w in
          (newErrorResponse StatusNotFound "Bike not found", w)
      | (Ok bike, w) =>
          if denied payload bike then
            let w := logger LWarn "Access denied to bike" w in
            (newErrorResponse StatusForbidden "Access denied", w)
          else
            (newSuccessResponse StatusOK "Bike with components found" (BikeData bike), w)
      end
  end.

(** [GetUsersID] is the call to the user service: its answer for a user id,
    [None] when the call fails. *)
Definition GetBikeWithUser (GetUsersID : string -> option string)
  (c : Context) (w : World) : Response * World :=
  let bikeID := Param_id c in
  match authorization_payload c with
  | None =>
      let w := logger LWarn "Unauthorized access attempt to GetBikeWithUser" w in
      (newErrorResponse StatusUnauthorized "Unauthorized", w)
  | Some payload =>
      match BikeService.GetBikeByID bikeID w with
      | (Err _, w) =>
          let w := logger LError "Failed to get bike" w in
          (newErrorResponse StatusNotFound "Bike not found", w)
      | (Ok bike, w) =>
          if denied payload bike then
            let w := logger LWarn "Access denied to bike" w in
            (newErrorResponse StatusForbidden "Access denied", w)
          else
            let '(user, w) :=
              match GetUsersID (uuid_String (Bike.UserID bike)) with
              | None => (None, logger LWarn "Failed to get user from User service" w)
              | Some u => (Some u, w)
              end in
            (newSuccessResponse StatusOK "Bike with user found"
               (BikeWithUserData (uuid_String (Bike.BikeID bike)) (Bike.Model bike)
                  (Bike.Mileage bike) user), w)
      end
  end.

End BikeHandler.
End BikeHandler.

Module ComponentHandler.
Section ComponentHandler.
Context `{Externals}.

Definition CreateComponent (c : Context) (body : option ComponentRequest) (w : World)
  : Response * World :=
  match authorization_payload c with
  | None =>
      let w := logger LWarn "Unauthorized access attempt to CreateComponent" w in
      (newErrorResponse StatusUnauthorized "Unauthorized", w)
  | Some payload =>
      match bind_ComponentRequest body with
      | None =>
          let w := logger LError "Failed JSON parse in create component" w in
          (newErrorResponse StatusBadRequest "Invalid JSON format", w)
      | Some req =>
          match BikeService.GetBikeByID (cr_BikeID req) w with
          | (Err _, w) =>
              let w := logger LError "Failed to get bike" w in
              (newErrorResponse StatusNotFound "Bike not found", w)
          | (Ok bike, w) =>
              if denied payload bike then
                let w := logger LWarn "Access denied to add component" w in
                (newErrorResponse StatusForbidden "Access denied", w)
              else
                match uuid_Parse (cr_BikeID req) with
                | None =>
                    let w := logger LError "Invalid bike ID format" w in
                    (newErrorResponse StatusBadRequest "Invalid bike ID", w)
                | Some bikeUUID =>
                    let component :=
                      Component.mk uuid_Nil bikeUUID (cr_Name req) (cr_Brand req)
                        (cr_Model req) (time_Now c) (cr_InstalledMileage req)
                        (cr_MaxMileage req) time_zero time_zero in
                    match ComponentService.CreateComponent component w with
                    | (Err _, w) =>
                        let w := logger LError "Failed to create component" w in
                        (newErrorResponse StatusInternalServerError
                           "Failed to create component", w)
                    | (Ok createdComponent, w) =>
                        let w := logger LInfo "Component created successfully" w in
                        (newSuccessResponse StatusCreated "Component created successfully"
                           (ComponentData createdComponent), w)
                    end
                end
          end
      end
  end.

Definition GetComponent (c : Context) (w : World) : Response * World :=
  let componentID := Param_id c in
  match authorization_payload c with
  | None =>
      let w := logger LWarn "Unauthorized access attempt to GetComponent" w in
      (newErrorResponse StatusUnauthorized "Unauthorized", w)
  | Some payload =>
      match ComponentService.GetComponentByID componentID w with
      | (Err _, w) =>
          let w := logger LError "Failed to get component" w in
          (newErrorResponse StatusNotFound "Component not found", w)
      | (Ok component, w) =>
          match BikeService.GetBikeByID (uuid_String (Component.BikeID component)) w with
          | (Err _, w) =>
              let w := logger LError "Failed to get bike" w in
              (newErrorResponse StatusNotFound "Bike not found", w)
          | (Ok bike, w) =>
              if denied payload bike then
                let w := logger LWarn "Access denied to component" w in
                (newErrorResponse StatusForbidden "Access denied", w)
              else
                (newSuccessResponse StatusOK "Component found"
                   (ComponentData component), w)
          end
      end
  end.

Definition UpdateComponent (c : Context) (body : option UpdateComponent) (w : World)
  : Response * World :=
  let componentID := Param_id c in
  match authorization_payload c with
  | None =>
      let w := logger LWarn "Unauthorized access attempt to UpdateComponent" w in
      (newErrorResponse StatusUnauthorized "Unauthorized", w)
  | Some payload =>
      match ComponentService.GetComponentByID componentID w with
      | (Err _, w) =>
          let w := logger LError "Failed to get component" w in
          (newErrorResponse StatusNotFound "Component not found", w)
      | (Ok existingComponent, w) =>
          match BikeService.GetBikeByID
                  (uuid_String (Component.BikeID existingComponent)) w with
          | (Err _, w) =>
              let w := logger LError "Failed to get bike" w in
              (newErrorResponse StatusNotFound "Bike not found", w)
          | (Ok bike, w) =>
              if denied payload bike then
                let w := logger LWarn "Access denied to update component" w in
                (newErrorResponse StatusForbidden "Access denied", w)
              else
                match body with
                | None =>
                    let w := logger LError "Failed JSON parse in update component" w in
                    (newErrorResponse StatusBadRequest "Invalid JSON format", w)
                | Some req =>
                    match uuid_Parse componentID with
                    | None =>
                        let w := logger LError "Invalid component ID format" w in
                        (newErrorResponse StatusBadRequest "Invalid component ID", w)
                    | Some parsedID =>
                        let component :=
                          Component.mk parsedID (Component.BikeID existingComponent)
                            (default "" (uc_Name req)) (default "" (uc_Brand req))
                            (default "" (uc_Model req)) time_zero
                            (default 0 (uc_InstalledMileage req))
                            (default 0 (uc_MaxMileage req)) time_zero time_zero in
                        match ComponentService.UpdateComponent component w with
                        | (Err _, w) =>
                            let w := logger LError "Failed to update component" w in
                            (newErrorResponse StatusInternalServerError "Update failed", w)
                        | (Ok updatedComponent, w) =>
                            let w := logger LInfo "Component updated successfully" w in
                            (newSuccessResponse StatusOK "Component updated successfully"
                               (ComponentData updatedComponent), w)
                        end
                    end
                end
          end
      end
  end.

Definition DeleteComponent (c : Context) (w : World) : Response * World :=
  let componentID := Param_id c in
  match authorization_payload c with
  | None =>
      let w := logger LWarn "Unauthorized access attempt to DeleteComponent" w in
      (newErrorResponse StatusUnauthorized "Unauthorized", w)
  | Some payload =>
      match ComponentService.GetComponentByID componentID w with
      | (Err _, w) =>
          let w := logger LError "Failed to get component" w in
          (newErrorResponse StatusNotFound "Component not found", w)
      | (Ok existingComponent, w) =>
          match BikeService.GetBikeByID
                  (uuid_String (Component.BikeID existingComponent)) w with
          | (Err _, w) =>
              let w := logger LError "Failed to get bike" w in
              (newErrorResponse StatusNotFound "Bike not found", w)
          | (Ok bike, w) =>
              if denied payload bike then
                let w := logger LWarn "Access denied to delete component" w in
                (newErrorResponse StatusForbidden "Access denied", w)
              else
                match ComponentService.DeleteComponent componentID w with
                | (Some _, w) =>
                    let w := logger LError "Failed to delete component" w in
                    (newErrorResponse StatusInternalServerError "Delete failed", w)
                | (None, w) =>
                    let w := logger LInfo "Component deleted successfully" w in
                    (newSuccessResponse StatusOK "Component deleted successfully" NoData, w)
                end
          end
      end
  end.

End ComponentHandler.
End ComponentHandler.

(** ** An implementation of the library interface

    Identifiers are printed in the canonical 8-4-4-4-12 lower-case form and
    parsed from it; a cached value is either the serialized bike or bytes
    that do not deserialize; strings are ASCII. *)

Module Canonical.

Definition hex_digit (n : N) : ascii :=
  match n with
  | 0 => "0" | 1 => "1" | 2 => "2" | 3 => "3" | 4 => "4" | 5 => "5"
  | 6 => "6" | 7 => "7" | 8 => "8" | 9 => "9" | 10 => "a" | 11 => "b"
  | 12 => "c" | 13 => "d" | 14 => "e" | _ => "f"
  end%N%char.

Definition hex_value (c : ascii) : option N :=
  let n := N_of_ascii c in
  if ((48 <=? n) && (n <=? 57))%N then Some (n - 48)%N
  else if ((97 <=? n) && (n <=? 102))%N then Some (n - 87)%N
  else if ((65 <=? n) && (n <=? 70))%N then Some (n - 55)%N
  else None.

Fixpoint to_hex (digits : nat) (u : N) : string :=
  match digits with
  | O => ""
  | S k => to_hex k (u / 16)%N ++ String (hex_digit (u mod 16)%N) ""
  end.

Fixpoint of_hex (acc : N) (s : string) : option N :=
  match s with
  | EmptyString => Some acc
  | String c s' =>
      match hex_value c with
      | Some d => of_hex (16 * acc + d)%N s'
      | None => None
      end
  end.

Definition String' (u : UUID) : string :=
  let h := to_hex 32 u in
  substring 0 8 h ++ "-" ++ substring 8 4 h ++ "-" ++ substring 12 4 h ++ "-"
  ++ substring 16 4 h ++ "-" ++ substring 20 12 h.

Definition Parse (s : string) : option UUID :=
  if bool_decide (String.length s = 36%nat
                  /\ substring 8 1 s = "-" /\ substring 13 1 s = "-"
                  /\ substring 18 1 s = "-" /\ substring 23 1 s = "-")
  then of_hex 0 (substring 0 8 s ++ substring 9 4 s ++ substring 14 4 s
                 ++ substring 19 4 s ++ substring 24 12 s)
  else None.

#[export] Instance externals : Externals := {|
  uuid_Parse := Parse;
  uuid_String := String';
  Bytes := option Bike.t;
  json_Marshal := fun bike => Some (Some bike);
  json_Unmarshal := fun data => data;
  utf8_RuneCountInString := String.length
|}.

End Canonical.

(** ** RPC surface *)

Module serverAPI.
Section serverAPI.
Context `{Externals}.

(** The fields of [webikev1.Bike] that [GetBikes] fills. *)
Record Bike : Type := mkBike {
  BikeId : string;
  Model : string;
  Mileage : Z
}.

(** The conversion [int32(x)] from [int]: the low 32 bits, signed. *)
Definition int32 (z : Z) : Z := (z + 2 ^ 31) mod 2 ^ 32 - 2 ^ 31.

(** [func (s *serverAPI) GetBikes(ctx, req)]; [userID] is [req.GetUserId()]. *)
Definition GetBikes (userID : string) (w : World) : Result (list Bike) * World :=
  match BikeService.GetBikesByUserID userID w with
  | (Err _, w) =>
      let w := logger LWarn "Failed to get bikes" w in
      (Ok [], w)
  | (Ok bikes, w) =>
      let pbBikes :=
        (fun bike => mkBike (uuid_String (Bike.BikeID bike)) (Bike.Model bike)
                       (int32 (Bike.Mileage bike))) <$> bikes in
      let w := logger LInfo "Bikes retrieved successfully" w in
      (Ok pbBikes, w)
  end.

End serverAPI.
End serverAPI.

(** ** Token verification *)

(** A value of [jwt.MapClaims]: a string, or anything else. *)
Inductive Claim : Type :=
| ClaimString (s : string)
| ClaimOther.

Module JWTTokenService.
Section JWTTokenService.
Context `{Externals}.

(** [jwt.Parse] with the service's key, from the library: an error, or the
    token's claims, which are [None] when they are not a [jwt.MapClaims]. *)
Variable jwt_Parse : string -> Result (option (gmap string Claim)).

(** [claims[key].(string)] *)
Definition claim_string (claims : gmap string Claim) (key : string) : option string :=
  match claims !! key with
  | Some (ClaimString s) => Some s
  | _ => None
  end.

(** [func (j *JWTTokenService) VerifyToken(token string)] *)
Definition VerifyToken (token : string) (w : World) : Result TokenPayload.t * World :=
  match jwt_Parse token with
  | Err err =>
      let w := logger LError "Failed to parse jwt" w in
      (Err err, w)
  | Ok None =>
      let w := logger LError "Failed claims from token" w in
      (Err (errors_New "failed to verify"), w)
  | Ok (Some claims) =>
      match claim_string claims "id" with
      | None => (Err (errors_New "invalid id convert"), w)
      | Some idStr =>
          match uuid_Parse idStr with
          | None => (Err (errors_New "invalid parse id"), w)
          | Some id =>
              match claim_string claims "user_id" with
              | None => (Err (errors_New "invalid user_id claims"), w)
              | Some userIDStr =>
                  match uuid_Parse userIDStr with
                  | None => (Err (errors_New "invalid parse user_id"), w)
                  | Some userID =>
                      match claim_string claims "role" with
                      | None => (Err (errors_New "invalid role"), w)
                      | Some roleClaimed =>
                          if negb (bool_decide (roleClaimed = Admin))
                             && negb (bool_decide (roleClaimed = AppUser))
                          then
                            let w := logger LWarn "Invalid role in token" w in
                            (Err (errors_New "invalid role value"), w)
                          else (Ok (TokenPayload.mk id userID roleClaimed), w)
                      end
                  end
              end
          end
      end
  end.

End JWTTokenService.
End JWTTokenService.

(** * Specification vocabulary *)

(** ** Merge on update, in the spec's words *)

(** A zero number leaves the stored one, any other replaces it. *)
Definition merge_number (input stored : Z) : Z :=
  if decide (input = 0) then stored else input.

(** An empty string leaves the stored one, any other replaces it (in the
    form a [VARCHAR(n)] column keeps: its first [n] characters). *)
Definition merge_text (n : nat) (input stored : string) : string :=
  if decide (input = "") then stored else substring 0 n input.

Definition merge_time (input stored : Time) : Time :=
  if decide (input = time_zero) then stored else input.

(** The rows within the column sizes of the schema. *)
Definition bikes_fits (r : bikes.row) : Prop :=
  (String.length (bikes.bike_name r) <= 255)%nat
  /\ (String.length (bikes.type r) <= 50)%nat
  /\ (String.length (bikes.model r) <= 255)%nat.

Definition components_fits (r : components.row) : Prop :=
  (String.length (components.name r) <= 50)%nat
  /\ (String.length (components.brand r) <= 100)%nat
  /\ (String.length (components.model r) <= 100)%nat.

(** The stored row [r'] is [r] merged with the update input, column by
    updatable column. *)
Definition bike_merged (bike : Bike.t) (r r' : bikes.row) : Prop :=
  bikes.bike_name r' = merge_text 255 (Bike.BikeName bike) (bikes.bike_name r)
  /\ bikes.type r' = merge_text 50 (Bike.Type' bike) (bikes.type r)
  /\ bikes.model r' = merge_text 255 (Bike.Model bike) (bikes.model r)
  /\ bikes.year r' = merge_number (Bike.Year bike) (bikes.year r)
  /\ bikes.mileage r' = merge_number (Bike.Mileage bike) (bikes.mileage r).

Definition component_merged (c : Component.t) (r r' : components.row) : Prop :=
  components.name r' = merge_text 50 (Component.Name c) (components.name r)
  /\ components.brand r' = merge_text 100 (Component.Brand c) (components.brand r)
  /\ components.model r' = merge_text 100 (Component.Model c) (components.model r)
  /\ components.installed_at r'
     = merge_time (Component.InstalledAt c) (components.installed_at r)
  /\ components.installed_mileage r'
     = merge_number (Component.InstalledMileage c) (components.installed_mileage r)
  /\ components.max_mileage r'
     = merge_number (Component.MaxMileage c) (components.max_mileage r).

(** ** Identity and ownership linkage of a row *)

Definition bike_identity (r : bikes.row) : UUID * UUID * Time :=
  (bikes.bike_id r, bikes.user_id r, bikes.created_at r).

Definition component_identity (r : components.row) : UUID * UUID * Time :=
  (components.id r, components.bike_id r, components.created_at r).

(** ** Observations on a run *)

Section Observations.
Context `{Externals}.

(** The two tables are as before. *)
Definition same_storage (w w' : World) : Prop :=
  db_bikes w' = db_bikes w /\ db_components w' = db_components w.

(** The cache holds what it held. *)
Definition same_cache (w w' : World) : Prop :=
  cache_store w' = cache_store w.

(** The port calls made between [w] and [w'], in order. *)
Definition calls (w w' : World) (evs : list Event) : Prop :=
  trace w' = (trace w ++ evs)%list.

End Observations.

Definition is_cache_event (ev : Event) : bool :=
  match ev with
  | CacheGet _ | CacheSet _ _ | CacheDelete _ => true
  | _ => false
  end.


(** ** Error taxonomy *)

(** NotFound: no matching row, or no row affected. *)
Definition is_NotFound (e : error) : bool :=
  bool_decide (e = errors_New "bike not found")
  || bool_decide (e = errors_New "Bike not found")
  || bool_decide (e = errors_New "component not found").

(** ValidationError and InvalidIdentifier. *)
Definition is_ValidationError (e : error) : bool :=
  match e with
  | fmt_Errorf_w _ (validator_ValidationErrors _) => true
  | _ => false
  end.

Definition is_InvalidIdentifier (e : error) : bool :=
  match e with
  | fmt_Errorf_w _ (uuid_error _) => true
  | _ => false
  end.

Definition is_input_error (e : error) : bool :=
  is_ValidationError e || is_InvalidIdentifier e.

(** ** The mutating service operations *)

Inductive Mutation : Type :=
| MCreateBike (bike : Bike.t)
| MUpdateBike (bike : Bike.t)
| MDeleteBike (bikeID : string)
| MCreateComponent (component : Component.t)
| MUpdateComponent (component : Component.t)
| MDeleteComponent (componentID : string).

Definition result_error {A} (r : Result A) : option error :=
  match r with Ok _ => None | Err e => Some e end.

Section Mutations.
Context `{Externals}.

(** Runs the operation and keeps its error. *)
Definition run (m : Mutation) (w : World) : option error * World :=
  match m with
  | MCreateBike bike =>
      let '(r, w) := BikeService.CreateBike bike w in (result_error r, w)
  | MUpdateBike bike =>
      let '(r, w) := BikeService.UpdateBike bike w in (result_error r, w)
  | MDeleteBike bikeID => BikeService.DeleteBike bikeID w
  | MCreateComponent c =>
      let '(r, w) := ComponentService.CreateComponent c w in (result_error r, w)
  | MUpdateComponent c =>
      let '(r, w) := ComponentService.UpdateComponent c w in (result_error r, w)
  | MDeleteComponent componentID => ComponentService.DeleteComponent componentID w
  end.

End Mutations.

(** ** Requests under the ownership rule *)

(** The operations the rule guards. *)
Inductive Operation : Type :=
| OpGetBike
| OpGetBikeWithComponents
| OpGetBikeWithUser (GetUsersID : string -> option string)
| OpUpdateBike (body : option UpdateBike)
| OpDeleteBike
| OpGetComponent
| OpCreateComponent (body : option ComponentRequest)
| OpUpdateComponent (body : option UpdateComponent)
| OpDeleteComponent.

Definition is_component_operation (op : Operation) : bool :=
  match op with
  | OpGetComponent | OpUpdateComponent _ | OpDeleteComponent => true
  | _ => false
  end.

Section Requests.
Context `{Externals}.

Definition handle (op : Operation) (c : Context) (w : World) : Response * World :=
  match op with
  | OpGetBike => BikeHandler.GetBike c w
  | OpGetBikeWithComponents => BikeHandler.GetBikeWithComponents c w
  | OpGetBikeWithUser GetUsersID => BikeHandler.GetBikeWithUser GetUsersID c w
  | OpUpdateBike body => BikeHandler.UpdateBike c body w
  | OpDeleteBike => BikeHandler.DeleteBike c w
  | OpGetComponent => ComponentHandler.GetComponent c w
  | OpCreateComponent body => ComponentHandler.CreateComponent c body w
  | OpUpdateComponent body => ComponentHandler.UpdateComponent c body w
  | OpDeleteComponent => ComponentHandler.DeleteComponent c w
  end.

Definition loaded {A} (r : Result A * World) : option A :=
  match r with (Ok a, _) => Some a | (Err _, _) => None end.

(** The bike a request is about, as the service layer resolves it: the bike
    named in the path or in the body, and for a component named in the path
    the bike its [bike_id] names. *)
Definition resolve_owner (op : Operation) (c : Context) (w : World) : option Bike.t :=
  match op with
  | OpGetBike | OpGetBikeWithUser _ | OpUpdateBike _ | OpDeleteBike =>
      loaded (BikeService.GetBikeByID (Param_id c) w)
  | OpGetBikeWithComponents =>
      loaded (BikeService.GetBikeWithComponents (Param_id c) w)
  | OpCreateComponent body =>
      match bind_ComponentRequest body with
      | Some req => loaded (BikeService.GetBikeByID (cr_BikeID req) w)
      | None => None
      end
  | OpGetComponent | OpUpdateComponent _ | OpDeleteComponent =>
      match ComponentService.GetComponentByID (Param_id c) w with
      | (Ok component, w1) =>
          loaded (BikeService.GetBikeByID (uuid_String (Component.BikeID component)) w1)
      | (Err _, _) => None
      end
  end.

End Requests.

(** ** A small world to run the program in *)

Module Example.
Import Canonical.

Definition alice : UUID := 10%N.
Definition bob : UUID := 11%N.

Definition bike1 : UUID := 1%N.
Definition frame2 : UUID := 2%N.
Definition bike1_id : string := "00000000-0000-0000-0000-000000000001".
Definition frame2_id : string := "00000000-0000-0000-0000-000000000002".

(** Alice's mountain bike at 500 km, with a frame installed at 100 km that
    lasts 400 km. *)
Definition bike1_row : bikes.row :=
  bikes.mk bike1 alice "Commuter" "mtb" "Stels" 2020 500 100 100.

Definition frame2_row : components.row :=
  components.mk frame2 bike1 "frame" "Shimano" "XT" 150 100 400 150 150.

Definition frame2_component : Component.t := ComponentRepository.scan frame2_row.

Definition world0 : World :=
  mkWorld _ {[bike1 := bike1_row]} {[frame2 := frame2_row]} 1000 []
    ∅ [] (fun n => (100 + N.of_nat n)%N) 0 [] [].

(** The same world with the bike's components removed. *)
Definition world_bare : World := set_components ∅ world0.

(** The same world when the storage connection fails on the next statement,
    and when it fails on the one after. *)
Definition world_down : World :=
  set_db_faults [Some (FaultDriver "connection refused")] world0.

Definition world_down_second : World :=
  set_db_faults [None; Some (FaultDriver "connection refused")] world0.

(** The same world with bike 1 cached for 15 minutes. *)
Definition world_cached : World :=
  set_cache {[cache_key bike1_id
              := (Some (BikeRepository.scan bike1_row Bike.zero), 15 * time_Minute)]}
    world0.

(** The same world when the next cache call fails. *)
Definition world_cache_down : World := set_cache_faults [true] world0.

Definition as_bob : TokenPayload.t := TokenPayload.mk 77%N bob AppUser.
Definition as_admin : TokenPayload.t := TokenPayload.mk 78%N bob Admin.

(** A bike with no owner and a negative mileage, and the request body that
    carries a negative mileage. *)
Definition malformed_bike : Bike.t :=
  Bike.mk uuid_Nil uuid_Nil "" "mtb" "Stels" [] 0 (-5) time_zero time_zero.

Definition malformed_request : BikeRequest := mkBikeRequest "Stels" "mtb" (-5).

(** An update that sets the model and sends mileage 0. *)
Definition bike1_update : Bike.t :=
  Bike.mk uuid_Nil bike1 "" "" "Stels 2" [] 0 0 time_zero time_zero.

(** An update of the frame that names another bike and sends installed
    mileage 0. *)
Definition frame2_update : Component.t :=
  Component.mk frame2 99%N "frame" "SRAM" "" 160 0 450 time_zero time_zero.

Definition handlebars : Component.t :=
  Component.mk uuid_Nil bike1 "handlebars" "Ritchey" "" 170 200 5000 time_zero time_zero.

End Example.

(** ** Schema invariant *)

Section Invariant.
Context `{Externals}.

(** Every stored row is within the column sizes of the schema. *)
Definition storage_fits (w : World) : Prop :=
  (forall k r, db_bikes w !! k = Some r -> bikes_fits r)
  /\ (forall k r, db_components w !! k = Some r -> components_fits r).

End Invariant.

(** ** The routes of the HTTP surface *)

(** [router.go]: the two routes without an ownership check, and the nine
    with one. *)
Inductive Route : Type :=
| PostBikes (body : option BikeRequest)
| GetBikesMy
| Guarded (op : Operation).

Section Routes.
Context `{Externals}.

Definition serve (route : Route) (c : Context) (w : World) : Response * World :=
  match route with
  | PostBikes body => BikeHandler.CreateBike c body w
  | GetBikesMy => BikeHandler.GetMyBikes c w
  | Guarded op => handle op c w
  end.

(** Each table is keyed by its primary key, and every component names a
    stored bike. *)
Definition storage_linked (w : World) : Prop :=
  (forall k r, db_bikes w !! k = Some r -> bikes.bike_id r = k)
  /\ (forall k r, db_components w !! k = Some r ->
      components.id r = k /\ is_Some (db_bikes w !! components.bike_id r)).

(** The environment lets the next storage statement, resp. cache call,
    through. *)
Definition storage_up (w : World) : Prop :=
  head (db_faults w) = None \/ head (db_faults w) = Some None.

Definition cache_up (w : World) : Prop :=
  head (cache_faults w) = None \/ head (cache_faults w) = Some false.

End Routes.

(** The text columns of a bike, resp. component, are within the schema's
    sizes. *)
Definition bike_text_fits (bike : Bike.t) : Prop :=
  (String.length (Bike.BikeName bike) <= 255)%nat
  /\ (String.length (Bike.Type' bike) <= 50)%nat
  /\ (String.length (Bike.Model bike) <= 255)%nat.

Definition component_text_fits (c : Component.t) : Prop :=
  (String.length (Component.Name c) <= 50)%nat
  /\ (String.length (Component.Brand c) <= 100)%nat
  /\ (String.length (Component.Model c) <= 100)%nat.

(** The components of one bike, newest installation first. *)
Definition newest_first (a b : Component.t) : Prop :=
  Component.InstalledAt b <= Component.InstalledAt a.

(** The row an INSERT writes for a bike, resp. a component: each text
    column in the form its [VARCHAR(n)] keeps, both timestamps the current
    one. *)
Definition bikes_row_of (bike : Bike.t) (now : Time) : bikes.row :=
  bikes.mk (Bike.BikeID bike) (Bike.UserID bike)
    (substring 0 255 (Bike.BikeName bike)) (substring 0 50 (Bike.Type' bike))
    (substring 0 255 (Bike.Model bike)) (Bike.Year bike) (Bike.Mileage bike) now now.

Definition components_row_of (c : Component.t) (now : Time) : components.row :=
  components.mk (Component.ID c) (Component.BikeID c)
    (substring 0 50 (Component.Name c)) (substring 0 100 (Component.Brand c))
    (substring 0 100 (Component.Model c)) (Component.InstalledAt c)
    (Component.InstalledMileage c) (Component.MaxMileage c) now now.

(** The record a create hands back: the input with its identity and the
    server's timestamps. *)
Definition created_bike (id : UUID) (now : Time) (bike : Bike.t) : Bike.t :=
  Bike.mk (Bike.UserID bike) id (Bike.BikeName bike) (Bike.Type' bike)
    (Bike.Model bike) (Bike.Components bike) (Bike.Year bike) (Bike.Mileage bike)
    now now.

Definition created_component (id : UUID) (now : Time) (c : Component.t) : Component.t :=
  Component.mk id (Component.BikeID c) (Component.Name c) (Component.Brand c)
    (Component.Model c) (Component.InstalledAt c) (Component.InstalledMileage c)
    (Component.MaxMileage c) now now.

(** The constraints the [validate] tags of [domain.Component] express. *)
Definition component_valid `{Externals} (c : Component.t) : Prop :=
  Component.BikeID c <> uuid_Nil
  /\ Component.Name c <> ""
  /\ (utf8_RuneCountInString (Component.Brand c) <= 100)%nat
  /\ (utf8_RuneCountInString (Component.Model c) <= 100)%nat
  /\ Component.InstalledAt c <> time_zero
  /\ 0 <= Component.InstalledMileage c
  /\ 1 <= Component.MaxMileage c <= 1000000.

(** The identity a create uses: the given one, or the next random one when
    none is given. *)
Definition assigned_id `{Externals} (given : UUID) (w : World) : UUID :=
  if decide (given = uuid_Nil) then rand_uuid w (rand_used w) else given.

(** Every stored row satisfies the [CHECK] constraint of its table and its
    [INT] columns are 32-bit. *)
Definition storage_checked `{Externals} (w : World) : Prop :=
  (forall k r, db_bikes w !! k = Some r ->
     bikes.type_check (bikes.type r) = true
     /\ int4_ok (bikes.year r) = true /\ int4_ok (bikes.mileage r) = true)
  /\ (forall k r, db_components w !! k = Some r ->
        components.name_check (components.name r) = true
        /\ int4_ok (components.installed_mileage r) = true
        /\ int4_ok (components.max_mileage r) = true).

(** The routes that only read. *)
Definition is_read_route (route : Route) : bool :=
  match route with
  | GetBikesMy => true
  | Guarded (OpGetBike | OpGetBikeWithComponents | OpGetBikeWithUser _
            | OpGetComponent) => true
  | _ => false
  end.

(** ** More of the example world *)

Module Scenario.
Import Canonical Example.

Definition nine : UUID := 9%N.
Definition nine_id : string := "00000000-0000-0000-0000-000000000009".
Definition alice_id : string := "00000000-0000-0000-0000-00000000000a".

(** A road bike that Alice registers, and the world after. *)
Definition road_bike : Bike.t :=
  Bike.mk alice uuid_Nil "" "road" "Trek" [] 2021 10 time_zero time_zero.

Definition road_bike_created : Bike.t := created_bike 100%N 1000 road_bike.

Definition world_road : World := snd (BikeService.CreateBike road_bike world0).

(** The handlebars once created, and the world after. *)
Definition handlebars_created : Component.t :=
  created_component 100%N 1000 handlebars.

Definition world_handlebars : World :=
  snd (ComponentService.CreateComponent handlebars world0).

(** The bike after the update of its model, and the world after. *)
Definition bike1_updated : Bike.t :=
  Bike.mk alice bike1 "Commuter" "mtb" "Stels 2" [] 2020 500 100 1000.

Definition world_updated : World := snd (BikeService.UpdateBike bike1_update world0).

(** The worlds after bike 1, resp. its frame, is deleted. *)
Definition world_deleted : World := snd (BikeService.DeleteBike bike1_id world0).

Definition world_unframed : World :=
  snd (ComponentService.DeleteComponent frame2_id world0).

(** An update of a bike and of a component that are not stored. *)
Definition nine_update : Bike.t :=
  Bike.mk uuid_Nil nine "" "" "Stels 2" [] 0 0 time_zero time_zero.

Definition nine_component_update : Component.t :=
  Component.mk nine bike1 "frame" "SRAM" "" 160 0 450 time_zero time_zero.

(** Requests: without identity, as Alice, as an Admin on the frame. *)
Definition as_alice : TokenPayload.t := TokenPayload.mk 79%N alice AppUser.

Definition anonymous : Context := mkContext None bike1_id 2000.
Definition alice_on_bike1 : Context := mkContext (Some as_alice) bike1_id 2000.
Definition alice_on_garbage : Context := mkContext (Some as_alice) "bike-one" 2000.
Definition admin_on_frame2 : Context := mkContext (Some as_admin) frame2_id 2000.

Definition rename_frame : UpdateComponent :=
  mkUpdateComponent (Some "frame") (Some "SRAM") None None (Some 450).

Definition unridden_bike : BikeRequest := mkBikeRequest "Trek" "road" 0.

Definition unridden_frame : ComponentRequest :=
  mkComponentRequest bike1_id "frame" "SRAM" "" 0 450.

(** The claims of a token of Alice, and a parser that accepts it. *)
Definition alice_claims : gmap string Claim :=
  {[ "id" := ClaimString "00000000-0000-0000-0000-00000000004f";
     "user_id" := ClaimString alice_id;
     "role" := ClaimString AppUser ]}.

Definition accept_alice (token : string) : Result (option (gmap string Claim)) :=
  if decide (token = "alice.token") then Ok (Some alice_claims)
  else Err (errors_New "token is malformed").

End Scenario.

(** * Properties *)

(** A run is its answer and the world it leaves. *)
Lemma run_answer {A W : Type} (run : A * W) (a : A) :
  fst run = a -> run = (a, snd run).
Proof. destruct run. simpl. by intros ->. Qed.

(** ** Arithmetic and column types *)

Lemma int_wrap_id (z : Z) : is_int z -> int_wrap z = z.
Proof.
  unfold is_int, int_min, int_max, int_wrap. intros Hz.
  rewrite Z.mod_small; lia.
Qed.

Lemma int4_is_int (z : Z) : int4_ok z = true -> is_int z.
Proof. unfold int4_ok, is_int, int_min, int_max. lia. Qed.

Lemma int4_sub_is_int (a b : Z) :
  int4_ok a = true -> int4_ok b = true -> is_int (a - b).
Proof. unfold int4_ok, is_int, int_min, int_max. lia. Qed.

Lemma nonneg_sub_is_int (a b : Z) :
  is_int a -> is_int b -> 0 <= a -> 0 <= b -> is_int (a - b).
Proof. unfold is_int, int_min, int_max. lia. Qed.

Lemma substring_fits (n : nat) (s : string) :
  (String.length s <= n)%nat -> substring 0 n s = s.
Proof.
  revert n. induction s as [|c s IH]; intros [|n] Hn; simpl in *; try done; try lia.
  f_equal. apply IH. lia.
Qed.

(** What [VARCHAR(n)] keeps of a string it accepts. *)
Lemma varchar_Some (n : nat) (s s' : string) :
  varchar n s = Some s' -> s' = substring 0 n s.
Proof.
  unfold varchar. destruct (String.length s <=? n)%nat eqn:Hlen.
  - intros [= <-]. symmetry. apply substring_fits. by apply Nat.leb_le.
  - destruct (all_spaces _); by intros [= <-].
Qed.

Lemma substring_length_le (n : nat) (s : string) :
  (String.length (substring 0 n s) <= n)%nat.
Proof.
  revert n. induction s as [|c s IH]; intros [|n]; simpl; try lia.
  specialize (IH n). lia.
Qed.

Lemma varchar_length (n : nat) (s s' : string) :
  varchar n s = Some s' -> (String.length s' <= n)%nat.
Proof. intros ->%varchar_Some. apply substring_length_le. Qed.

Lemma varchar_fits (n : nat) (s : string) :
  (String.length s <= n)%nat -> varchar n s = Some s.
Proof. intros Hn. unfold varchar. by apply Nat.leb_le in Hn as ->. Qed.

Lemma merge_text_varchar (n : nat) (input stored s : string) :
  (String.length stored <= n)%nat ->
  varchar n (COALESCE (NULLIF input "") stored) = Some s ->
  s = merge_text n input stored.
Proof.
  unfold NULLIF, merge_text. intros Hfit.
  destruct (decide (input = "")) as [->|Hne]; simpl.
  - rewrite varchar_fits by done. by intros [= <-].
  - apply varchar_Some.
Qed.

Lemma merge_number_coalesce (input stored : Z) :
  COALESCE (NULLIF input 0) stored = merge_number input stored.
Proof. unfold NULLIF, merge_number. by destruct (decide (input = 0)). Qed.

Lemma merge_time_coalesce (input stored : Time) :
  COALESCE (NULLIF input time_zero) stored = merge_time input stored.
Proof. unfold NULLIF, merge_time. by destruct (decide (input = time_zero)). Qed.

Lemma merge_number_zero (input stored : Z) :
  merge_number input stored = 0 -> stored = 0.
Proof. unfold merge_number. destruct (decide (input = 0)); congruence. Qed.

(** ** Derived mileage *)

(** C9: for a component [c] and a bike mileage [m] whose difference is a Go
    [int] (every pair of stored, 32-bit values and every pair of non-negative
    ones is), the current mileage is [m] minus the installed mileage, and the
    component needs replacement exactly when that is at least its maximum
    mileage.  Both are functions of the component and the mileage alone: they
    take no store and write none. *)
Theorem C9_derived_mileage (c : Component.t) (m : Z) :
  is_int (m - Component.InstalledMileage c) ->
  Component.CurrentMileage c m = m - Component.InstalledMileage c
  /\ (Component.NeedsReplacement c m = true
      <-> Component.MaxMileage c <= m - Component.InstalledMileage c).
Proof.
  intros Hint. unfold Component.NeedsReplacement, Component.CurrentMileage, int_sub.
  rewrite int_wrap_id by done. split; [done|]. apply Z.leb_le.
Qed.

(** ** Updates at the storage adapter *)

Section Repository.
Context `{Externals}.

Lemma BikeRepository_update_inv (bike : Bike.t) (w w' : World) (r' : bikes.row) :
  BikeRepository.update bike w = (Ok r', w') ->
  exists r, db_bikes w !! Bike.BikeID bike = Some r
            /\ BikeRepository.update_set bike (db_now w) r = Ok r'
            /\ w' = set_bikes (<[Bike.BikeID bike := r']> (db_bikes w)) w.
Proof.
  unfold BikeRepository.update. intros Hup.
  repeat case_match; simplify_eq. eauto.
Qed.

Lemma BikeRepository_update_set_inv (bike : Bike.t) (now : Time) (r r' : bikes.row) :
  bikes_fits r ->
  BikeRepository.update_set bike now r = Ok r' ->
  r' = bikes.mk (bikes.bike_id r) (bikes.user_id r)
         (merge_text 255 (Bike.BikeName bike) (bikes.bike_name r))
         (merge_text 50 (Bike.Type' bike) (bikes.type r))
         (merge_text 255 (Bike.Model bike) (bikes.model r))
         (merge_number (Bike.Year bike) (bikes.year r))
         (merge_number (Bike.Mileage bike) (bikes.mileage r))
         (bikes.created_at r) now.
Proof.
  intros (Hn & Ht & Hm). unfold BikeRepository.update_set. intros Hset.
  repeat case_match; simplify_eq.
  rewrite !merge_number_coalesce.
  f_equal; by apply merge_text_varchar.
Qed.

Lemma db_call_bikes (ev : Event) (w w' : World) (f : option error) :
  db_call ev w = (f, w') ->
  db_bikes w' = db_bikes w /\ db_components w' = db_components w
  /\ db_now w' = db_now w /\ cache_store w' = cache_store w
  /\ cache_faults w' = cache_faults w /\ trace w' = (trace w ++ [ev])%list
  /\ log w' = log w.
Proof.
  unfold db_call. intros Hc. repeat case_match; simplify_eq; done.
Qed.

Lemma BikeRepository_update_set_identity (bike : Bike.t) (now : Time) (r r' : bikes.row) :
  BikeRepository.update_set bike now r = Ok r' -> bike_identity r' = bike_identity r.
Proof.
  unfold BikeRepository.update_set. intros Hset. repeat case_match; by simplify_eq.
Qed.

Lemma BikeRepository_update_fail (bike : Bike.t) (w w' : World) (e : error) :
  BikeRepository.update bike w = (Err e, w') -> w' = w.
Proof.
  unfold BikeRepository.update. intros Hup. repeat case_match; by simplify_eq.
Qed.

Lemma ComponentRepository_update_inv (c : Component.t) (w w' : World)
  (r' : components.row) :
  ComponentRepository.update c w = (Ok r', w') ->
  exists r, db_components w !! Component.ID c = Some r
            /\ ComponentRepository.update_set c (db_now w) r = Ok r'
            /\ w' = set_components (<[Component.ID c := r']> (db_components w)) w.
Proof.
  unfold ComponentRepository.update. intros Hup.
  repeat case_match; simplify_eq. eauto.
Qed.

Lemma ComponentRepository_update_fail (c : Component.t) (w w' : World) (e : error) :
  ComponentRepository.update c w = (Err e, w') -> w' = w.
Proof.
  unfold ComponentRepository.update. intros Hup. repeat case_match; by simplify_eq.
Qed.

Lemma ComponentRepository_update_set_inv (c : Component.t) (now : Time)
  (r r' : components.row) :
  components_fits r ->
  ComponentRepository.update_set c now r = Ok r' ->
  r' = components.mk (components.id r) (components.bike_id r)
         (merge_text 50 (Component.Name c) (components.name r))
         (merge_text 100 (Component.Brand c) (components.brand r))
         (merge_text 100 (Component.Model c) (components.model r))
         (merge_time (Component.InstalledAt c) (components.installed_at r))
         (merge_number (Component.InstalledMileage c) (components.installed_mileage r))
         (merge_number (Component.MaxMileage c) (components.max_mileage r))
         (components.created_at r) now.
Proof.
  intros (Hn & Hb & Hm). unfold ComponentRepository.update_set. intros Hset.
  repeat case_match; simplify_eq.
  rewrite merge_time_coalesce, !merge_number_coalesce.
  f_equal; by apply merge_text_varchar.
Qed.

Lemma ComponentRepository_update_set_identity (c : Component.t) (now : Time)
  (r r' : components.row) :
  ComponentRepository.update_set c now r = Ok r' ->
  component_identity r' = component_identity r.
Proof.
  unfold ComponentRepository.update_set. intros Hset. repeat case_match; by simplify_eq.
Qed.

Lemma BikeRepository_UpdateBike_merges (bike b : Bike.t) (w w' : World)
  (r : bikes.row) :
  db_bikes w !! Bike.BikeID bike = Some r ->
  bikes_fits r ->
  BikeRepository.UpdateBike bike w = (Ok b, w') ->
  exists r' : bikes.row,
    db_bikes w' !! Bike.BikeID bike = Some r'
    /\ b = BikeRepository.scan r' bike
    /\ bike_merged bike r r'.
Proof.
  intros Hr Hfit. unfold BikeRepository.UpdateBike.
  destruct (db_call _ w) as [fault w1] eqn:Hcall.
  apply db_call_bikes in Hcall as (Hb & _ & Hnow & _).
  destruct fault; [done|].
  destruct (BikeRepository.update bike w1) as [[r'|e] w2] eqn:Hup; [|done].
  intros [= <- <-].
  apply BikeRepository_update_inv in Hup as (r0 & Hr0 & Hset & ->).
  rewrite Hb, Hr in Hr0. simplify_eq.
  apply BikeRepository_update_set_inv in Hset as ->; [|done].
  eexists. split; [apply lookup_insert_eq|]. by split.
Qed.

Lemma ComponentRepository_UpdateComponent_merges (c c' : Component.t)
  (w w' : World) (r : components.row) :
  db_components w !! Component.ID c = Some r ->
  components_fits r ->
  ComponentRepository.UpdateComponent c w = (Ok c', w') ->
  exists r' : components.row,
    db_components w' !! Component.ID c = Some r'
    /\ c' = ComponentRepository.scan r'
    /\ component_merged c r r'.
Proof.
  intros Hr Hfit. unfold ComponentRepository.UpdateComponent.
  destruct (db_call _ w) as [fault w1] eqn:Hcall.
  apply db_call_bikes in Hcall as (_ & Hc & Hnow & _).
  destruct fault; [done|].
  destruct (ComponentRepository.update c w1) as [[r'|e] w2] eqn:Hup; [|done].
  intros [= <- <-].
  apply ComponentRepository_update_inv in Hup as (r0 & Hr0 & Hset & ->).
  rewrite Hc, Hr in Hr0. simplify_eq.
  apply ComponentRepository_update_set_inv in Hset as ->; [|done].
  eexists. split; [apply lookup_insert_eq|]. by split.
Qed.

Lemma BikeRepository_UpdateBike_identity (bike : Bike.t) (w : World) (k : UUID) :
  bike_identity <$> (db_bikes (snd (BikeRepository.UpdateBike bike w)) !! k)
  = bike_identity <$> (db_bikes w !! k).
Proof.
  unfold BikeRepository.UpdateBike.
  destruct (db_call _ w) as [fault w1] eqn:Hcall.
  apply db_call_bikes in Hcall as (Hb & _).
  destruct fault; simpl; [by rewrite Hb|].
  destruct (BikeRepository.update bike w1) as [[r'|e] w2] eqn:Hup; simpl.
  - apply BikeRepository_update_inv in Hup as (r0 & Hr0 & Hset & ->). simpl.
    apply BikeRepository_update_set_identity in Hset. rewrite <- Hb.
    destruct (decide (Bike.BikeID bike = k)) as [<-|Hne].
    + rewrite lookup_insert_eq, Hr0. simpl. by f_equal.
    + by rewrite lookup_insert_ne.
  - apply BikeRepository_update_fail in Hup as ->. by rewrite Hb.
Qed.

Lemma ComponentRepository_UpdateComponent_identity (c : Component.t) (w : World)
  (k : UUID) :
  component_identity
    <$> (db_components (snd (ComponentRepository.UpdateComponent c w)) !! k)
  = component_identity <$> (db_components w !! k).
Proof.
  unfold ComponentRepository.UpdateComponent.
  destruct (db_call _ w) as [fault w1] eqn:Hcall.
  apply db_call_bikes in Hcall as (_ & Hc & _).
  destruct fault; simpl; [by rewrite Hc|].
  destruct (ComponentRepository.update c w1) as [[r'|e] w2] eqn:Hup; simpl.
  - apply ComponentRepository_update_inv in Hup as (r0 & Hr0 & Hset & ->). simpl.
    apply ComponentRepository_update_set_identity in Hset. rewrite <- Hc.
    destruct (decide (Component.ID c = k)) as [<-|Hne].
    + rewrite lookup_insert_eq, Hr0. simpl. by f_equal.
    + by rewrite lookup_insert_ne.
  - apply ComponentRepository_update_fail in Hup as ->. by rewrite Hc.
Qed.

End Repository.

(** ** Services *)

Section Services.
Context `{Externals}.

(** *** Frames of the port calls *)

Lemma cache_call_frame (ev : Event) (w w' : World) (failed : bool) :
  cache_call ev w = (failed, w') ->
  same_storage w w' /\ same_cache w w' /\ db_faults w' = db_faults w
  /\ calls w w' [ev].
Proof.
  unfold cache_call, same_storage, same_cache, calls. intros Hc.
  repeat case_match; by simplify_eq.
Qed.

Lemma CachePort_Get_frame (key : string) (w w' : World) (r : Result Bytes) :
  CachePort.Get key w = (r, w') ->
  same_storage w w' /\ same_cache w w' /\ db_faults w' = db_faults w
  /\ calls w w' [CacheGet key].
Proof.
  unfold CachePort.Get. destruct (cache_call _ w) as [failed w1] eqn:Hc.
  apply cache_call_frame in Hc. intros Hget.
  repeat case_match; by simplify_eq.
Qed.

Lemma CachePort_Set_frame (key : string) (data : Bytes) (ttl : Duration)
  (w w' : World) (r : option error) :
  CachePort.Set' key data ttl w = (r, w') ->
  same_storage w w' /\ db_faults w' = db_faults w
  /\ calls w w' [CacheSet key ttl]
  /\ (r = None -> cache_store w' !! key = Some (data, ttl)).
Proof.
  unfold CachePort.Set'. destruct (cache_call _ w) as [failed w1] eqn:Hc.
  apply cache_call_frame in Hc as (Hs & Hk & Hf & Ht). intros Hset.
  destruct failed; simplify_eq; simpl; [done|].
  split_and!; try done. intros _. apply lookup_insert_eq.
Qed.

Lemma CachePort_Delete_frame (key : string) (w w' : World) (r : option error) :
  CachePort.Delete key w = (r, w') ->
  same_storage w w' /\ db_faults w' = db_faults w
  /\ calls w w' [CacheDelete key]
  /\ (forall k, k <> key -> cache_store w' !! k = cache_store w !! k)
  /\ (r = None -> cache_store w' = delete key (cache_store w)).
Proof.
  unfold CachePort.Delete. destruct (cache_call _ w) as [failed w1] eqn:Hc.
  apply cache_call_frame in Hc as (Hs & Hk & Hf & Ht). intros Hdel.
  destruct failed; simplify_eq; simpl.
  - split_and!; try done. intros k _. by rewrite Hk.
  - split_and!; try done.
    + intros k Hne. rewrite lookup_delete_ne by done. by rewrite Hk.
    + intros _. by rewrite Hk.
Qed.

Lemma invalidate_frame (key : string) (w : World) :
  same_storage w (BikeService.invalidate key w)
  /\ db_faults (BikeService.invalidate key w) = db_faults w
  /\ calls w (BikeService.invalidate key w) [CacheDelete key]
  /\ (forall k, k <> key ->
      cache_store (BikeService.invalidate key w) !! k = cache_store w !! k).
Proof.
  unfold BikeService.invalidate.
  destruct (CachePort.Delete key w) as [r w1] eqn:Hdel.
  apply CachePort_Delete_frame in Hdel as (Hs & Hf & Ht & Hk & _).
  by destruct r.
Qed.

Lemma db_call_frame (ev : Event) (w w' : World) (f : option error) :
  db_call ev w = (f, w') ->
  same_storage w w' /\ same_cache w w' /\ cache_faults w' = cache_faults w
  /\ calls w w' [ev].
Proof.
  intros Hc. apply db_call_bikes in Hc as (? & ? & ? & ? & ? & ? & ?). done.
Qed.

(** The fault, if any, that the environment holds for the next statement. *)
Lemma db_call_fault (ev : Event) (w w' : World) (f : option error) :
  db_call ev w = (f, w') ->
  f = match db_faults w with
      | fault :: _ => fault_error <$> fault
      | [] => None
      end.
Proof. unfold db_call. simpl. intros Hc. repeat case_match; by simplify_eq. Qed.

Lemma BikeRepository_GetBikeByID_frame (u : UUID) (w w' : World) (r : Result Bike.t) :
  BikeRepository.GetBikeByID u w = (r, w') ->
  same_storage w w' /\ same_cache w w' /\ cache_faults w' = cache_faults w
  /\ calls w w' [SqlSelectBike u].
Proof.
  unfold BikeRepository.GetBikeByID. destruct (db_call _ w) as [f w1] eqn:Hc.
  apply db_call_frame in Hc. intros Hget. repeat case_match; by simplify_eq.
Qed.

Lemma ComponentRepository_GetComponentByID_frame (u : UUID) (w w' : World)
  (r : Result Component.t) :
  ComponentRepository.GetComponentByID u w = (r, w') ->
  same_storage w w' /\ same_cache w w' /\ cache_faults w' = cache_faults w
  /\ calls w w' [SqlSelectComponent u].
Proof.
  unfold ComponentRepository.GetComponentByID. destruct (db_call _ w) as [f w1] eqn:Hc.
  apply db_call_frame in Hc. intros Hget. repeat case_match; by simplify_eq.
Qed.

(** Chains the port calls recorded by successive steps. *)
Ltac solve_calls :=
  unfold calls in *; simpl in *;
  repeat match goal with
         | H : trace ?x = _ |- context [trace ?x] => rewrite H
         end;
  rewrite <- ?app_assoc; simpl; try done.

Lemma calls_app (w w1 w2 : World) (evs1 evs2 : list Event) :
  calls w w1 evs1 -> calls w1 w2 evs2 -> calls w w2 (evs1 ++ evs2).
Proof. unfold calls. intros H1 H2. by rewrite H2, H1, app_assoc. Qed.

Lemma same_storage_trans (w w1 w2 : World) :
  same_storage w w1 -> same_storage w1 w2 -> same_storage w w2.
Proof. unfold same_storage. intros [? ?] [? ?]. split; congruence. Qed.

Lemma same_storage_logger (lvl : Level) (msg : string) (w w' : World) :
  same_storage w w' -> same_storage w (logger lvl msg w').
Proof. done. Qed.

Lemma ComponentRepository_DeleteComponent_calls (u : UUID) (w w' : World)
  (r : option error) :
  ComponentRepository.DeleteComponent u w = (r, w') ->
  db_bikes w' = db_bikes w /\ same_cache w w' /\ cache_faults w' = cache_faults w
  /\ calls w w' [SqlDeleteComponent u]
  /\ (forall e, r = Some e -> db_components w' = db_components w).
Proof.
  unfold ComponentRepository.DeleteComponent. destruct (db_call _ w) as [f w1] eqn:Hc.
  apply db_call_frame in Hc as ([? ?] & ? & ? & ?). intros Hdel.
  repeat case_match; simplify_eq; simpl; split_and!; try done; congruence.
Qed.

Lemma filter_none {A} (P : A -> Prop) `{forall x, Decision (P x)} (l : list A) :
  (forall x, x ∈ l -> ~ P x) -> filter P l = [].
Proof.
  induction l as [|a l IH]; intros Hall; [done|].
  rewrite filter_cons_False by (apply Hall; left).
  apply IH. intros x Hx. apply Hall. by right.
Qed.

Lemma GetComponentsByBikeID_none (u : UUID) (w w' : World) (comps : list Component.t) :
  (forall k r, db_components w !! k = Some r -> components.bike_id r <> u) ->
  ComponentRepository.GetComponentsByBikeID u w = (Ok comps, w') ->
  comps = [].
Proof.
  intros Hnone. unfold ComponentRepository.GetComponentsByBikeID.
  destruct (db_call _ w) as [fault w1] eqn:Hcall.
  apply db_call_bikes in Hcall as (_ & Hc & _).
  destruct fault; [done|]. intros [= <- <-].
  rewrite filter_none; [done|].
  intros r Hr. apply list_elem_of_fmap_1 in Hr as ([k r'] & -> & Hin).
  apply elem_of_map_to_list in Hin. rewrite Hc in Hin. by eapply Hnone.
Qed.

(** *** Updates through the services *)

Lemma BikeService_UpdateBike_repository (bike : Bike.t) (w w' : World)
  (r : Result Bike.t) :
  BikeService.UpdateBike bike w = (r, w') ->
  exists w1 : World,
    BikeRepository.UpdateBike bike w = (r, w1) /\ same_storage w1 w'.
Proof.
  unfold BikeService.UpdateBike, validate.Bike_failures, validate.Struct.
  cbv beta iota.
  destruct (BikeRepository.UpdateBike bike w) as [[b|e] w1]; intros [= <- <-].
  - exists w1. split; [done|]. apply same_storage_logger.
    by destruct (invalidate_frame (cache_key (uuid_String (Bike.BikeID b))) w1).
  - by exists w1.
Qed.

Lemma ComponentService_UpdateComponent_repository (c : Component.t) (w w' : World)
  (r : Result Component.t) :
  ComponentService.UpdateComponent c w = (r, w') ->
  (same_storage w w' /\ exists e, r = Err e /\ is_ValidationError e = true)
  \/ exists w1 : World,
       ComponentRepository.UpdateComponent c w = (r, w1) /\ same_storage w1 w'.
Proof.
  unfold ComponentService.UpdateComponent.
  destruct (validate.Struct _) as [verr|] eqn:Hv.
  - intros [= <- <-]. left. split; [done|]. eexists. split; [done|].
    unfold validate.Struct in Hv. by repeat case_match; simplify_eq.
  - destruct (ComponentRepository.UpdateComponent c w) as [[c1|e] w1];
      intros [= <- <-]; right; exists w1; (split; [done|]).
    + apply same_storage_logger.
      by destruct (invalidate_frame
                     (cache_key (uuid_String (Component.BikeID c1))) w1).
    + done.
Qed.

(** C2: an update that is accepted merges field by field, at the storage
    adapter and through the service alike.  For a stored row within the
    column sizes of the schema, every updatable column ([bike_name], [type],
    [model], [year], [mileage]; for a component [name], [brand], [model],
    [installed_at], [installed_mileage], [max_mileage]) keeps its stored value
    when the input field is the zero value and takes the input's value
    otherwise, so a numeric column is 0 afterwards only if it was 0 before.
    The record handed back shows the stored row. *)
Theorem C2_update_merges_fields :
  (forall (bike b : Bike.t) (w w' : World) (r : bikes.row),
     db_bikes w !! Bike.BikeID bike = Some r ->
     bikes_fits r ->
     BikeRepository.UpdateBike bike w = (Ok b, w')
     \/ BikeService.UpdateBike bike w = (Ok b, w') ->
     exists r' : bikes.row,
       db_bikes w' !! Bike.BikeID bike = Some r'
       /\ b = BikeRepository.scan r' bike
       /\ bike_merged bike r r'
       /\ (bikes.year r' = 0 -> bikes.year r = 0)
       /\ (bikes.mileage r' = 0 -> bikes.mileage r = 0))
  /\ (forall (c c' : Component.t) (w w' : World) (r : components.row),
     db_components w !! Component.ID c = Some r ->
     components_fits r ->
     ComponentRepository.UpdateComponent c w = (Ok c', w')
     \/ ComponentService.UpdateComponent c w = (Ok c', w') ->
     exists r' : components.row,
       db_components w' !! Component.ID c = Some r'
       /\ c' = ComponentRepository.scan r'
       /\ component_merged c r r'
       /\ (components.installed_mileage r' = 0 -> components.installed_mileage r = 0)
       /\ (components.max_mileage r' = 0 -> components.max_mileage r = 0)).
Proof.
  split.
  - intros bike b w w' r Hr Hfit Hup.
    assert (exists w1, BikeRepository.UpdateBike bike w = (Ok b, w1)
                       /\ same_storage w1 w') as (w1 & Hrepo & [Hb _]).
    { destruct Hup as [Hup|Hup]; [by exists w'|].
      by apply BikeService_UpdateBike_repository. }
    destruct (BikeRepository_UpdateBike_merges bike b w w1 r Hr Hfit Hrepo)
      as (r' & Hr' & Hscan & Hmerged).
    exists r'. rewrite Hb. split_and!; try done.
    + destruct Hmerged as (_ & _ & _ & -> & _). apply merge_number_zero.
    + destruct Hmerged as (_ & _ & _ & _ & ->). apply merge_number_zero.
  - intros c c' w w' r Hr Hfit Hup.
    assert (exists w1, ComponentRepository.UpdateComponent c w = (Ok c', w1)
                       /\ same_storage w1 w') as (w1 & Hrepo & [_ Hc]).
    { destruct Hup as [Hup|Hup]; [by exists w'|].
      apply ComponentService_UpdateComponent_repository in Hup
        as [(_ & e & He & _)|Hup]; [done|done]. }
    destruct (ComponentRepository_UpdateComponent_merges c c' w w1 r Hr Hfit Hrepo)
      as (r' & Hr' & Hscan & Hmerged).
    exists r'. rewrite Hc. split_and!; try done.
    + destruct Hmerged as (_ & _ & _ & _ & -> & _). apply merge_number_zero.
    + destruct Hmerged as (_ & _ & _ & _ & _ & ->). apply merge_number_zero.
Qed.

(** C10: an update never changes identity or ownership linkage.  Whatever
    the input holds in those fields and whether or not the update succeeds,
    every row of [bikes] keeps its [bike_id], [user_id] and [created_at]
    across [UpdateBike], and every row of [components] keeps its [id],
    [bike_id] and [created_at] across [UpdateComponent], at the storage
    adapter and through the service; no row appears or disappears. *)
Theorem C10_update_keeps_identity :
  (forall (bike : Bike.t) (w : World) (k : UUID),
     bike_identity <$> (db_bikes (snd (BikeRepository.UpdateBike bike w)) !! k)
     = bike_identity <$> (db_bikes w !! k)
     /\ bike_identity <$> (db_bikes (snd (BikeService.UpdateBike bike w)) !! k)
        = bike_identity <$> (db_bikes w !! k))
  /\ (forall (c : Component.t) (w : World) (k : UUID),
     component_identity
       <$> (db_components (snd (ComponentRepository.UpdateComponent c w)) !! k)
     = component_identity <$> (db_components w !! k)
     /\ component_identity
          <$> (db_components (snd (ComponentService.UpdateComponent c w)) !! k)
        = component_identity <$> (db_components w !! k)).
Proof.
  split.
  - intros bike w k. split; [apply BikeRepository_UpdateBike_identity|].
    destruct (BikeService.UpdateBike bike w) as [r w'] eqn:Hup.
    apply BikeService_UpdateBike_repository in Hup as (w1 & Hrepo & [Hb _]).
    simpl. rewrite Hb.
    pose proof (BikeRepository_UpdateBike_identity bike w k) as Hid.
    by rewrite Hrepo in Hid.
  - intros c w k. split; [apply ComponentRepository_UpdateComponent_identity|].
    destruct (ComponentService.UpdateComponent c w) as [r w'] eqn:Hup.
    apply ComponentService_UpdateComponent_repository in Hup
      as [([_ Hc] & _)|(w1 & Hrepo & [_ Hc])]; simpl; rewrite Hc; [done|].
    pose proof (ComponentRepository_UpdateComponent_identity c w k) as Hid.
    by rewrite Hrepo in Hid.
Qed.

(** C7: once the identifier parses and the bike is loaded,
    [GetBikeWithComponents] succeeds (so it fails only on a malformed
    identifier or when the bike cannot be loaded): it returns the bike with
    the components the lookup gives, with no components when the lookup
    fails, and with no components when the bike has none. *)
Theorem C7_bike_with_components (bikeID : string) (u : UUID) (bike : Bike.t)
  (w w1 : World) :
  uuid_Parse bikeID = Some u ->
  BikeRepository.GetBikeByID u w = (Ok bike, w1) ->
  exists (comps : list Component.t) (w' : World),
    BikeService.GetBikeWithComponents bikeID w
    = (Ok (Bike.set_Components comps bike), w')
    /\ (forall e w2, ComponentRepository.GetComponentsByBikeID u w1 = (Err e, w2) ->
        comps = [])
    /\ (forall cs w2, ComponentRepository.GetComponentsByBikeID u w1 = (Ok cs, w2) ->
        comps = cs)
    /\ ((forall k r, db_components w !! k = Some r -> components.bike_id r <> u) ->
        comps = []).
Proof.
  intros Hparse Hbike. unfold BikeService.GetBikeWithComponents.
  rewrite Hparse, Hbike.
  apply BikeRepository_GetBikeByID_frame in Hbike as ([_ Hsame] & _).
  destruct (ComponentRepository.GetComponentsByBikeID u w1) as [[cs|e] w2] eqn:Hcs.
  - exists cs. eexists. split; [done|]. repeat split; try done.
    + by intros ? ? [= <- <-].
    + intros Hnone. eapply GetComponentsByBikeID_none; [|done].
      by rewrite Hsame.
  - exists []. eexists. split; [done|]. repeat split; done.
Qed.

(** C8: [DeleteComponent] loads the component before anything else; when that load fails the operation returns the load's error, which
    is NotFound when no row matches and the wrapped storage failure when the
    lookup itself fails, and no delete is attempted: the load is the only call
    made and storage and cache are as before. *)
Theorem C8_delete_component_loads_first (componentID : string) (u : UUID) (w : World) :
  uuid_Parse componentID = Some u ->
  (exists (r : option error) (w' : World) (evs : list Event),
     ComponentService.DeleteComponent componentID w = (r, w')
     /\ calls w w' (SqlSelectComponent u :: evs))
  /\ (forall (e : error) (w1 : World),
        ComponentRepository.GetComponentByID u w = (Err e, w1) ->
        exists w' : World,
          ComponentService.DeleteComponent componentID w = (Some e, w')
          /\ calls w w' [SqlSelectComponent u]
          /\ same_storage w w' /\ same_cache w w'
          /\ (e = errors_New "component not found"
              \/ exists cause, e = fmt_Errorf_w "failed to get component" cause)
          /\ (db_components w !! u = None -> head (db_faults w) = None
              \/ head (db_faults w) = Some None -> is_NotFound e = true)).
Proof.
  intros Hparse. unfold ComponentService.DeleteComponent. rewrite Hparse. split.
  - destruct (ComponentRepository.GetComponentByID u w) as [[c|e] w1] eqn:Hload.
    + apply ComponentRepository_GetComponentByID_frame in Hload as (_ & _ & _ & Hl).
      destruct (ComponentRepository.DeleteComponent u w1) as [[e|] w2] eqn:Hdel;
        apply ComponentRepository_DeleteComponent_calls in Hdel as (_ & _ & _ & Hd & _).
      * do 2 eexists. exists [SqlDeleteComponent u]. split; [done|]. solve_calls.
      * pose proof (invalidate_frame
                      (cache_key (uuid_String (Component.BikeID c))) w2)
          as (_ & _ & Hi & _).
        do 2 eexists.
        exists [SqlDeleteComponent u;
                CacheDelete (cache_key (uuid_String (Component.BikeID c)))].
        split; [done|]. solve_calls.
    + apply ComponentRepository_GetComponentByID_frame in Hload as (_ & _ & _ & Hl).
      do 2 eexists. exists []. split; [done|]. solve_calls.
  - intros e w1 Hload. rewrite Hload. eexists. split; [done|].
    pose proof Hload as (Hs & Hk & _ & Hl)%ComponentRepository_GetComponentByID_frame.
    split_and!; try done.
    + revert Hload. unfold ComponentRepository.GetComponentByID.
      destruct (db_call _ w) as [f w0]. intros Hload.
      repeat case_match; simplify_eq; eauto.
    + intros Hnone Hfault. revert Hload. unfold ComponentRepository.GetComponentByID.
      destruct (db_call _ w) as [f w0] eqn:Hc. pose proof Hc as Hf%db_call_fault.
      apply db_call_frame in Hc as ([_ Hcomp] & _). intros Hload.
      destruct f as [f|].
      * destruct (db_faults w) as [|[fl|] rest]; simplify_eq/=;
          destruct Hfault; simplify_eq.
      * rewrite Hcomp, Hnone in Hload. by simplify_eq.
Qed.

(** C5: [GetBikeByID] rejects an identifier that does not parse before
    touching cache or storage; otherwise it asks the cache first.  A cached
    value that deserializes is returned with the cache read as the only call
    made; on a miss, a cache error or bytes that do not deserialize, the
    answer is the storage adapter's, and a bike read from storage is written
    to the cache under the same key with a 15-minute expiry, whose outcome
    does not change the answer. *)
Theorem C5_get_bike_by_id (bikeID : string) (w : World) :
  (uuid_Parse bikeID = None ->
   exists w' : World,
     BikeService.GetBikeByID bikeID w
     = (Err (fmt_Errorf_w "invalid bike ID" (uuid_error bikeID)), w')
     /\ calls w w' [] /\ same_storage w w' /\ same_cache w w')
  /\ (forall (u : UUID) (cached : Result Bytes) (w1 : World),
        uuid_Parse bikeID = Some u ->
        CachePort.Get (cache_key bikeID) w = (cached, w1) ->
        (forall (data : Bytes) (bike : Bike.t),
           cached = Ok data -> json_Unmarshal data = Some bike ->
           exists w' : World,
             BikeService.GetBikeByID bikeID w = (Ok bike, w')
             /\ calls w w' [CacheGet (cache_key bikeID)]
             /\ same_storage w w' /\ same_cache w w'
             /\ db_faults w' = db_faults w)
        /\ ((forall data : Bytes, cached = Ok data -> json_Unmarshal data = None) ->
            forall (stored : Result Bike.t) (w2 : World),
              BikeRepository.GetBikeByID u w1 = (stored, w2) ->
              exists w' : World,
                BikeService.GetBikeByID bikeID w = (stored, w')
                /\ same_storage w w'
                /\ (forall e, stored = Err e ->
                    calls w w' [CacheGet (cache_key bikeID); SqlSelectBike u]
                    /\ same_cache w w')
                /\ (forall bike data,
                      stored = Ok bike -> json_Marshal bike = Some data ->
                      calls w w' [CacheGet (cache_key bikeID); SqlSelectBike u;
                                  CacheSet (cache_key bikeID) (15 * time_Minute)]
                      /\ forall err w3,
                           CachePort.Set' (cache_key bikeID) data (15 * time_Minute) w2
                           = (err, w3) ->
                           err = None ->
                           cache_store w' !! cache_key bikeID
                           = Some (data, 15 * time_Minute)))).
Proof.
  unfold BikeService.GetBikeByID. split.
  - intros ->. eexists. split; [done|]. split_and!; try done. solve_calls.
    by rewrite app_nil_r.
  - intros u cached w1 -> Hget. rewrite Hget.
    pose proof Hget as (Hs1 & Hk1 & Hf1 & Ht1)%CachePort_Get_frame. split.
    + intros data bike -> Hun. simpl. rewrite Hun.
      eexists. split; [done|]. split_and!; try done.
    + intros Hmiss stored w2 Hrepo.
      assert (match cached with Ok data => json_Unmarshal data | Err _ => None end
              = None) as ->.
      { destruct cached; [by apply Hmiss|done]. }
      rewrite Hrepo.
      pose proof Hrepo as (Hs2 & Hk2 & _ & Ht2)%BikeRepository_GetBikeByID_frame.
      destruct stored as [bike|e].
      * destruct (json_Marshal bike) as [data|] eqn:Hm.
        -- destruct (CachePort.Set' (cache_key bikeID) data (15 * time_Minute) w2)
             as [err w3] eqn:Hset.
           pose proof Hset as (Hs3 & _ & Ht3 & Hk3)%CachePort_Set_frame.
           assert (same_storage w w3) as Hs
               by eauto using same_storage_trans.
           destruct err; eexists; (split; [done|]); (split; [done|]);
             (split; [done|]); intros ? data' [= <-] Hm'; rewrite Hm in Hm';
             simplify_eq; (split; [solve_calls|]);
             intros err' w3' Hset'; rewrite Hset in Hset'; simplify_eq; try done;
             intros _; by apply Hk3.
        -- eexists. split; [done|]. split; [by eauto using same_storage_trans|].
           split; [done|]. intros ? ? [= <-] ?. congruence.
      * eexists. split; [done|]. split; [by eauto using same_storage_trans|].
        split; [|done]. intros ? [= <-]. split; [solve_calls|].
        unfold same_cache in *. simpl. congruence.
Qed.


Lemma uuid_New_frame (w w' : World) (id : UUID) :
  uuid_New w = (id, w') ->
  same_storage w w' /\ same_cache w w' /\ calls w w' []
  /\ db_faults w' = db_faults w /\ cache_faults w' = cache_faults w.
Proof.
  unfold uuid_New. intros [= <- <-]. split_and!; try done. solve_calls.
  by rewrite app_nil_r.
Qed.



Lemma ComponentRepository_GetComponentByID_Ok (u : UUID) (c : Component.t)
  (w w' : World) :
  ComponentRepository.GetComponentByID u w = (Ok c, w') ->
  exists r, db_components w !! u = Some r /\ c = ComponentRepository.scan r.
Proof.
  unfold ComponentRepository.GetComponentByID.
  destruct (db_call _ w) as [f w1] eqn:Hc.
  apply db_call_frame in Hc as ([Hb Hcs] & _). intros Hget.
  repeat case_match; simplify_eq. rewrite <- Hcs. eauto.
Qed.


(** *** What a failing storage call leaves behind *)

Lemma insert_error_storage (fk : string) (e : error) :
  match e with pq_Error _ | driver_error _ => True | _ => False end ->
  is_input_error (insert_error fk e) = false.
Proof.
  unfold insert_error. destruct e; try done. intros _. repeat case_decide; done.
Qed.

Lemma update_error_storage (what : string) (e : error) :
  match e with pq_Error _ | driver_error _ | sql_ErrNoRows => True | _ => False end ->
  is_input_error (update_error what e) = false.
Proof.
  unfold update_error. destruct e; try done. intros _. repeat case_decide; done.
Qed.

Lemma db_call_error (ev : Event) (w w' : World) (e : error) :
  db_call ev w = (Some e, w') ->
  match e with pq_Error _ | driver_error _ => True | _ => False end.
Proof.
  unfold db_call. simpl. intros Hc.
  destruct (db_faults w) as [|[[code|msg]|] rest]; by simplify_eq/=.
Qed.

Lemma BikeRepository_CreateBike_frame (bike : Bike.t) (w w' : World)
  (r : Result Bike.t) :
  BikeRepository.CreateBike bike w = (r, w') ->
  same_cache w w' /\ calls w w' [SqlInsertBike (Bike.BikeID bike)]
  /\ db_components w' = db_components w
  /\ (forall e, r = Err e -> is_input_error e = false /\ same_storage w w').
Proof.
  unfold BikeRepository.CreateBike.
  destruct (db_call _ w) as [f w1] eqn:Hc.
  pose proof Hc as (Hs & Hk & _ & Ht)%db_call_frame.
  destruct f as [e0|].
  - apply db_call_error in Hc. intros [= <- <-]. split_and!; try done; [apply Hs|].
    intros e [= <-]. split; [|done]. by apply insert_error_storage.
  - unfold BikeRepository.insert. intros Hins.
    repeat case_match; simplify_eq; simpl; split_and!; try done; try apply Hs;
      intros e [= <-]; split; done.
Qed.

Lemma BikeRepository_UpdateBike_frame (bike : Bike.t) (w w' : World)
  (r : Result Bike.t) :
  BikeRepository.UpdateBike bike w = (r, w') ->
  same_cache w w' /\ calls w w' [SqlUpdateBike (Bike.BikeID bike)]
  /\ db_components w' = db_components w
  /\ (forall e, r = Err e -> is_input_error e = false /\ same_storage w w').
Proof.
  unfold BikeRepository.UpdateBike.
  destruct (db_call _ w) as [f w1] eqn:Hc.
  pose proof Hc as (Hs & Hk & _ & Ht)%db_call_frame.
  destruct f as [e0|].
  - apply db_call_error in Hc. intros [= <- <-]. split_and!; try done; [apply Hs|].
    intros e [= <-]. split; [|done]. apply update_error_storage. by destruct e0.
  - destruct (BikeRepository.update bike w1) as [[r'|e] w2] eqn:Hup.
    + pose proof Hup as (r0 & Hr0 & Hset & ->)%BikeRepository_update_inv.
      intros [= <- <-]. simpl. split_and!; try done. apply Hs.
    + pose proof Hup as ->%BikeRepository_update_fail. intros [= <- <-].
      split_and!; try done; [apply Hs|]. intros ? [= <-]. split; [|done].
      apply update_error_storage. revert Hup.
      unfold BikeRepository.update, BikeRepository.update_set.
      intros Hup. repeat case_match; by simplify_eq.
Qed.

Lemma BikeRepository_DeleteBike_frame (u : UUID) (w w' : World) (r : option error) :
  BikeRepository.DeleteBike u w = (r, w') ->
  same_cache w w' /\ calls w w' [SqlDeleteBike u]
  /\ (forall e, r = Some e -> is_input_error e = false /\ same_storage w w').
Proof.
  unfold BikeRepository.DeleteBike.
  destruct (db_call _ w) as [f w1] eqn:Hc.
  pose proof Hc as (Hs & Hk & _ & Ht)%db_call_frame.
  destruct f as [e0|].
  - apply db_call_error in Hc. intros [= <- <-]. split_and!; try done.
    intros e [= <-]. split; [|done]. by destruct e0.
  - intros Hdel. repeat case_match; simplify_eq; simpl; split_and!; try done.
    intros e [= <-]. done.
Qed.

Lemma ComponentRepository_CreateComponent_frame (c : Component.t) (w w' : World)
  (r : Result Component.t) :
  ComponentRepository.CreateComponent c w = (r, w') ->
  same_cache w w' /\ calls w w' [SqlInsertComponent (Component.ID c)]
  /\ (forall e, r = Err e -> is_input_error e = false /\ same_storage w w').
Proof.
  unfold ComponentRepository.CreateComponent.
  destruct (db_call _ w) as [f w1] eqn:Hc.
  pose proof Hc as (Hs & Hk & _ & Ht)%db_call_frame.
  destruct f as [e0|].
  - apply db_call_error in Hc. intros [= <- <-]. split_and!; try done.
    intros e [= <-]. split; [|done]. by apply insert_error_storage.
  - unfold ComponentRepository.insert. intros Hins.
    repeat case_match; simplify_eq; simpl; split_and!; try done;
      intros e [= <-]; split; done.
Qed.

Lemma ComponentRepository_UpdateComponent_frame (c : Component.t) (w w' : World)
  (r : Result Component.t) :
  ComponentRepository.UpdateComponent c w = (r, w') ->
  same_cache w w' /\ calls w w' [SqlUpdateComponent (Component.ID c)]
  /\ (forall e, r = Err e -> is_input_error e = false /\ same_storage w w').
Proof.
  unfold ComponentRepository.UpdateComponent.
  destruct (db_call _ w) as [f w1] eqn:Hc.
  pose proof Hc as (Hs & Hk & _ & Ht)%db_call_frame.
  destruct f as [e0|].
  - apply db_call_error in Hc. intros [= <- <-]. split_and!; try done.
    intros e [= <-]. split; [|done]. apply update_error_storage. by destruct e0.
  - destruct (ComponentRepository.update c w1) as [[r'|e] w2] eqn:Hup.
    + pose proof Hup as (r0 & Hr0 & Hset & ->)%ComponentRepository_update_inv.
      intros [= <- <-]. simpl. split_and!; done.
    + pose proof Hup as ->%ComponentRepository_update_fail. intros [= <- <-].
      split_and!; try done. intros ? [= <-]. split; [|done].
      apply update_error_storage. revert Hup.
      unfold ComponentRepository.update, ComponentRepository.update_set.
      intros Hup. repeat case_match; by simplify_eq.
Qed.

Lemma ComponentRepository_GetComponentByID_error (u : UUID) (w w' : World) (e : error) :
  ComponentRepository.GetComponentByID u w = (Err e, w') ->
  is_input_error e = false.
Proof.
  unfold ComponentRepository.GetComponentByID.
  destruct (db_call _ w) as [f w1] eqn:Hc. intros Hget.
  destruct f as [e0|].
  - apply db_call_error in Hc. simplify_eq. by destruct e0.
  - repeat case_match; by simplify_eq.
Qed.

Lemma ComponentRepository_DeleteComponent_error (u : UUID) (w w' : World) (e : error) :
  ComponentRepository.DeleteComponent u w = (Some e, w') ->
  is_input_error e = false.
Proof.
  unfold ComponentRepository.DeleteComponent.
  destruct (db_call _ w) as [f w1] eqn:Hc. intros Hdel.
  destruct f as [e0|].
  - apply db_call_error in Hc. simplify_eq. by destruct e.
  - repeat case_match; by simplify_eq.
Qed.

(** The three ways a mutation ends: done, refused by the storage adapter,
    rejected before any call. *)
Ltac mutation_ok :=
  eexists; split; [solve_calls|]; split; done.

Ltac mutation_failed He :=
  eexists; split; [solve_calls|]; split;
  [ intros ? [= <-]; split;
    [unfold same_cache in *; simpl; congruence | by repeat constructor]
  | intros ? [= <-] ?;
    first [congruence | destruct (He _ eq_refl); congruence] ].

Ltac mutation_rejected :=
  exists []; split; [solve_calls; by rewrite app_nil_r|];
  split; [by intros ? [= <-] | by intros ? [= <-] _].

(** C6: a mutating service operation that fails leaves the cache as it was
    and makes no cache call, so a cache call during a mutation means the
    operation succeeded; when the failure is a validation or identifier
    error, no port call is made at all and storage, cache and the pending
    storage faults are as before. *)
Theorem C6_failed_mutation_leaves_cache (m : Mutation) (w w' : World)
  (res : option error) :
  run m w = (res, w') ->
  exists evs : list Event,
    calls w w' evs
    /\ (forall e, res = Some e ->
        same_cache w w' /\ Forall (fun ev => is_cache_event ev = false) evs)
    /\ (forall e, res = Some e -> is_input_error e = true ->
        evs = [] /\ same_storage w w' /\ db_faults w' = db_faults w)
    /\ (forall ev, ev ∈ evs -> is_cache_event ev = true -> res = None).
Proof.
  intros Hrun.
  cut (exists evs : list Event,
         calls w w' evs
         /\ (forall e, res = Some e ->
             same_cache w w' /\ Forall (fun ev => is_cache_event ev = false) evs)
         /\ (forall e, res = Some e -> is_input_error e = true ->
             evs = [] /\ same_storage w w' /\ db_faults w' = db_faults w)).
  { intros (evs & Hc & Hfail & Hin). exists evs. split_and!; try done.
    intros ev Hev Hcache. destruct res as [e|]; [|done].
    destruct (Hfail e eq_refl) as [_ Hall].
    rewrite Forall_forall in Hall. specialize (Hall ev Hev). congruence. }
  destruct m as [bike|bike|bikeID|c|c|componentID];
    cbv beta iota delta [run] in Hrun.
  - (* CreateBike *)
    unfold BikeService.CreateBike, validate.Bike_failures, validate.Struct in Hrun.
    cbv beta iota in Hrun.
    destruct (decide (Bike.BikeID bike = uuid_Nil)) as [Hnil|Hid].
    + destruct (uuid_New w) as [id w0] eqn:Hnew.
      apply uuid_New_frame in Hnew as (Hs0 & Hk0 & Ht0 & Hf0 & _).
      destruct (BikeRepository.CreateBike _ w0) as [[b|e] w1] eqn:Hcr;
        apply BikeRepository_CreateBike_frame in Hcr as (Hk1 & Ht1 & _ & He);
        simplify_eq/=; [mutation_ok | mutation_failed He].
    + destruct (BikeRepository.CreateBike _ w) as [[b|e] w1] eqn:Hcr;
        apply BikeRepository_CreateBike_frame in Hcr as (Hk1 & Ht1 & _ & He);
        simplify_eq/=; [mutation_ok | mutation_failed He].
  - (* UpdateBike *)
    unfold BikeService.UpdateBike, validate.Bike_failures, validate.Struct in Hrun.
    cbv beta iota in Hrun.
    destruct (BikeRepository.UpdateBike bike w) as [[b|e] w1] eqn:Hup;
      apply BikeRepository_UpdateBike_frame in Hup as (Hk1 & Ht1 & _ & He);
      simplify_eq/=; [|mutation_failed He].
    pose proof (invalidate_frame (cache_key (uuid_String (Bike.BikeID b))) w1)
      as (_ & _ & Ht2 & _).
    mutation_ok.
  - (* DeleteBike *)
    unfold BikeService.DeleteBike in Hrun.
    destruct (uuid_Parse bikeID) as [u|]; [|simplify_eq/=; mutation_rejected].
    destruct (BikeRepository.DeleteBike u w) as [[e|] w1] eqn:Hdel;
      apply BikeRepository_DeleteBike_frame in Hdel as (Hk1 & Ht1 & He);
      simplify_eq/=; [mutation_failed He|].
    pose proof (invalidate_frame (cache_key bikeID) w1) as (_ & _ & Ht2 & _).
    mutation_ok.
  - (* CreateComponent *)
    unfold ComponentService.CreateComponent in Hrun.
    destruct (validate.Struct _) as [verr|] eqn:Hv;
      [simplify_eq/=; mutation_rejected|].
    destruct (decide (Component.ID c = uuid_Nil)) as [Hnil|Hid].
    + destruct (uuid_New w) as [id w0] eqn:Hnew.
      apply uuid_New_frame in Hnew as (Hs0 & Hk0 & Ht0 & Hf0 & _).
      destruct (ComponentRepository.CreateComponent _ w0) as [[c1|e] w1] eqn:Hcr;
        apply ComponentRepository_CreateComponent_frame in Hcr as (Hk1 & Ht1 & He);
        simplify_eq/=; [|mutation_failed He].
      pose proof (invalidate_frame (cache_key (uuid_String (Component.BikeID c1))) w1)
        as (_ & _ & Ht2 & _).
      mutation_ok.
    + destruct (ComponentRepository.CreateComponent _ w) as [[c1|e] w1] eqn:Hcr;
        apply ComponentRepository_CreateComponent_frame in Hcr as (Hk1 & Ht1 & He);
        simplify_eq/=; [|mutation_failed He].
      pose proof (invalidate_frame (cache_key (uuid_String (Component.BikeID c1))) w1)
        as (_ & _ & Ht2 & _).
      mutation_ok.
  - (* UpdateComponent *)
    unfold ComponentService.UpdateComponent in Hrun.
    destruct (validate.Struct _) as [verr|] eqn:Hv;
      [simplify_eq/=; mutation_rejected|].
    destruct (ComponentRepository.UpdateComponent c w) as [[c1|e] w1] eqn:Hup;
      apply ComponentRepository_UpdateComponent_frame in Hup as (Hk1 & Ht1 & He);
      simplify_eq/=; [|mutation_failed He].
    pose proof (invalidate_frame (cache_key (uuid_String (Component.BikeID c1))) w1)
      as (_ & _ & Ht2 & _).
    mutation_ok.
  - (* DeleteComponent *)
    unfold ComponentService.DeleteComponent in Hrun.
    destruct (uuid_Parse componentID) as [u|]; [|simplify_eq/=; mutation_rejected].
    destruct (ComponentRepository.GetComponentByID u w) as [[c|e] w1] eqn:Hload.
    + pose proof Hload as (_ & Hk1 & _ & Ht1)%ComponentRepository_GetComponentByID_frame.
      destruct (ComponentRepository.DeleteComponent u w1) as [[e|] w2] eqn:Hdel.
      * pose proof Hdel as He%ComponentRepository_DeleteComponent_error.
        apply ComponentRepository_DeleteComponent_calls in Hdel
          as (_ & Hk2 & _ & Ht2 & _).
        simplify_eq/=. mutation_failed He.
      * apply ComponentRepository_DeleteComponent_calls in Hdel
          as (_ & Hk2 & _ & Ht2 & _).
        pose proof (invalidate_frame (cache_key (uuid_String (Component.BikeID c))) w2)
          as (_ & _ & Ht3 & _).
        simplify_eq/=. mutation_ok.
    + pose proof Hload as He%ComponentRepository_GetComponentByID_error.
      apply ComponentRepository_GetComponentByID_frame in Hload
        as (_ & Hk1 & _ & Ht1).
      simplify_eq/=. mutation_failed He.
Qed.

End Services.

(** ** Validation of bikes *)

Section BikeValidation.
Context `{Externals}.

(** Nothing in [domain.Bike] is validated: no bike is rejected by
    [CreateBike] or [UpdateBike] before it reaches the storage adapter. *)
Lemma BikeService_CreateBike_no_validation (bike : Bike.t) (w w' : World) (e : error) :
  BikeService.CreateBike bike w = (Err e, w') -> is_ValidationError e = false.
Proof.
  unfold BikeService.CreateBike, validate.Bike_failures, validate.Struct.
  cbv beta iota.
  destruct (decide (Bike.BikeID bike = uuid_Nil)) as [Hnil|Hid].
  - destruct (uuid_New w) as [id w0].
    destruct (BikeRepository.CreateBike _ w0) as [[b|e0] w1] eqn:Hcr; [done|].
    apply BikeRepository_CreateBike_frame in Hcr as (_ & _ & _ & He).
    intros [= <- <-]. destruct (He e0 eq_refl) as [Hin _].
    unfold is_input_error in Hin. by apply orb_false_iff in Hin as [-> _].
  - destruct (BikeRepository.CreateBike _ w) as [[b|e0] w1] eqn:Hcr; [done|].
    apply BikeRepository_CreateBike_frame in Hcr as (_ & _ & _ & He).
    intros [= <- <-]. destruct (He e0 eq_refl) as [Hin _].
    unfold is_input_error in Hin. by apply orb_false_iff in Hin as [-> _].
Qed.

End BikeValidation.

(** ** Ownership at the request boundary *)

Section Handlers.
Context `{Externals}.

Lemma denied_spec (payload : TokenPayload.t) (bike : Bike.t) :
  denied payload bike = true
  <-> TokenPayload.Role payload <> Admin
      /\ TokenPayload.UserID payload <> Bike.UserID bike.
Proof.
  unfold denied. rewrite andb_true_iff, !negb_true_iff, !bool_decide_eq_false. done.
Qed.

Lemma BikeService_GetBikeByID_storage (bikeID : string) (w w' : World)
  (r : Result Bike.t) :
  BikeService.GetBikeByID bikeID w = (r, w') -> same_storage w w'.
Proof.
  unfold BikeService.GetBikeByID.
  destruct (uuid_Parse bikeID) as [u|]; [|by intros [= <- <-]].
  destruct (CachePort.Get (cache_key bikeID) w) as [cached w1] eqn:Hc.
  apply CachePort_Get_frame in Hc as (Hs1 & _).
  destruct (match cached with Ok data => json_Unmarshal data | Err _ => None end);
    [by intros [= <- <-]|].
  destruct (BikeRepository.GetBikeByID u w1) as [[bike|e] w2] eqn:Hrepo;
    apply BikeRepository_GetBikeByID_frame in Hrepo as (Hs2 & _);
    [|intros [= <- <-]; by eapply same_storage_trans].
  destruct (json_Marshal bike) as [data|];
    [|intros [= <- <-]; by eapply same_storage_trans].
  destruct (CachePort.Set' _ data _ w2) as [err w3] eqn:Hset.
  apply CachePort_Set_frame in Hset as (Hs3 & _).
  destruct err; intros [= <- <-];
    eapply same_storage_trans; try done; by eapply same_storage_trans.
Qed.

Lemma ComponentRepository_GetComponentsByBikeID_storage (u : UUID) (w w' : World)
  (r : Result (list Component.t)) :
  ComponentRepository.GetComponentsByBikeID u w = (r, w') -> same_storage w w'.
Proof.
  unfold ComponentRepository.GetComponentsByBikeID.
  destruct (db_call _ w) as [f w1] eqn:Hc. apply db_call_frame in Hc as (Hs & _).
  destruct f; by intros [= <- <-].
Qed.

Lemma BikeService_GetBikeWithComponents_storage (bikeID : string) (w w' : World)
  (r : Result Bike.t) :
  BikeService.GetBikeWithComponents bikeID w = (r, w') -> same_storage w w'.
Proof.
  unfold BikeService.GetBikeWithComponents.
  destruct (uuid_Parse bikeID) as [u|]; [|by intros [= <- <-]].
  destruct (BikeRepository.GetBikeByID u w) as [[bike|e] w1] eqn:Hrepo;
    apply BikeRepository_GetBikeByID_frame in Hrepo as (Hs1 & _);
    [|by intros [= <- <-]].
  destruct (ComponentRepository.GetComponentsByBikeID u w1) as [[cs|e] w2] eqn:Hcs;
    apply ComponentRepository_GetComponentsByBikeID_storage in Hcs;
    intros [= <- <-]; by eapply same_storage_trans.
Qed.

Lemma ComponentService_GetComponentByID_storage (componentID : string)
  (w w' : World) (r : Result Component.t) :
  ComponentService.GetComponentByID componentID w = (r, w') -> same_storage w w'.
Proof.
  unfold ComponentService.GetComponentByID.
  destruct (uuid_Parse componentID) as [u|]; [|by intros [= <- <-]].
  destruct (ComponentRepository.GetComponentByID u w) as [[c|e] w1] eqn:Hrepo;
    apply ComponentRepository_GetComponentByID_frame in Hrepo as (Hs1 & _);
    by intros [= <- <-].
Qed.

(** The lookups a handler makes before the ownership check leave storage
    as it is. *)
Create HintDb storage_frames.

#[local] Hint Resolve BikeService_GetBikeByID_storage
  BikeService_GetBikeWithComponents_storage
  ComponentService_GetComponentByID_storage same_storage_trans
  same_storage_logger : storage_frames.

Ltac not_forbidden Hst :=
  exfalso; simpl in Hst; cbv in Hst; discriminate Hst.

(** One leaf of a handler: the status it answers against the rule. *)
Ltac ownership_leaf payload :=
  split;
  [ split;
    [ intros Hst;
      first [ not_forbidden Hst
            | eexists; split; [reflexivity|]; by apply denied_spec ]
    | intros (bike' & Hres & Hrole & Huser);
      first [ discriminate Hres
            | reflexivity
            | assert (denied payload bike' = true) as Hden'
                by (apply denied_spec; done);
              injection Hres as Heq; subst; congruence ] ]
  | intros Hst; first [ not_forbidden Hst | idtac ] ].

Lemma ownership_rule (op : Operation) (c : Context) (w : World)
  (payload : TokenPayload.t) :
  authorization_payload c = Some payload ->
  (status (fst (handle op c w)) = StatusForbidden
   <-> exists bike : Bike.t,
         resolve_owner op c w = Some bike
         /\ TokenPayload.Role payload <> Admin
         /\ TokenPayload.UserID payload <> Bike.UserID bike)
  /\ (status (fst (handle op c w)) = StatusForbidden ->
      same_storage w (snd (handle op c w))).
Proof.
  intros Hauth.
  destruct op; unfold handle, resolve_owner, loaded,
    BikeHandler.GetBike, BikeHandler.GetBikeWithComponents,
    BikeHandler.GetBikeWithUser, BikeHandler.UpdateBike, BikeHandler.DeleteBike,
    ComponentHandler.GetComponent, ComponentHandler.CreateComponent,
    ComponentHandler.UpdateComponent, ComponentHandler.DeleteComponent;
    rewrite Hauth.
  all: repeat case_match; simplify_eq.
  all: ownership_leaf payload.
  all: simpl; eauto with storage_frames.
Qed.

(** C1: for a request with a valid identity, an operation is answered
    Forbidden exactly when the bike it is about has been resolved and the
    requester is neither Admin nor that bike's owner.  So a non-admin who is
    not the owner is denied on each of the nine operations, an Admin never
    is, and a denied request leaves storage as it was.  For a component named
    in the path, the bike is the one its stored [bike_id] names. *)
Theorem C1_ownership (op : Operation) (c : Context) (w : World)
  (payload : TokenPayload.t) :
  authorization_payload c = Some payload ->
  (status (fst (handle op c w)) = StatusForbidden
   <-> exists bike : Bike.t,
         resolve_owner op c w = Some bike
         /\ TokenPayload.Role payload <> Admin
         /\ TokenPayload.UserID payload <> Bike.UserID bike)
  /\ (status (fst (handle op c w)) = StatusForbidden ->
      same_storage w (snd (handle op c w)))
  /\ (is_component_operation op = true ->
      forall (u : UUID) (r : components.row) (component : Component.t) (w1 : World),
        uuid_Parse (Param_id c) = Some u ->
        db_components w !! u = Some r ->
        ComponentService.GetComponentByID (Param_id c) w = (Ok component, w1) ->
        Component.BikeID component = components.bike_id r
        /\ resolve_owner op c w
           = loaded (BikeService.GetBikeByID
                       (uuid_String (components.bike_id r)) w1)).
Proof.
  intros Hauth.
  destruct (ownership_rule op c w payload Hauth) as [Hrule Hframe].
  split_and!; [done|done|].
  intros Hop u r component w1 Hparse Hrow Hload.
  assert (Component.BikeID component = components.bike_id r) as Hbike.
  { revert Hload. unfold ComponentService.GetComponentByID. rewrite Hparse.
    destruct (ComponentRepository.GetComponentByID u w) as [[c0|e] w0] eqn:Hrepo;
      [|done].
    apply ComponentRepository_GetComponentByID_Ok in Hrepo as (r0 & Hr0 & ->).
    intros [= <- <-]. rewrite Hrow in Hr0. by simplify_eq. }
  split; [done|].
  destruct op; try discriminate Hop; unfold resolve_owner;
    by rewrite Hload, Hbike.
Qed.

End Handlers.

(** ** The schema invariant *)

Section SchemaInvariant.
Context `{Externals}.

Lemma storage_fits_same (w w' : World) :
  same_storage w w' -> storage_fits w -> storage_fits w'.
Proof. unfold storage_fits. by intros [-> ->]. Qed.

Lemma storage_fits_insert_bike (k : UUID) (r : bikes.row) (w : World) :
  bikes_fits r -> storage_fits w ->
  storage_fits (set_bikes (<[k := r]> (db_bikes w)) w).
Proof.
  intros Hr [Hb Hc]. split; [|done]. simpl. intros k' r'.
  destruct (decide (k = k')) as [<-|Hne].
  - rewrite lookup_insert_eq. by intros [= <-].
  - rewrite lookup_insert_ne by done. apply Hb.
Qed.

Lemma storage_fits_insert_component (k : UUID) (r : components.row) (w : World) :
  components_fits r -> storage_fits w ->
  storage_fits (set_components (<[k := r]> (db_components w)) w).
Proof.
  intros Hr [Hb Hc]. split; [done|]. simpl. intros k' r'.
  destruct (decide (k = k')) as [<-|Hne].
  - rewrite lookup_insert_eq. by intros [= <-].
  - rewrite lookup_insert_ne by done. apply Hc.
Qed.

Lemma BikeRepository_CreateBike_fits (bike : Bike.t) (w : World) :
  storage_fits w -> storage_fits (snd (BikeRepository.CreateBike bike w)).
Proof.
  intros Hfit. unfold BikeRepository.CreateBike.
  destruct (db_call _ w) as [f w1] eqn:Hc. apply db_call_frame in Hc as (Hs & _).
  apply (storage_fits_same _ _ Hs) in Hfit.
  destruct f; [done|]. unfold BikeRepository.insert.
  repeat case_match; simplify_eq; simpl; try done.
  apply storage_fits_insert_bike; [|done].
  split_and!; simpl; by eapply varchar_length.
Qed.

Lemma BikeRepository_UpdateBike_fits (bike : Bike.t) (w : World) :
  storage_fits w -> storage_fits (snd (BikeRepository.UpdateBike bike w)).
Proof.
  intros Hfit. unfold BikeRepository.UpdateBike.
  destruct (db_call _ w) as [f w1] eqn:Hc. apply db_call_frame in Hc as (Hs & _).
  apply (storage_fits_same _ _ Hs) in Hfit.
  destruct f; [done|].
  destruct (BikeRepository.update bike w1) as [[r'|e] w2] eqn:Hup; simpl.
  - apply BikeRepository_update_inv in Hup as (r & Hr & Hset & ->).
    apply storage_fits_insert_bike; [|done].
    revert Hset. unfold BikeRepository.update_set. intros Hset.
    repeat case_match; simplify_eq. split_and!; simpl; by eapply varchar_length.
  - by apply BikeRepository_update_fail in Hup as ->.
Qed.

Lemma BikeRepository_DeleteBike_fits (u : UUID) (w : World) :
  storage_fits w -> storage_fits (snd (BikeRepository.DeleteBike u w)).
Proof.
  intros Hfit. unfold BikeRepository.DeleteBike.
  destruct (db_call _ w) as [f w1] eqn:Hc. apply db_call_frame in Hc as (Hs & _).
  apply (storage_fits_same _ _ Hs) in Hfit as [Hb Hcs].
  destruct f; [done|]. repeat case_match; simplify_eq; simpl; try done.
  split; simpl.
  - intros k' r' [_ Hk]%lookup_delete_Some. by eapply Hb.
  - intros k' r' [Hk _]%map_lookup_filter_Some. by eapply Hcs.
Qed.

Lemma ComponentRepository_CreateComponent_fits (c : Component.t) (w : World) :
  storage_fits w -> storage_fits (snd (ComponentRepository.CreateComponent c w)).
Proof.
  intros Hfit. unfold ComponentRepository.CreateComponent.
  destruct (db_call _ w) as [f w1] eqn:Hc. apply db_call_frame in Hc as (Hs & _).
  apply (storage_fits_same _ _ Hs) in Hfit.
  destruct f; [done|]. unfold ComponentRepository.insert.
  repeat case_match; simplify_eq; simpl; try done.
  apply storage_fits_insert_component; [|done].
  split_and!; simpl; by eapply varchar_length.
Qed.

Lemma ComponentRepository_UpdateComponent_fits (c : Component.t) (w : World) :
  storage_fits w -> storage_fits (snd (ComponentRepository.UpdateComponent c w)).
Proof.
  intros Hfit. unfold ComponentRepository.UpdateComponent.
  destruct (db_call _ w) as [f w1] eqn:Hc. apply db_call_frame in Hc as (Hs & _).
  apply (storage_fits_same _ _ Hs) in Hfit.
  destruct f; [done|].
  destruct (ComponentRepository.update c w1) as [[r'|e] w2] eqn:Hup; simpl.
  - apply ComponentRepository_update_inv in Hup as (r & Hr & Hset & ->).
    apply storage_fits_insert_component; [|done].
    revert Hset. unfold ComponentRepository.update_set. intros Hset.
    repeat case_match; simplify_eq. split_and!; simpl; by eapply varchar_length.
  - by apply ComponentRepository_update_fail in Hup as ->.
Qed.

Lemma ComponentRepository_DeleteComponent_fits (u : UUID) (w : World) :
  storage_fits w -> storage_fits (snd (ComponentRepository.DeleteComponent u w)).
Proof.
  intros Hfit. unfold ComponentRepository.DeleteComponent.
  destruct (db_call _ w) as [f w1] eqn:Hc. apply db_call_frame in Hc as (Hs & _).
  apply (storage_fits_same _ _ Hs) in Hfit as [Hb Hcs].
  destruct f; [done|]. repeat case_match; simplify_eq; simpl; try done.
  split; [done|]. simpl.
  intros k' r' [_ Hk]%lookup_delete_Some. by eapply Hcs.
Qed.

(** Whatever a mutating operation does, the rows it leaves are within the
    column sizes: the premise on stored rows in the merge property holds of
    every row the program has written. *)
Lemma storage_fits_run (m : Mutation) (w : World) :
  storage_fits w -> storage_fits (snd (run m w)).
Proof.
  intros Hfit. destruct m as [bike|bike|bikeID|c|c|componentID];
    cbv beta iota delta [run].
  - unfold BikeService.CreateBike, validate.Bike_failures, validate.Struct.
    cbv beta iota.
    destruct (decide (Bike.BikeID bike = uuid_Nil)) as [Hnil|Hid].
    + destruct (uuid_New w) as [id w0] eqn:Hnew.
      apply uuid_New_frame in Hnew as (Hs0 & _).
      apply (storage_fits_same _ _ Hs0) in Hfit.
      pose proof (BikeRepository_CreateBike_fits (Bike.set_BikeID id bike) w0 Hfit).
      by destruct (BikeRepository.CreateBike _ w0) as [[b|e] w1].
    + pose proof (BikeRepository_CreateBike_fits bike w Hfit).
      by destruct (BikeRepository.CreateBike _ w) as [[b|e] w1].
  - destruct (BikeService.UpdateBike bike w) as [r w'] eqn:Hup.
    apply BikeService_UpdateBike_repository in Hup as (w1 & Hrepo & Hs).
    simpl. apply (storage_fits_same _ _ Hs).
    pose proof (BikeRepository_UpdateBike_fits bike w Hfit) as Hfit1.
    by rewrite Hrepo in Hfit1.
  - unfold BikeService.DeleteBike.
    destruct (uuid_Parse bikeID) as [u|]; [|done].
    pose proof (BikeRepository_DeleteBike_fits u w Hfit) as Hfit1.
    destruct (BikeRepository.DeleteBike u w) as [[e|] w1]; [done|]. simpl.
    destruct (invalidate_frame (cache_key bikeID) w1) as (Hs & _).
    by apply (storage_fits_same _ _ Hs).
  - unfold ComponentService.CreateComponent.
    destruct (validate.Struct _); [done|].
    destruct (decide (Component.ID c = uuid_Nil)) as [Hnil|Hid].
    + destruct (uuid_New w) as [id w0] eqn:Hnew.
      apply uuid_New_frame in Hnew as (Hs0 & _).
      apply (storage_fits_same _ _ Hs0) in Hfit.
      pose proof (ComponentRepository_CreateComponent_fits
                    (Component.set_ID id c) w0 Hfit) as Hfit1.
      destruct (ComponentRepository.CreateComponent _ w0) as [[c1|e] w1]; [|done].
      simpl. destruct (invalidate_frame
                         (cache_key (uuid_String (Component.BikeID c1))) w1)
        as (Hs & _).
      by apply (storage_fits_same _ _ Hs).
    + pose proof (ComponentRepository_CreateComponent_fits c w Hfit) as Hfit1.
      destruct (ComponentRepository.CreateComponent _ w) as [[c1|e] w1]; [|done].
      simpl. destruct (invalidate_frame
                         (cache_key (uuid_String (Component.BikeID c1))) w1)
        as (Hs & _).
      by apply (storage_fits_same _ _ Hs).
  - destruct (ComponentService.UpdateComponent c w) as [r w'] eqn:Hup.
    apply ComponentService_UpdateComponent_repository in Hup
      as [(Hs & _)|(w1 & Hrepo & Hs)]; simpl.
    + by apply (storage_fits_same _ _ Hs).
    + apply (storage_fits_same _ _ Hs).
      pose proof (ComponentRepository_UpdateComponent_fits c w Hfit) as Hfit1.
      by rewrite Hrepo in Hfit1.
  - unfold ComponentService.DeleteComponent.
    destruct (uuid_Parse componentID) as [u|]; [|done].
    destruct (ComponentRepository.GetComponentByID u w) as [[c|e] w1] eqn:Hload;
      apply ComponentRepository_GetComponentByID_frame in Hload as (Hs1 & _);
      apply (storage_fits_same _ _ Hs1) in Hfit; [|done].
    pose proof (ComponentRepository_DeleteComponent_fits u w1 Hfit) as Hfit1.
    destruct (ComponentRepository.DeleteComponent u w1) as [[e|] w2]; [done|].
    simpl. destruct (invalidate_frame
                       (cache_key (uuid_String (Component.BikeID c))) w2)
      as (Hs & _).
    by apply (storage_fits_same _ _ Hs).
Qed.

End SchemaInvariant.


(** * The program on the example world *)

Section Instances.
Import Canonical Example.

(** C4: [CreateBike] does not reject a bike with no owner and a negative
    mileage.  The service stores it and returns it, and the request
    [{"model": "Stels", "type": "mtb", "mileage": -5}] is answered 201. *)
Theorem C4_create_bike_stores_malformed :
  (exists (created : Bike.t) (w' : World),
     BikeService.CreateBike malformed_bike world0 = (Ok created, w')
     /\ Bike.UserID created = uuid_Nil
     /\ Bike.Mileage created = -5
     /\ exists r : bikes.row,
          db_bikes w' !! Bike.BikeID created = Some r
          /\ bikes.user_id r = uuid_Nil /\ bikes.mileage r = -5)
  /\ (exists (created : Bike.t) (w' : World),
        BikeHandler.CreateBike (mkContext (Some as_bob) "" time_zero)
          (Some malformed_request) world0
        = (mkResponse StatusCreated "Bike created successfully" (BikeData created), w')
        /\ exists r : bikes.row,
             db_bikes w' !! Bike.BikeID created = Some r /\ bikes.mileage r = -5).
Proof.
  split.
  - exists (Bike.mk uuid_Nil 100%N "" "mtb" "Stels" [] 0 (-5) 1000 1000),
      (snd (BikeService.CreateBike malformed_bike world0)).
    split; [apply run_answer; vm_compute; reflexivity|].
    split_and!; [reflexivity..|].
    exists (bikes.mk 100%N uuid_Nil "" "mtb" "Stels" 0 (-5) 1000 1000).
    split_and!; [vm_compute; reflexivity|reflexivity..].
  - exists (Bike.mk bob 100%N "" "mtb" "Stels" [] 0 (-5) 1000 1000),
      (snd (BikeHandler.CreateBike (mkContext (Some as_bob) "" time_zero)
              (Some malformed_request) world0)).
    split; [apply run_answer; vm_compute; reflexivity|].
    exists (bikes.mk 100%N bob "" "mtb" "Stels" 0 (-5) 1000 1000).
    split; [vm_compute; reflexivity|reflexivity].
Qed.

(** The scenario of the data model: bike at 500, frame installed at 100 with
    a maximum of 400. *)
Lemma C9_witness :
  is_int (500 - Component.InstalledMileage frame2_component)
  /\ Component.CurrentMileage frame2_component 500 = 400
  /\ Component.NeedsReplacement frame2_component 500 = true.
Proof.
  assert (is_int (500 - Component.InstalledMileage frame2_component)) as Hint
      by (vm_compute; split; discriminate).
  destruct (C9_derived_mileage frame2_component 500 Hint) as [Hcur Hneeds].
  split_and!; [exact Hint|exact Hcur|]. apply Hneeds. vm_compute. discriminate.
Defined.

(** Bike 1 keeps its mileage under an update that sends 0 and takes the new
    model; the frame keeps its installed mileage and takes the new brand. *)
Lemma C2_witness :
  (exists r' : bikes.row,
     db_bikes (snd (BikeRepository.UpdateBike bike1_update world0)) !! bike1 = Some r'
     /\ bikes.mileage r' = 500 /\ bikes.year r' = 2020
     /\ bikes.model r' = "Stels 2")
  /\ (exists r' : components.row,
        db_components (snd (ComponentService.UpdateComponent frame2_update world0))
          !! frame2 = Some r'
        /\ components.installed_mileage r' = 100
        /\ components.brand r' = "SRAM").
Proof.
  split.
  - destruct (proj1 C2_update_merges_fields bike1_update
                (default Bike.zero (loaded (BikeRepository.UpdateBike bike1_update world0)))
                world0 (snd (BikeRepository.UpdateBike bike1_update world0)) bike1_row)
      as (r' & Hr' & _ & (_ & _ & Hmodel & Hyear & Hmileage) & _).
    + vm_compute; reflexivity.
    + vm_compute. lia.
    + left. apply run_answer; vm_compute; reflexivity.
    + exists r'. split_and!; [exact Hr'|exact Hmileage|exact Hyear|exact Hmodel].
  - destruct (proj2 C2_update_merges_fields frame2_update
                (default Component.zero
                   (loaded (ComponentService.UpdateComponent frame2_update world0)))
                world0 (snd (ComponentService.UpdateComponent frame2_update world0))
                frame2_row)
      as (r' & Hr' & _ & (_ & Hbrand & _ & _ & Hinstalled & _) & _).
    + vm_compute; reflexivity.
    + vm_compute. lia.
    + right. apply run_answer; vm_compute; reflexivity.
    + exists r'. split_and!; [exact Hr'|exact Hinstalled|exact Hbrand].
Defined.


(** A cached bike is served from the cache; an uncached one is read from
    storage and cached for 15 minutes; ["zz"] is no identifier. *)
Lemma C5_witness :
  (exists w' : World,
     BikeService.GetBikeByID "zz" world0
     = (Err (fmt_Errorf_w "invalid bike ID" (uuid_error "zz")), w')
     /\ calls world0 w' [])
  /\ (exists w' : World,
        BikeService.GetBikeByID bike1_id world_cached
        = (Ok (BikeRepository.scan bike1_row Bike.zero), w')
        /\ calls world_cached w' [CacheGet (cache_key bike1_id)])
  /\ (exists w' : World,
        BikeService.GetBikeByID bike1_id world0
        = (Ok (BikeRepository.scan bike1_row Bike.zero), w')
        /\ calls world0 w' [CacheGet (cache_key bike1_id); SqlSelectBike bike1;
                            CacheSet (cache_key bike1_id) (15 * time_Minute)]).
Proof.
  split_and!.
  - destruct (proj1 (C5_get_bike_by_id "zz" world0)) as (w' & Heq & Hcalls & _).
    + vm_compute; reflexivity.
    + exists w'. split; [exact Heq|exact Hcalls].
  - destruct (proj2 (C5_get_bike_by_id bike1_id world_cached) bike1
                (fst (CachePort.Get (cache_key bike1_id) world_cached))
                (snd (CachePort.Get (cache_key bike1_id) world_cached)))
      as [Hhit _].
    + vm_compute; reflexivity.
    + apply surjective_pairing.
    + destruct (Hhit (Some (BikeRepository.scan bike1_row Bike.zero))
                  (BikeRepository.scan bike1_row Bike.zero))
        as (w' & Heq & Hcalls & _).
      * vm_compute; reflexivity.
      * vm_compute; reflexivity.
      * exists w'. split; [exact Heq|exact Hcalls].
  - destruct (proj2 (C5_get_bike_by_id bike1_id world0) bike1
                (fst (CachePort.Get (cache_key bike1_id) world0))
                (snd (CachePort.Get (cache_key bike1_id) world0)))
      as [_ Hmiss].
    + vm_compute; reflexivity.
    + apply surjective_pairing.
    + destruct (Hmiss (fun data Hdata => ltac:(vm_compute in Hdata; discriminate))
                  (Ok (BikeRepository.scan bike1_row Bike.zero))
                  (snd (BikeRepository.GetBikeByID bike1
                          (snd (CachePort.Get (cache_key bike1_id) world0)))))
        as (w' & Heq & _ & _ & Hfound).
      * apply run_answer; vm_compute; reflexivity.
      * exists w'. split; [exact Heq|].
        destruct (Hfound (BikeRepository.scan bike1_row Bike.zero)
                    (Some (BikeRepository.scan bike1_row Bike.zero)))
          as [Hcalls _]; [reflexivity|vm_compute; reflexivity|].
        exact Hcalls.
Defined.

(** A failed delete of bike 1 leaves the cache alone; a delete of component
    ["zz"] makes no call. *)
Lemma C6_witness :
  same_cache world_down (snd (run (MDeleteBike bike1_id) world_down))
  /\ calls world0 (snd (run (MDeleteComponent "zz") world0)) []
  /\ same_storage world0 (snd (run (MDeleteComponent "zz") world0)).
Proof.
  split.
  - destruct (C6_failed_mutation_leaves_cache (MDeleteBike bike1_id) world_down
                (snd (run (MDeleteBike bike1_id) world_down))
                (Some (driver_error "connection refused")))
      as (evs & _ & Hfail & _); [apply run_answer; vm_compute; reflexivity|].
    destruct (Hfail _ eq_refl) as [Hcache _]. exact Hcache.
  - destruct (C6_failed_mutation_leaves_cache (MDeleteComponent "zz") world0
                (snd (run (MDeleteComponent "zz") world0))
                (Some (fmt_Errorf_w "invalid component ID" (uuid_error "zz"))))
      as (evs & Hcalls & _ & Hinput & _);
      [apply run_answer; vm_compute; reflexivity|].
    destruct (Hinput _ eq_refl eq_refl) as (-> & Hstorage & _).
    split; [exact Hcalls|exact Hstorage].
Defined.

(** Bike 1 without components, and bike 1 when the component lookup fails:
    both come back with an empty component list. *)
Lemma C7_witness :
  (exists w' : World,
     BikeService.GetBikeWithComponents bike1_id world_bare
     = (Ok (Bike.set_Components [] (BikeRepository.scan bike1_row Bike.zero)), w'))
  /\ (exists w' : World,
        BikeService.GetBikeWithComponents bike1_id world_down_second
        = (Ok (Bike.set_Components [] (BikeRepository.scan bike1_row Bike.zero)), w')).
Proof.
  split.
  - destruct (C7_bike_with_components bike1_id bike1
                (BikeRepository.scan bike1_row Bike.zero) world_bare
                (snd (BikeRepository.GetBikeByID bike1 world_bare)))
      as (comps & w' & Heq & _ & _ & Hnone);
      [vm_compute; reflexivity|apply run_answer; vm_compute; reflexivity|].
    rewrite Hnone in Heq; [by exists w'|].
    intros k r Hk. simpl in Hk. by rewrite lookup_empty in Hk.
  - destruct (C7_bike_with_components bike1_id bike1
                (BikeRepository.scan bike1_row Bike.zero) world_down_second
                (snd (BikeRepository.GetBikeByID bike1 world_down_second)))
      as (comps & w' & Heq & Hfail & _);
      [vm_compute; reflexivity|apply run_answer; vm_compute; reflexivity|].
    rewrite (Hfail (driver_error "connection refused")
               (snd (ComponentRepository.GetComponentsByBikeID bike1
                       (snd (BikeRepository.GetBikeByID bike1 world_down_second)))))
      in Heq; [by exists w'|].
    apply run_answer; vm_compute; reflexivity.
Defined.

(** With the storage connection down, deleting the frame returns the wrapped
    storage failure after the one lookup. *)
Lemma C8_witness :
  exists w' : World,
    ComponentService.DeleteComponent frame2_id world_down
    = (Some (fmt_Errorf_w "failed to get component" (driver_error "connection refused")),
       w')
    /\ calls world_down w' [SqlSelectComponent frame2]
    /\ same_storage world_down w'.
Proof.
  destruct (C8_delete_component_loads_first frame2_id frame2 world_down)
    as [_ Hfail]; [vm_compute; reflexivity|].
  destruct (Hfail (fmt_Errorf_w "failed to get component"
                     (driver_error "connection refused"))
              (snd (ComponentRepository.GetComponentByID frame2 world_down)))
    as (w' & Heq & Hcalls & Hstorage & _);
    [apply run_answer; vm_compute; reflexivity|].
  exists w'. split_and!; [exact Heq|exact Hcalls|exact Hstorage].
Defined.

(** C8 with NotFound for every failed load does not hold: with the storage
    connection down the initial load fails, and what [DeleteComponent]
    returns is not NotFound. *)
Lemma C8_counterexample :
  ~ (forall (e : error) (w1 : World),
       ComponentRepository.GetComponentByID frame2 world_down = (Err e, w1) ->
       exists e' : error,
         fst (ComponentService.DeleteComponent frame2_id world_down) = Some e'
         /\ is_NotFound e' = true).
Proof.
  intros Hclaim.
  destruct (Hclaim (fmt_Errorf_w "failed to get component"
                      (driver_error "connection refused"))
              (snd (ComponentRepository.GetComponentByID frame2 world_down)))
    as (e' & He' & Hnot_found); [apply run_answer; vm_compute; reflexivity|].
  vm_compute in He'. injection He' as <-. vm_compute in Hnot_found. discriminate.
Qed.

(** Bob is denied bike 1 and its frame, which are Alice's; an Admin is not. *)
Lemma C1_witness :
  status (fst (handle OpGetBike (mkContext (Some as_bob) bike1_id time_zero) world0))
  = StatusForbidden
  /\ status (fst (handle OpDeleteComponent
                    (mkContext (Some as_bob) frame2_id time_zero) world0))
     = StatusForbidden
  /\ status (fst (handle OpDeleteBike
                    (mkContext (Some as_admin) bike1_id time_zero) world0))
     <> StatusForbidden.
Proof.
  split_and!.
  - apply (C1_ownership OpGetBike (mkContext (Some as_bob) bike1_id time_zero)
             world0 as_bob eq_refl).
    exists (BikeRepository.scan bike1_row Bike.zero).
    split_and!; [vm_compute; reflexivity|discriminate|discriminate].
  - apply (C1_ownership OpDeleteComponent
             (mkContext (Some as_bob) frame2_id time_zero) world0 as_bob eq_refl).
    exists (BikeRepository.scan bike1_row Bike.zero).
    split_and!; [vm_compute; reflexivity|discriminate|discriminate].
  - intros Hforbidden.
    apply (C1_ownership OpDeleteBike (mkContext (Some as_admin) bike1_id time_zero)
             world0 as_admin eq_refl) in Hforbidden as (bike & _ & Hrole & _).
    by apply Hrole.
Defined.

End Instances.

(** * Further properties of the storage adapter, the services and the
      request handlers *)

(** Chains the port calls recorded by the steps of a run. *)
Ltac chain_calls :=
  unfold calls in *; simpl in *;
  repeat match goal with
         | H : trace ?x = _ |- context [trace ?x] => rewrite H
         end;
  rewrite <- ?app_assoc; simpl; try done.

Section MoreRepository.
Context `{Externals}.

Lemma db_call_up (ev : Event) (w : World) :
  storage_up w -> fst (db_call ev w) = None.
Proof.
  unfold storage_up, db_call. simpl.
  destruct (db_faults w) as [|[f|] rest]; simpl; intros [Hup|Hup]; by simplify_eq.
Qed.

Lemma cache_call_up (ev : Event) (w : World) :
  cache_up w -> fst (cache_call ev w) = false.
Proof.
  unfold cache_up, cache_call. simpl.
  destruct (cache_faults w) as [|[|] rest]; simpl; intros [Hup|Hup]; by simplify_eq.
Qed.

Lemma BikeRepository_CreateBike_inv (bike b : Bike.t) (w w' : World) :
  BikeRepository.CreateBike bike w = (Ok b, w') ->
  b = created_bike (Bike.BikeID bike) (db_now w) bike
  /\ db_bikes w !! Bike.BikeID bike = None
  /\ db_bikes w' = <[Bike.BikeID bike := bikes_row_of bike (db_now w)]> (db_bikes w)
  /\ db_components w' = db_components w
  /\ same_cache w w' /\ calls w w' [SqlInsertBike (Bike.BikeID bike)]
  /\ bikes.type_check (substring 0 50 (Bike.Type' bike)) = true.
Proof.
  unfold BikeRepository.CreateBike.
  destruct (db_call _ w) as [f w1] eqn:Hc.
  apply db_call_bikes in Hc as (Hb & Hcs & Hnow & Hk & _ & Ht & _).
  destruct f; [done|]. unfold BikeRepository.insert. intros Hins.
  repeat case_match; simplify_eq; simpl.
  repeat match goal with
         | Hv : varchar _ _ = Some _ |- _ => apply varchar_Some in Hv; subst
         end.
  rewrite Hnow, Hb. split_and!; try done.
  - by rewrite <- Hb.
  - by apply negb_false_iff.
Qed.

Lemma ComponentRepository_CreateComponent_inv (c c' : Component.t) (w w' : World) :
  ComponentRepository.CreateComponent c w = (Ok c', w') ->
  c' = created_component (Component.ID c) (db_now w) c
  /\ db_components w !! Component.ID c = None
  /\ is_Some (db_bikes w !! Component.BikeID c)
  /\ db_components w'
     = <[Component.ID c := components_row_of c (db_now w)]> (db_components w)
  /\ db_bikes w' = db_bikes w
  /\ same_cache w w' /\ calls w w' [SqlInsertComponent (Component.ID c)].
Proof.
  unfold ComponentRepository.CreateComponent.
  destruct (db_call _ w) as [f w1] eqn:Hc.
  apply db_call_bikes in Hc as (Hb & Hcs & Hnow & Hk & _ & Ht & _).
  destruct f; [done|]. unfold ComponentRepository.insert. intros Hins.
  repeat case_match; simplify_eq; simpl.
  repeat match goal with
         | Hv : varchar _ _ = Some _ |- _ => apply varchar_Some in Hv; subst
         end.
  rewrite Hnow, Hcs. split_and!; try done.
  - by rewrite <- Hcs.
  - rewrite <- Hb. by eexists.
Qed.

Lemma BikeRepository_DeleteBike_inv (u : UUID) (w w' : World) :
  BikeRepository.DeleteBike u w = (None, w') ->
  is_Some (db_bikes w !! u)
  /\ db_bikes w' = delete u (db_bikes w)
  /\ db_components w'
     = filter (fun kr => components.bike_id (snd kr) <> u) (db_components w)
  /\ same_cache w w' /\ calls w w' [SqlDeleteBike u]
  /\ db_faults w' = tail (db_faults w) /\ cache_faults w' = cache_faults w.
Proof.
  unfold BikeRepository.DeleteBike, db_call. simpl. intros Hdel.
  repeat case_match; simplify_eq; simpl; split_and!; try done; by eexists.
Qed.

Lemma ComponentRepository_DeleteComponent_inv (u : UUID) (w w' : World) :
  ComponentRepository.DeleteComponent u w = (None, w') ->
  is_Some (db_components w !! u)
  /\ db_components w' = delete u (db_components w)
  /\ db_bikes w' = db_bikes w
  /\ same_cache w w' /\ calls w w' [SqlDeleteComponent u].
Proof.
  unfold ComponentRepository.DeleteComponent, db_call. simpl. intros Hdel.
  repeat case_match; simplify_eq; simpl; split_and!; try done; by eexists.
Qed.

End MoreRepository.

Section MoreServices.
Context `{Externals}.

Lemma component_valid_iff (c : Component.t) :
  validate.Struct (validate.Component_failures c) = None <-> component_valid c.
Proof.
  unfold validate.Struct, validate.Component_failures, component_valid.
  split.
  - intros Hv.
    repeat case_decide; repeat case_match; simplify_eq/=;
      split_and!; try done; try lia; by apply Nat.ltb_ge.
  - intros (? & ? & ?%Nat.ltb_ge & ?%Nat.ltb_ge & ? & ?%Z.ltb_ge & ?%Z.ltb_ge
            & ?%Z.ltb_ge).
    repeat case_decide; try done; try lia.
    repeat match goal with
           | Hlt : _ = false |- _ => rewrite Hlt
           end.
    done.
Qed.

Lemma BikeService_CreateBike_Ok (bike b : Bike.t) (w w' : World) :
  BikeService.CreateBike bike w = (Ok b, w') ->
  b = created_bike (assigned_id (Bike.BikeID bike) w) (db_now w) bike
  /\ db_bikes w'
     = <[Bike.BikeID b := bikes_row_of b (db_now w)]> (db_bikes w).
Proof.
  unfold BikeService.CreateBike, validate.Bike_failures, validate.Struct, assigned_id.
  cbv beta iota.
  destruct (decide (Bike.BikeID bike = uuid_Nil)) as [Hnil|Hid].
  - unfold uuid_New. cbv beta iota.
    destruct (BikeRepository.CreateBike _ _) as [[b1|e] w1] eqn:Hcr; [|done].
    apply BikeRepository_CreateBike_inv in Hcr
      as (-> & Hfree & Hb & Hc & Hk & Ht & _).
    intros [= <- <-]. simpl in *. split_and!; try done.
  - destruct (BikeRepository.CreateBike _ _) as [[b1|e] w1] eqn:Hcr; [|done].
    apply BikeRepository_CreateBike_inv in Hcr
      as (-> & Hfree & Hb & Hc & Hk & Ht & _).
    intros [= <- <-]. simpl in *. split_and!; try done.
Qed.

(** X1: On success [CreateBike] hands back the input with its identity (the
    given one, else a fresh random one) and the server's timestamps, has
    inserted exactly that row under an identity that was free, and has made
    no cache call. *)
Theorem create_bike_stores_new_row (bike b : Bike.t) (w w' : World) :
  BikeService.CreateBike bike w = (Ok b, w') ->
  b = created_bike (assigned_id (Bike.BikeID bike) w) (db_now w) bike
  /\ db_bikes w !! Bike.BikeID b = None
  /\ db_bikes w'
     = <[Bike.BikeID b := bikes_row_of b (db_now w)]> (db_bikes w)
  /\ db_components w' = db_components w
  /\ calls w w' [SqlInsertBike (Bike.BikeID b)]
  /\ same_cache w w'.
Proof.
  unfold BikeService.CreateBike, validate.Bike_failures, validate.Struct, assigned_id.
  cbv beta iota.
  destruct (decide (Bike.BikeID bike = uuid_Nil)) as [Hnil|Hid].
  - unfold uuid_New. cbv beta iota.
    destruct (BikeRepository.CreateBike _ _) as [[b1|e] w1] eqn:Hcr; [|done].
    apply BikeRepository_CreateBike_inv in Hcr
      as (-> & Hfree & Hb & Hc & Hk & Ht & _).
    intros [= <- <-]. simpl in *. split_and!; try done.
  - destruct (BikeRepository.CreateBike _ _) as [[b1|e] w1] eqn:Hcr; [|done].
    apply BikeRepository_CreateBike_inv in Hcr
      as (-> & Hfree & Hb & Hc & Hk & Ht & _).
    intros [= <- <-]. simpl in *. split_and!; try done.
Qed.

Lemma ComponentService_CreateComponent_Ok (c c' : Component.t) (w w' : World) :
  ComponentService.CreateComponent c w = (Ok c', w') ->
  c' = created_component (assigned_id (Component.ID c) w) (db_now w) c
  /\ db_components w'
     = <[Component.ID c' := components_row_of c' (db_now w)]> (db_components w).
Proof.
  unfold ComponentService.CreateComponent, assigned_id.
  destruct (validate.Struct _) as [verr|] eqn:Hv; [done|].
  apply component_valid_iff in Hv.
  destruct (decide (Component.ID c = uuid_Nil)) as [Hnil|Hid].
  - unfold uuid_New. cbv beta iota.
    destruct (ComponentRepository.CreateComponent _ _) as [[c1|e] w1] eqn:Hcr;
      [|done].
    apply ComponentRepository_CreateComponent_inv in Hcr
      as (-> & Hfree & Hbike & Hcs & Hb & Hk & Ht).
    pose proof (invalidate_frame
                  (cache_key (uuid_String (Component.BikeID
                     (created_component (Component.ID
                        (Component.set_ID (rand_uuid w (rand_used w)) c))
                        (db_now w) (Component.set_ID (rand_uuid w (rand_used w)) c)))))
                  w1) as ([Hb2 Hc2] & _).
    intros [= <- <-]. simpl in *. rewrite ?Hb2, ?Hc2. split_and!; try done.
  - destruct (ComponentRepository.CreateComponent _ _) as [[c1|e] w1] eqn:Hcr;
      [|done].
    apply ComponentRepository_CreateComponent_inv in Hcr
      as (-> & Hfree & Hbike & Hcs & Hb & Hk & Ht).
    pose proof (invalidate_frame
                  (cache_key (uuid_String (Component.BikeID
                     (created_component (Component.ID c) (db_now w) c)))) w1)
      as ([Hb2 Hc2] & _).
    intros [= <- <-]. simpl in *. rewrite ?Hb2, ?Hc2. split_and!; try done.
Qed.

(** X2: On success [CreateComponent] has validated the component, found its
    bike in storage, and inserted exactly the row it hands back, under an
    identity that was free; the table of bikes is as before. *)
Theorem create_component_stores_new_row (c c' : Component.t) (w w' : World) :
  ComponentService.CreateComponent c w = (Ok c', w') ->
  component_valid c
  /\ c' = created_component (assigned_id (Component.ID c) w) (db_now w) c
  /\ is_Some (db_bikes w !! Component.BikeID c)
  /\ db_components w !! Component.ID c' = None
  /\ db_components w'
     = <[Component.ID c' := components_row_of c' (db_now w)]> (db_components w)
  /\ db_bikes w' = db_bikes w.
Proof.
  unfold ComponentService.CreateComponent, assigned_id.
  destruct (validate.Struct _) as [verr|] eqn:Hv; [done|].
  apply component_valid_iff in Hv.
  destruct (decide (Component.ID c = uuid_Nil)) as [Hnil|Hid].
  - unfold uuid_New. cbv beta iota.
    destruct (ComponentRepository.CreateComponent _ _) as [[c1|e] w1] eqn:Hcr;
      [|done].
    apply ComponentRepository_CreateComponent_inv in Hcr
      as (-> & Hfree & Hbike & Hcs & Hb & Hk & Ht).
    pose proof (invalidate_frame
                  (cache_key (uuid_String (Component.BikeID
                     (created_component (Component.ID
                        (Component.set_ID (rand_uuid w (rand_used w)) c))
                        (db_now w) (Component.set_ID (rand_uuid w (rand_used w)) c)))))
                  w1) as ([Hb2 Hc2] & _).
    intros [= <- <-]. simpl in *. rewrite Hb2, Hc2. split_and!; try done.
  - destruct (ComponentRepository.CreateComponent _ _) as [[c1|e] w1] eqn:Hcr;
      [|done].
    apply ComponentRepository_CreateComponent_inv in Hcr
      as (-> & Hfree & Hbike & Hcs & Hb & Hk & Ht).
    pose proof (invalidate_frame
                  (cache_key (uuid_String (Component.BikeID
                     (created_component (Component.ID c) (db_now w) c)))) w1)
      as ([Hb2 Hc2] & _).
    intros [= <- <-]. simpl in *. rewrite Hb2, Hc2. split_and!; try done.
Qed.

Lemma BikeRepository_GetBikeByID_up (u : UUID) (w : World) :
  storage_up w ->
  fst (BikeRepository.GetBikeByID u w)
  = match db_bikes w !! u with
    | Some r => Ok (BikeRepository.scan r Bike.zero)
    | None => Err (errors_New "bike not found")
    end.
Proof.
  intros Hup. unfold BikeRepository.GetBikeByID.
  pose proof (db_call_up (SqlSelectBike u) w Hup) as Hf.
  destruct (db_call _ w) as [f w1] eqn:Hc. simpl in Hf. subst f.
  apply db_call_bikes in Hc as (-> & _). by destruct (db_bikes w !! u).
Qed.

(** X3: A bike whose text is within the column sizes reads back as it was
    created: after a successful [CreateBike], looking its identity up in
    storage gives the created record (without components). *)
Theorem create_bike_then_get (bike b : Bike.t) (w w' : World) :
  BikeService.CreateBike bike w = (Ok b, w') ->
  bike_text_fits bike ->
  storage_up w' ->
  fst (BikeRepository.GetBikeByID (Bike.BikeID b) w')
  = Ok (Bike.set_Components [] b).
Proof.
  intros Hcr (Hn & Ht & Hm) Hup.
  apply BikeService_CreateBike_Ok in Hcr as (-> & Hb).
  rewrite BikeRepository_GetBikeByID_up by done. rewrite Hb.
  simpl. rewrite lookup_insert_eq.
  unfold BikeRepository.scan, bikes_row_of, Bike.set_Components, created_bike. simpl.
  by rewrite !substring_fits.
Qed.

(** X4: A successful [DeleteBike] removes the bike and, with it, every component
    that names it; all other bikes and components stay; the one cache call is
    the delete of the entry under the identifier as it was given. *)
Theorem delete_bike_cascades (bikeID : string) (u : UUID) (w w' : World) :
  uuid_Parse bikeID = Some u ->
  BikeService.DeleteBike bikeID w = (None, w') ->
  is_Some (db_bikes w !! u)
  /\ db_bikes w' = delete u (db_bikes w)
  /\ (forall k,
        db_components w' !! k
        = match db_components w !! k with
          | Some r => if decide (components.bike_id r = u) then None else Some r
          | None => None
          end)
  /\ calls w w' [SqlDeleteBike u; CacheDelete (cache_key bikeID)].
Proof.
  intros Hparse. unfold BikeService.DeleteBike. rewrite Hparse.
  destruct (BikeRepository.DeleteBike u w) as [[e|] w1] eqn:Hdel; [done|].
  apply BikeRepository_DeleteBike_inv in Hdel as (Hsome & Hb & Hc & _ & Ht & _).
  destruct (invalidate_frame (cache_key bikeID) w1) as ([Hb2 Hc2] & _ & Ht2 & _).
  intros [= <-]. simpl. rewrite Hb2, Hc2, Hb, Hc. split_and!; try done.
  - intros k. destruct (db_components w !! k) as [r|] eqn:Hk.
    + destruct (decide (components.bike_id r = u)) as [Heq|Hne].
      * apply map_lookup_filter_None. right. intros r' Hr'. simplify_eq/=. tauto.
      * apply map_lookup_filter_Some. by split.
    + apply map_lookup_filter_None. by left.
  - chain_calls.
Qed.

(** X5: A successful [DeleteComponent] removes that component and nothing else:
    every other component and every bike stay. *)
Theorem delete_component_removes_one (componentID : string) (u : UUID)
  (w w' : World) :
  uuid_Parse componentID = Some u ->
  ComponentService.DeleteComponent componentID w = (None, w') ->
  is_Some (db_components w !! u)
  /\ db_components w' = delete u (db_components w)
  /\ db_bikes w' = db_bikes w.
Proof.
  intros Hparse. unfold ComponentService.DeleteComponent. rewrite Hparse.
  destruct (ComponentRepository.GetComponentByID u w) as [[c|e] w1] eqn:Hload;
    [|done].
  apply ComponentRepository_GetComponentByID_frame in Hload as ([Hb1 Hc1] & _).
  destruct (ComponentRepository.DeleteComponent u w1) as [[e|] w2] eqn:Hdel; [done|].
  apply ComponentRepository_DeleteComponent_inv in Hdel as (Hsome & Hc & Hb & _).
  destruct (invalidate_frame (cache_key (uuid_String (Component.BikeID c))) w2)
    as ([Hb2 Hc2] & _).
  intros [= <-]. simpl. rewrite Hb2, Hc2, Hb, Hc, Hb1, Hc1 in *. done.
Qed.

Lemma db_call_up_inv (ev : Event) (w w' : World) (f : option error) :
  storage_up w -> db_call ev w = (f, w') -> f = None.
Proof. intros Hup Hc. pose proof (db_call_up ev w Hup) as Hf. by rewrite Hc in Hf. Qed.

(** X6: Updating or deleting a row that is not there, on a working connection,
    fails with the not-found error of that operation and changes neither
    storage nor cache. *)
Theorem missing_row_is_not_found (w : World) :
  storage_up w ->
  (forall (bikeID : string) (u : UUID),
     uuid_Parse bikeID = Some u -> db_bikes w !! u = None ->
     exists w', BikeService.DeleteBike bikeID w
                = (Some (errors_New "Bike not found"), w')
                /\ same_storage w w' /\ same_cache w w')
  /\ (forall bike : Bike.t,
        db_bikes w !! Bike.BikeID bike = None ->
        int4_ok (Bike.Year bike) = true -> int4_ok (Bike.Mileage bike) = true ->
        exists w', BikeService.UpdateBike bike w
                   = (Err (errors_New "bike not found"), w')
                   /\ same_storage w w' /\ same_cache w w')
  /\ (forall (componentID : string) (u : UUID),
        uuid_Parse componentID = Some u -> db_components w !! u = None ->
        exists w', ComponentService.DeleteComponent componentID w
                   = (Some (errors_New "component not found"), w')
                   /\ same_storage w w' /\ same_cache w w')
  /\ (forall c : Component.t,
        component_valid c ->
        db_components w !! Component.ID c = None ->
        int4_ok (Component.InstalledMileage c) = true ->
        int4_ok (Component.MaxMileage c) = true ->
        exists w', ComponentService.UpdateComponent c w
                   = (Err (errors_New "component not found"), w')
                   /\ same_storage w w' /\ same_cache w w').
Proof.
  intros Hup. split_and!.
  - intros bikeID u Hparse Hnone. unfold BikeService.DeleteBike. rewrite Hparse.
    unfold BikeRepository.DeleteBike.
    destruct (db_call _ w) as [f w1] eqn:Hc.
    pose proof (db_call_up_inv _ _ _ _ Hup Hc) as ->.
    apply db_call_frame in Hc as (Hs & Hk & _). destruct Hs as [Hb Hcs].
    rewrite Hb, Hnone. eexists. split; [done|]. by split.
  - intros bike Hnone Hy Hm.
    unfold BikeService.UpdateBike, validate.Bike_failures, validate.Struct.
    cbv beta iota. unfold BikeRepository.UpdateBike, BikeRepository.update.
    destruct (db_call _ w) as [f w1] eqn:Hc.
    pose proof (db_call_up_inv _ _ _ _ Hup Hc) as ->.
    apply db_call_frame in Hc as (Hs & Hk & _). destruct Hs as [Hb Hcs].
    rewrite Hy, Hm, Hb, Hnone. simpl. eexists. split; [done|]. by split.
  - intros componentID u Hparse Hnone. unfold ComponentService.DeleteComponent.
    rewrite Hparse. unfold ComponentRepository.GetComponentByID.
    destruct (db_call _ w) as [f w1] eqn:Hc.
    pose proof (db_call_up_inv _ _ _ _ Hup Hc) as ->.
    apply db_call_frame in Hc as (Hs & Hk & _). destruct Hs as [Hb Hcs].
    rewrite Hcs, Hnone. eexists. split; [done|]. by split.
  - intros c Hvalid Hnone Hi Hm. unfold ComponentService.UpdateComponent.
    apply component_valid_iff in Hvalid as ->.
    unfold ComponentRepository.UpdateComponent, ComponentRepository.update.
    destruct (db_call _ w) as [f w1] eqn:Hc.
    pose proof (db_call_up_inv _ _ _ _ Hup Hc) as ->.
    apply db_call_frame in Hc as (Hs & Hk & _). destruct Hs as [Hb Hcs].
    rewrite Hi, Hm, Hcs, Hnone. simpl. eexists. split; [done|]. by split.
Qed.

(** X7: An update touches at most the row it names: every other bike, and every
    component, is as before [UpdateBike]; every other component, and every
    bike, is as before [UpdateComponent]. *)
Theorem update_touches_one_row :
  (forall (bike : Bike.t) (w : World) (k : UUID),
     k <> Bike.BikeID bike ->
     db_bikes (snd (BikeService.UpdateBike bike w)) !! k = db_bikes w !! k
     /\ db_components (snd (BikeService.UpdateBike bike w)) = db_components w)
  /\ (forall (c : Component.t) (w : World) (k : UUID),
        k <> Component.ID c ->
        db_components (snd (ComponentService.UpdateComponent c w)) !! k
        = db_components w !! k
        /\ db_bikes (snd (ComponentService.UpdateComponent c w)) = db_bikes w).
Proof.
  split.
  - intros bike w k Hne.
    destruct (BikeService.UpdateBike bike w) as [r w'] eqn:Hup.
    apply BikeService_UpdateBike_repository in Hup as (w1 & Hrepo & [Hb Hc]).
    simpl. rewrite Hb, Hc. revert Hrepo. unfold BikeRepository.UpdateBike.
    destruct (db_call _ w) as [f w0] eqn:Hcall.
    apply db_call_frame in Hcall as ([Hb0 Hc0] & _).
    destruct f; [intros [= <- <-]; by rewrite Hb0, Hc0|].
    destruct (BikeRepository.update bike w0) as [[r'|e] w2] eqn:Hupd;
      intros [= <- <-].
    + apply BikeRepository_update_inv in Hupd as (r0 & _ & _ & ->). simpl.
      by rewrite lookup_insert_ne, Hb0, Hc0.
    + apply BikeRepository_update_fail in Hupd as ->. by rewrite Hb0, Hc0.
  - intros c w k Hne.
    destruct (ComponentService.UpdateComponent c w) as [r w'] eqn:Hup.
    apply ComponentService_UpdateComponent_repository in Hup
      as [([Hb Hc] & _)|(w1 & Hrepo & [Hb Hc])]; simpl; rewrite Hb, Hc; [done|].
    revert Hrepo. unfold ComponentRepository.UpdateComponent.
    destruct (db_call _ w) as [f w0] eqn:Hcall.
    apply db_call_frame in Hcall as ([Hb0 Hc0] & _).
    destruct f; [intros [= <- <-]; by rewrite Hb0, Hc0|].
    destruct (ComponentRepository.update c w0) as [[r'|e] w2] eqn:Hupd;
      intros [= <- <-].
    + apply ComponentRepository_update_inv in Hupd as (r0 & _ & _ & ->). simpl.
      by rewrite lookup_insert_ne, Hb0, Hc0.
    + apply ComponentRepository_update_fail in Hupd as ->. by rewrite Hb0, Hc0.
Qed.

(** *** Listings *)

Lemma rows_of_map {A} (m : gmap UUID A) (r : A) :
  r ∈ snd <$> map_to_list m <-> exists k, m !! k = Some r.
Proof.
  rewrite list_elem_of_fmap. split.
  - intros ([k r'] & -> & Hin). exists k. by apply elem_of_map_to_list.
  - intros (k & Hk). exists (k, r). split; [done|]. by apply elem_of_map_to_list.
Qed.

Lemma ComponentRepository_GetComponentsByBikeID_Ok (u : UUID) (w w' : World)
  (cs : list Component.t) :
  ComponentRepository.GetComponentsByBikeID u w = (Ok cs, w') ->
  (forall c, c ∈ cs
             <-> exists k r, db_components w !! k = Some r
                             /\ components.bike_id r = u
                             /\ c = ComponentRepository.scan r)
  /\ Sorted newest_first cs
  /\ calls w w' [SqlSelectComponentsByBike u].
Proof.
  unfold ComponentRepository.GetComponentsByBikeID.
  destruct (db_call _ w) as [f w1] eqn:Hc.
  apply db_call_frame in Hc as ([_ Hcs] & _ & _ & Ht).
  destruct f; [done|]. intros [= <- <-]. split_and!; [|
    apply (Sorted_fmap _ ComponentRepository.installed_desc); [done|] |done].
  - intros c. rewrite list_elem_of_fmap. split.
    + intros (r & -> & Hr). rewrite merge_sort_Permutation in Hr.
      apply list_elem_of_filter in Hr as [Hbike Hr].
      apply rows_of_map in Hr as (k & Hk). rewrite Hcs in Hk. eauto.
    + intros (k & r & Hk & Hbike & ->). exists r. split; [done|].
      rewrite merge_sort_Permutation. apply list_elem_of_filter. split; [done|].
      apply rows_of_map. exists k. by rewrite Hcs.
  - apply Sorted_merge_sort. intros x y.
    unfold ComponentRepository.installed_desc. lia.
Qed.

(** X8: The components listed for a bike are exactly the stored components that
    name it, newest installation first. *)
Theorem components_of_bike_newest_first (bikeID : string) (w w' : World)
  (cs : list Component.t) :
  ComponentService.GetComponentsByBikeID bikeID w = (Ok cs, w') ->
  exists u : UUID,
    uuid_Parse bikeID = Some u
    /\ (forall c, c ∈ cs
                  <-> exists k r, db_components w !! k = Some r
                                  /\ components.bike_id r = u
                                  /\ c = ComponentRepository.scan r)
    /\ Sorted newest_first cs
    /\ calls w w' [SqlSelectComponentsByBike u].
Proof.
  unfold ComponentService.GetComponentsByBikeID.
  destruct (uuid_Parse bikeID) as [u|]; [|done].
  destruct (ComponentRepository.GetComponentsByBikeID u w) as [[cs'|e] w1] eqn:Hcs;
    [|done].
  apply ComponentRepository_GetComponentsByBikeID_Ok in Hcs as (Hin & Hsorted & Ht).
  intros [= <- <-]. exists u. split_and!; try done.
Qed.

(** X9: [GetBikeWithComponents] reads the bike from storage, not from the cache:
    what it returns is the stored row, its components are stored components
    that name it, newest first, and the two lookups are the only calls. *)
Theorem bike_with_components_from_storage (bikeID : string) (b : Bike.t)
  (w w' : World) :
  BikeService.GetBikeWithComponents bikeID w = (Ok b, w') ->
  exists (u : UUID) (r : bikes.row),
    uuid_Parse bikeID = Some u
    /\ db_bikes w !! u = Some r
    /\ b = Bike.set_Components (Bike.Components b) (BikeRepository.scan r Bike.zero)
    /\ (forall c, c ∈ Bike.Components b ->
        exists k r', db_components w !! k = Some r'
                     /\ components.bike_id r' = u
                     /\ c = ComponentRepository.scan r')
    /\ Sorted newest_first (Bike.Components b)
    /\ calls w w' [SqlSelectBike u; SqlSelectComponentsByBike u].
Proof.
  unfold BikeService.GetBikeWithComponents.
  destruct (uuid_Parse bikeID) as [u|]; [|done].
  unfold BikeRepository.GetBikeByID.
  destruct (db_call _ w) as [f w0] eqn:Hc0.
  apply db_call_frame in Hc0 as ([Hb0 Hcs0] & _ & _ & Ht0).
  destruct f; [done|]. rewrite Hb0.
  destruct (db_bikes w !! u) as [r|] eqn:Hr; [|done].
  destruct (ComponentRepository.GetComponentsByBikeID u w0) as [[cs|e] w1] eqn:Hcs.
  - apply ComponentRepository_GetComponentsByBikeID_Ok in Hcs
      as (Hin & Hsorted & Ht1).
    intros [= <- <-]. exists u, r. simpl. split_and!; try done.
    + intros c Hc. apply Hin in Hc as (k & r' & Hk & ? & ?).
      rewrite Hcs0 in Hk. eauto.
    + chain_calls.
  - assert (calls w0 w1 [SqlSelectComponentsByBike u]) as Ht1.
    { revert Hcs. unfold ComponentRepository.GetComponentsByBikeID.
      destruct (db_call _ w0) as [f w2] eqn:Hc1.
      apply db_call_frame in Hc1 as (_ & _ & _ & Ht1).
      destruct f; by intros [= <- <-]. }
    intros [= <- <-]. exists u, r. simpl.
    split_and!; try done; [|chain_calls].
    intros c Hc. by apply elem_of_nil in Hc.
Qed.

Lemma BikeService_GetBikesByUserID_Ok (userID : string) (w w' : World)
  (bs : list Bike.t) :
  BikeService.GetBikesByUserID userID w = (Ok bs, w') ->
  exists u : UUID,
    uuid_Parse userID = Some u
    /\ (forall b, b ∈ bs
                  <-> exists k r, db_bikes w !! k = Some r
                                  /\ bikes.user_id r = u
                                  /\ b = BikeRepository.scan r Bike.zero)
    /\ same_cache w w'.
Proof.
  unfold BikeService.GetBikesByUserID.
  destruct (uuid_Parse userID) as [u|]; [|done].
  unfold BikeRepository.GetBikesByUserID.
  destruct (db_call _ w) as [f w1] eqn:Hc.
  apply db_call_frame in Hc as ([Hb Hcs] & Hk & _ & Ht).
  destruct f; [done|]. intros [= <- <-]. exists u. split_and!; try done.
  intros b. rewrite list_elem_of_fmap. split.
  - intros (r & -> & Hr). apply list_elem_of_filter in Hr as [Huser Hr].
    apply rows_of_map in Hr as (k & Hk'). rewrite Hb in Hk'. eauto.
  - intros (k & r & Hk' & Huser & ->). exists r. split; [done|].
    apply list_elem_of_filter. split; [done|].
    apply rows_of_map. exists k. by rewrite Hb.
Qed.

(** X10: The bikes listed for a user are exactly the stored bikes that user
    owns; the listing makes one storage call and no cache call. *)
Theorem bikes_of_user (userID : string) (w w' : World) (bs : list Bike.t) :
  BikeService.GetBikesByUserID userID w = (Ok bs, w') ->
  exists u : UUID,
    uuid_Parse userID = Some u
    /\ (forall b, b ∈ bs
                  <-> exists k r, db_bikes w !! k = Some r
                                  /\ bikes.user_id r = u
                                  /\ b = BikeRepository.scan r Bike.zero)
    /\ calls w w' [SqlSelectBikesByUser u]
    /\ same_storage w w' /\ same_cache w w'.
Proof.
  unfold BikeService.GetBikesByUserID.
  destruct (uuid_Parse userID) as [u|]; [|done].
  unfold BikeRepository.GetBikesByUserID.
  destruct (db_call _ w) as [f w1] eqn:Hc.
  apply db_call_frame in Hc as ([Hb Hcs] & Hk & _ & Ht).
  destruct f; [done|]. intros [= <- <-]. exists u. split_and!; try done.
  intros b. rewrite list_elem_of_fmap. split.
  - intros (r & -> & Hr). apply list_elem_of_filter in Hr as [Huser Hr].
    apply rows_of_map in Hr as (k & Hk'). rewrite Hb in Hk'. eauto.
  - intros (k & r & Hk' & Huser & ->). exists r. split; [done|].
    apply list_elem_of_filter. split; [done|].
    apply rows_of_map. exists k. by rewrite Hb.
Qed.

(** *** Referential integrity *)

(** A property of the two tables that the six statements keep is kept by
    every mutating service operation. *)
Lemma run_preserves (P : World -> Prop) :
  (forall w w', same_storage w w' -> P w -> P w') ->
  (forall bike w, P w -> P (snd (BikeRepository.CreateBike bike w))) ->
  (forall bike w, P w -> P (snd (BikeRepository.UpdateBike bike w))) ->
  (forall u w, P w -> P (snd (BikeRepository.DeleteBike u w))) ->
  (forall c w, P w -> P (snd (ComponentRepository.CreateComponent c w))) ->
  (forall c w, P w -> P (snd (ComponentRepository.UpdateComponent c w))) ->
  (forall u w, P w -> P (snd (ComponentRepository.DeleteComponent u w))) ->
  forall m w, P w -> P (snd (run m w)).
Proof.
  intros Hsame Hcb Hub Hdb Hcc Huc Hdc m w HP.
  assert (Hlog : forall lvl msg w0, P w0 -> P (logger lvl msg w0)).
  { intros lvl msg w0. by apply Hsame. }
  assert (Hinv : forall key w0, P w0 -> P (BikeService.invalidate key w0)).
  { intros key w0. apply Hsame.
    by destruct (invalidate_frame key w0) as (Hs & _). }
  destruct m as [bike|bike|bikeID|c|c|componentID]; cbv beta iota delta [run].
  - unfold BikeService.CreateBike, validate.Bike_failures, validate.Struct.
    cbv beta iota.
    destruct (decide (Bike.BikeID bike = uuid_Nil)) as [Hnil|Hid].
    + destruct (uuid_New w) as [id w0] eqn:Hnew.
      apply uuid_New_frame in Hnew as (Hs0 & _).
      pose proof (Hcb (Bike.set_BikeID id bike) w0 (Hsame _ _ Hs0 HP)) as HP1.
      destruct (BikeRepository.CreateBike _ w0) as [[b|e] w1]; by apply Hlog.
    + pose proof (Hcb bike w HP) as HP1.
      destruct (BikeRepository.CreateBike _ w) as [[b|e] w1]; by apply Hlog.
  - destruct (BikeService.UpdateBike bike w) as [r w'] eqn:Hup.
    apply BikeService_UpdateBike_repository in Hup as (w1 & Hrepo & Hs).
    simpl. apply (Hsame _ _ Hs). pose proof (Hub bike w HP) as HP1.
    by rewrite Hrepo in HP1.
  - unfold BikeService.DeleteBike.
    destruct (uuid_Parse bikeID) as [u|]; [|by apply Hlog].
    pose proof (Hdb u w HP) as HP1.
    destruct (BikeRepository.DeleteBike u w) as [[e|] w1]; [by apply Hlog|].
    simpl. by apply Hlog, Hinv.
  - unfold ComponentService.CreateComponent.
    destruct (validate.Struct _); [by apply Hlog|].
    destruct (decide (Component.ID c = uuid_Nil)) as [Hnil|Hid].
    + destruct (uuid_New w) as [id w0] eqn:Hnew.
      apply uuid_New_frame in Hnew as (Hs0 & _).
      pose proof (Hcc (Component.set_ID id c) w0 (Hsame _ _ Hs0 HP)) as HP1.
      destruct (ComponentRepository.CreateComponent _ w0) as [[c1|e] w1];
        [|by apply Hlog].
      simpl. by apply Hlog, Hinv.
    + pose proof (Hcc c w HP) as HP1.
      destruct (ComponentRepository.CreateComponent _ w) as [[c1|e] w1];
        [|by apply Hlog].
      simpl. by apply Hlog, Hinv.
  - destruct (ComponentService.UpdateComponent c w) as [r w'] eqn:Hup.
    apply ComponentService_UpdateComponent_repository in Hup
      as [(Hs & _)|(w1 & Hrepo & Hs)]; simpl.
    + by apply (Hsame _ _ Hs).
    + apply (Hsame _ _ Hs). pose proof (Huc c w HP) as HP1.
      by rewrite Hrepo in HP1.
  - unfold ComponentService.DeleteComponent.
    destruct (uuid_Parse componentID) as [u|]; [|by apply Hlog].
    destruct (ComponentRepository.GetComponentByID u w) as [[c|e] w1] eqn:Hload;
      apply ComponentRepository_GetComponentByID_frame in Hload as (Hs1 & _);
      apply (Hsame _ _ Hs1) in HP; [|by apply Hlog].
    pose proof (Hdc u w1 HP) as HP1.
    destruct (ComponentRepository.DeleteComponent u w1) as [[e|] w2];
      [by apply Hlog|].
    simpl. by apply Hlog, Hinv.
Qed.

Lemma storage_linked_same (w w' : World) :
  same_storage w w' -> storage_linked w -> storage_linked w'.
Proof. unfold storage_linked. by intros [-> ->]. Qed.

Lemma storage_linked_insert_bike (k : UUID) (r : bikes.row) (w : World) :
  bikes.bike_id r = k -> storage_linked w ->
  storage_linked (set_bikes (<[k := r]> (db_bikes w)) w).
Proof.
  intros Hr [Hb Hc]. split; simpl.
  - intros k' r'. destruct (decide (k = k')) as [<-|Hne].
    + rewrite lookup_insert_eq. by intros [= <-].
    + rewrite lookup_insert_ne by done. apply Hb.
  - intros k' r' Hk'. destruct (Hc k' r' Hk') as [Hid Hparent]. split; [done|].
    destruct (decide (k = components.bike_id r')) as [<-|Hne].
    + rewrite lookup_insert_eq. by eexists.
    + by rewrite lookup_insert_ne.
Qed.

Lemma storage_linked_insert_component (k : UUID) (r : components.row) (w : World) :
  components.id r = k -> is_Some (db_bikes w !! components.bike_id r) ->
  storage_linked w ->
  storage_linked (set_components (<[k := r]> (db_components w)) w).
Proof.
  intros Hr Hparent [Hb Hc]. split; [done|]. simpl.
  intros k' r'. destruct (decide (k = k')) as [<-|Hne].
  - rewrite lookup_insert_eq. by intros [= <-].
  - rewrite lookup_insert_ne by done. apply Hc.
Qed.

Lemma BikeRepository_CreateBike_linked (bike : Bike.t) (w : World) :
  storage_linked w -> storage_linked (snd (BikeRepository.CreateBike bike w)).
Proof.
  intros Hl. unfold BikeRepository.CreateBike.
  destruct (db_call _ w) as [f w1] eqn:Hc. apply db_call_frame in Hc as (Hs & _).
  apply (storage_linked_same _ _ Hs) in Hl.
  destruct f; [done|]. unfold BikeRepository.insert.
  repeat case_match; simplify_eq; simpl; try done.
  by apply storage_linked_insert_bike.
Qed.

Lemma BikeRepository_UpdateBike_linked (bike : Bike.t) (w : World) :
  storage_linked w -> storage_linked (snd (BikeRepository.UpdateBike bike w)).
Proof.
  intros Hl. unfold BikeRepository.UpdateBike.
  destruct (db_call _ w) as [f w1] eqn:Hc. apply db_call_frame in Hc as (Hs & _).
  apply (storage_linked_same _ _ Hs) in Hl.
  destruct f; [done|].
  destruct (BikeRepository.update bike w1) as [[r'|e] w2] eqn:Hup; simpl.
  - apply BikeRepository_update_inv in Hup as (r & Hr & Hset & ->).
    apply BikeRepository_update_set_identity in Hset.
    apply storage_linked_insert_bike; [|done].
    destruct Hl as [Hb _]. rewrite <- (Hb _ _ Hr).
    unfold bike_identity in Hset. congruence.
  - by apply BikeRepository_update_fail in Hup as ->.
Qed.

Lemma BikeRepository_DeleteBike_linked (u : UUID) (w : World) :
  storage_linked w -> storage_linked (snd (BikeRepository.DeleteBike u w)).
Proof.
  intros Hl. unfold BikeRepository.DeleteBike.
  destruct (db_call _ w) as [f w1] eqn:Hc. apply db_call_frame in Hc as (Hs & _).
  apply (storage_linked_same _ _ Hs) in Hl as [Hb Hcs].
  destruct f; [done|]. repeat case_match; simplify_eq; simpl; try done.
  split; simpl.
  - intros k' r' [_ Hk]%lookup_delete_Some. by eapply Hb.
  - intros k' r' [Hk Hne]%map_lookup_filter_Some. simpl in Hne.
    destruct (Hcs k' r' Hk) as [Hid Hparent]. split; [done|].
    by rewrite lookup_delete_ne.
Qed.

Lemma ComponentRepository_CreateComponent_linked (c : Component.t) (w : World) :
  storage_linked w -> storage_linked (snd (ComponentRepository.CreateComponent c w)).
Proof.
  intros Hl. unfold ComponentRepository.CreateComponent.
  destruct (db_call _ w) as [f w1] eqn:Hc. apply db_call_frame in Hc as (Hs & _).
  apply (storage_linked_same _ _ Hs) in Hl.
  destruct f; [done|]. unfold ComponentRepository.insert.
  repeat case_match; simplify_eq; simpl; try done.
  apply storage_linked_insert_component; [done| |done]. simpl. by eexists.
Qed.

Lemma ComponentRepository_UpdateComponent_linked (c : Component.t) (w : World) :
  storage_linked w -> storage_linked (snd (ComponentRepository.UpdateComponent c w)).
Proof.
  intros Hl. unfold ComponentRepository.UpdateComponent.
  destruct (db_call _ w) as [f w1] eqn:Hc. apply db_call_frame in Hc as (Hs & _).
  apply (storage_linked_same _ _ Hs) in Hl.
  destruct f; [done|].
  destruct (ComponentRepository.update c w1) as [[r'|e] w2] eqn:Hup; simpl.
  - apply ComponentRepository_update_inv in Hup as (r & Hr & Hset & ->).
    apply ComponentRepository_update_set_identity in Hset.
    unfold component_identity in Hset. simplify_eq.
    destruct Hl as [Hb Hcs]. destruct (Hcs _ _ Hr) as [Hid Hparent].
    apply storage_linked_insert_component; [congruence|congruence|done].
  - by apply ComponentRepository_update_fail in Hup as ->.
Qed.

Lemma ComponentRepository_DeleteComponent_linked (u : UUID) (w : World) :
  storage_linked w -> storage_linked (snd (ComponentRepository.DeleteComponent u w)).
Proof.
  intros Hl. unfold ComponentRepository.DeleteComponent.
  destruct (db_call _ w) as [f w1] eqn:Hc. apply db_call_frame in Hc as (Hs & _).
  apply (storage_linked_same _ _ Hs) in Hl as [Hb Hcs].
  destruct f; [done|]. repeat case_match; simplify_eq; simpl; try done.
  split; [done|]. simpl.
  intros k' r' [_ Hk]%lookup_delete_Some. by eapply Hcs.
Qed.

(** X11: Referential integrity is an invariant of the mutating operations: if
    each table is keyed by its primary key and every component names a stored
    bike, the same holds after any create, update or delete of a bike or a
    component, whether it succeeds or fails. *)
Theorem referential_integrity_kept (m : Mutation) (w : World) :
  storage_linked w -> storage_linked (snd (run m w)).
Proof.
  apply (run_preserves storage_linked);
    eauto using storage_linked_same, BikeRepository_CreateBike_linked,
      BikeRepository_UpdateBike_linked, BikeRepository_DeleteBike_linked,
      ComponentRepository_CreateComponent_linked,
      ComponentRepository_UpdateComponent_linked,
      ComponentRepository_DeleteComponent_linked.
Qed.

(** *** Schema constraints *)

Lemma storage_checked_same (w w' : World) :
  same_storage w w' -> storage_checked w -> storage_checked w'.
Proof. unfold storage_checked. by intros [-> ->]. Qed.

Lemma storage_checked_insert_bike (k : UUID) (r : bikes.row) (w : World) :
  bikes.type_check (bikes.type r) = true ->
  int4_ok (bikes.year r) = true -> int4_ok (bikes.mileage r) = true ->
  storage_checked w ->
  storage_checked (set_bikes (<[k := r]> (db_bikes w)) w).
Proof.
  intros Ht Hy Hm [Hb Hc]. split; [|done]. simpl.
  intros k' r'. destruct (decide (k = k')) as [<-|Hne].
  - rewrite lookup_insert_eq. by intros [= <-].
  - rewrite lookup_insert_ne by done. apply Hb.
Qed.

Lemma storage_checked_insert_component (k : UUID) (r : components.row)
  (w : World) :
  components.name_check (components.name r) = true ->
  int4_ok (components.installed_mileage r) = true ->
  int4_ok (components.max_mileage r) = true ->
  storage_checked w ->
  storage_checked (set_components (<[k := r]> (db_components w)) w).
Proof.
  intros Hn Hi Hm [Hb Hc]. split; [done|]. simpl.
  intros k' r'. destruct (decide (k = k')) as [<-|Hne].
  - rewrite lookup_insert_eq. by intros [= <-].
  - rewrite lookup_insert_ne by done. apply Hc.
Qed.

Ltac bool_facts :=
  repeat match goal with
         | Hb : negb _ = false |- _ => apply negb_false_iff in Hb
         | Hb : _ && _ = true |- _ => apply andb_true_iff in Hb as [? ?]
         end.

Lemma coalesce_int4 (input stored : Z) :
  int4_ok input = true -> int4_ok stored = true ->
  int4_ok (COALESCE (NULLIF input 0) stored) = true.
Proof. intros Hi Hs. unfold COALESCE, NULLIF. by case_decide. Qed.

Lemma BikeRepository_CreateBike_checked (bike : Bike.t) (w : World) :
  storage_checked w -> storage_checked (snd (BikeRepository.CreateBike bike w)).
Proof.
  intros Hl. unfold BikeRepository.CreateBike.
  destruct (db_call _ w) as [f w1] eqn:Hc. apply db_call_frame in Hc as (Hs & _).
  apply (storage_checked_same _ _ Hs) in Hl.
  destruct f; [done|]. unfold BikeRepository.insert.
  repeat case_match; simplify_eq; simpl; try done.
  bool_facts. by apply storage_checked_insert_bike.
Qed.

Lemma BikeRepository_UpdateBike_checked (bike : Bike.t) (w : World) :
  storage_checked w -> storage_checked (snd (BikeRepository.UpdateBike bike w)).
Proof.
  intros Hl. unfold BikeRepository.UpdateBike.
  destruct (db_call _ w) as [f w1] eqn:Hc. apply db_call_frame in Hc as (Hs & _).
  apply (storage_checked_same _ _ Hs) in Hl.
  destruct f; [done|]. unfold BikeRepository.update, BikeRepository.update_set.
  repeat case_match; simplify_eq; simpl; try done.
  bool_facts.
  match goal with
  | Hr : db_bikes _ !! _ = Some _ |- _ =>
      destruct Hl as [Hb Hcs]; destruct (Hb _ _ Hr) as (? & ? & ?)
  end.
  apply storage_checked_insert_bike; simpl; try done; by apply coalesce_int4.
Qed.

Lemma BikeRepository_DeleteBike_checked (u : UUID) (w : World) :
  storage_checked w -> storage_checked (snd (BikeRepository.DeleteBike u w)).
Proof.
  intros Hl. unfold BikeRepository.DeleteBike.
  destruct (db_call _ w) as [f w1] eqn:Hc. apply db_call_frame in Hc as (Hs & _).
  apply (storage_checked_same _ _ Hs) in Hl as [Hb Hcs].
  destruct f; [done|]. repeat case_match; simplify_eq; simpl; try done.
  split; simpl.
  - intros k' r' [_ Hk]%lookup_delete_Some. by eapply Hb.
  - intros k' r' [Hk _]%map_lookup_filter_Some. by eapply Hcs.
Qed.

Lemma ComponentRepository_CreateComponent_checked (c : Component.t) (w : World) :
  storage_checked w ->
  storage_checked (snd (ComponentRepository.CreateComponent c w)).
Proof.
  intros Hl. unfold ComponentRepository.CreateComponent.
  destruct (db_call _ w) as [f w1] eqn:Hc. apply db_call_frame in Hc as (Hs & _).
  apply (storage_checked_same _ _ Hs) in Hl.
  destruct f; [done|]. unfold ComponentRepository.insert.
  repeat case_match; simplify_eq; simpl; try done.
  bool_facts. by apply storage_checked_insert_component.
Qed.

Lemma ComponentRepository_UpdateComponent_checked (c : Component.t) (w : World) :
  storage_checked w ->
  storage_checked (snd (ComponentRepository.UpdateComponent c w)).
Proof.
  intros Hl. unfold ComponentRepository.UpdateComponent.
  destruct (db_call _ w) as [f w1] eqn:Hc. apply db_call_frame in Hc as (Hs & _).
  apply (storage_checked_same _ _ Hs) in Hl.
  destruct f; [done|].
  unfold ComponentRepository.update, ComponentRepository.update_set.
  repeat case_match; simplify_eq; simpl; try done.
  bool_facts.
  match goal with
  | Hr : db_components _ !! _ = Some _ |- _ =>
      destruct Hl as [Hb Hcs]; destruct (Hcs _ _ Hr) as (? & ? & ?)
  end.
  apply storage_checked_insert_component; simpl; try done;
    by apply coalesce_int4.
Qed.

Lemma ComponentRepository_DeleteComponent_checked (u : UUID) (w : World) :
  storage_checked w ->
  storage_checked (snd (ComponentRepository.DeleteComponent u w)).
Proof.
  intros Hl. unfold ComponentRepository.DeleteComponent.
  destruct (db_call _ w) as [f w1] eqn:Hc. apply db_call_frame in Hc as (Hs & _).
  apply (storage_checked_same _ _ Hs) in Hl as [Hb Hcs].
  destruct f; [done|]. repeat case_match; simplify_eq; simpl; try done.
  split; [done|]. simpl.
  intros k' r' [_ Hk]%lookup_delete_Some. by eapply Hcs.
Qed.

(** X12: The constraints of the schema are an invariant of the mutating
    operations: if every stored bike has one of the three allowed types and
    every stored component one of the three allowed names, and the integer
    columns are 32-bit, the same holds after any create, update or delete,
    whether it succeeds or fails. *)
Theorem schema_checks_kept (m : Mutation) (w : World) :
  storage_checked w -> storage_checked (snd (run m w)).
Proof.
  apply (run_preserves storage_checked);
    eauto using storage_checked_same, BikeRepository_CreateBike_checked,
      BikeRepository_UpdateBike_checked, BikeRepository_DeleteBike_checked,
      ComponentRepository_CreateComponent_checked,
      ComponentRepository_UpdateComponent_checked,
      ComponentRepository_DeleteComponent_checked.
Qed.

(** X13: Every row the program writes is within the column sizes of the schema:
    if the stored text fits its columns, it still does after any create,
    update or delete of a bike or a component. *)
Theorem column_sizes_kept (m : Mutation) (w : World) :
  storage_fits w -> storage_fits (snd (run m w)).
Proof.
  apply (run_preserves storage_fits);
    eauto using storage_fits_same, BikeRepository_CreateBike_fits,
      BikeRepository_UpdateBike_fits, BikeRepository_DeleteBike_fits,
      ComponentRepository_CreateComponent_fits,
      ComponentRepository_UpdateComponent_fits,
      ComponentRepository_DeleteComponent_fits.
Qed.

End MoreServices.


(** ** Reads after writes *)

Section ReadAfterWrite.
Context `{Externals}.

Lemma invalidate_up (key : string) (w : World) :
  cache_up w -> cache_store (BikeService.invalidate key w) !! key = None.
Proof.
  intros Hup. unfold BikeService.invalidate, CachePort.Delete.
  pose proof (cache_call_up (CacheDelete key) w Hup) as Hf.
  destruct (cache_call _ w) as [failed w1] eqn:Hc. simpl in Hf. subst failed.
  simpl. apply lookup_delete_eq.
Qed.

Lemma BikeService_GetBikeByID_miss (bikeID : string) (u : UUID) (w : World) :
  uuid_Parse bikeID = Some u ->
  cache_up w -> storage_up w ->
  cache_store w !! cache_key bikeID = None ->
  fst (BikeService.GetBikeByID bikeID w)
  = match db_bikes w !! u with
    | Some r => Ok (BikeRepository.scan r Bike.zero)
    | None => Err (errors_New "bike not found")
    end.
Proof.
  intros Hp Hcu Hsu Hmiss. unfold BikeService.GetBikeByID. rewrite Hp. cbv zeta.
  destruct (CachePort.Get (cache_key bikeID) w) as [cached w1] eqn:Hget.
  pose proof Hget as ([Hb1 _] & _ & Hf1 & _)%CachePort_Get_frame.
  assert (cached = Err (cache_error "key not found")) as ->.
  { revert Hget. unfold CachePort.Get.
    pose proof (cache_call_up (CacheGet (cache_key bikeID)) w Hcu) as Hf.
    destruct (cache_call _ w) as [failed w0] eqn:Hc. simpl in Hf. subst failed.
    apply cache_call_frame in Hc as (_ & Hk & _). rewrite Hk, Hmiss.
    by intros [= <- <-]. }
  assert (storage_up w1) as Hsu1 by (unfold storage_up; by rewrite Hf1).
  pose proof (BikeRepository_GetBikeByID_up u w1 Hsu1) as Hrepo.
  rewrite Hb1 in Hrepo.
  destruct (BikeRepository.GetBikeByID u w1) as [[b|e] w2]; simpl in Hrepo;
    rewrite <- Hrepo; repeat case_match; done.
Qed.

(** X14: A read after an update sees the update, not a stale cache entry: when
    the cache answers, [GetBikeByID] under the bike's canonical identifier
    returns the record [UpdateBike] returned (without components). *)
Theorem update_then_get (bike b : Bike.t) (w w' : World) :
  BikeService.UpdateBike bike w = (Ok b, w') ->
  uuid_Parse (uuid_String (Bike.BikeID bike)) = Some (Bike.BikeID bike) ->
  storage_linked w ->
  cache_up w -> cache_up w' -> storage_up w' ->
  fst (BikeService.GetBikeByID (uuid_String (Bike.BikeID bike)) w')
  = Ok (Bike.set_Components [] b).
Proof.
  intros Hup Hround [Hlinked _] Hcu Hcu' Hsu'. revert Hup Hcu' Hsu'.
  unfold BikeService.UpdateBike, validate.Bike_failures, validate.Struct.
  cbv beta iota zeta.
  destruct (BikeRepository.UpdateBike bike w) as [[b1|e] w1] eqn:Hrepo; [|done].
  intros [= <- <-] Hcu' Hsu'.
  revert Hrepo. unfold BikeRepository.UpdateBike.
  destruct (db_call _ w) as [f w0] eqn:Hc.
  apply db_call_bikes in Hc as (Hb0 & _ & _ & _ & Hcf0 & _).
  destruct f; [done|].
  destruct (BikeRepository.update bike w0) as [[r'|e] w2] eqn:Hu; [|done].
  intros [= <- <-].
  apply BikeRepository_update_inv in Hu as (r & Hr & Hset & ->).
  apply BikeRepository_update_set_identity in Hset.
  assert (bikes.bike_id r' = Bike.BikeID bike) as Hid.
  { rewrite Hb0 in Hr. specialize (Hlinked _ _ Hr).
    unfold bike_identity in Hset. congruence. }
  set (wi := set_bikes (<[Bike.BikeID bike := r']> (db_bikes w0)) w0) in *.
  assert (Bike.BikeID (BikeRepository.scan r' bike) = Bike.BikeID bike) as Hbid
      by done.
  rewrite Hbid in Hsu', Hcu' |- *.
  set (key := cache_key (uuid_String (Bike.BikeID bike))) in *.
  destruct (invalidate_frame key wi) as ([Hbi _] & _).
  rewrite (BikeService_GetBikeByID_miss _ (Bike.BikeID bike)); try done.
  - change (db_bikes (logger LInfo "Bike updated successfully"
                        (BikeService.invalidate key wi)))
      with (db_bikes (BikeService.invalidate key wi)).
    rewrite Hbi. unfold wi. simpl db_bikes. by rewrite lookup_insert_eq.
  - change (cache_store (logger LInfo "Bike updated successfully"
                           (BikeService.invalidate key wi)))
      with (cache_store (BikeService.invalidate key wi)).
    apply invalidate_up. unfold cache_up, wi. simpl. by rewrite Hcf0.
Qed.

(** X15: A read after a delete finds nothing: when the cache answers,
    [GetBikeByID] under the identifier the bike was deleted by reports that
    the bike is not found, and the bike has no components left to list. *)
Theorem delete_then_get_not_found (bikeID : string) (u : UUID) (w w' : World) :
  uuid_Parse bikeID = Some u ->
  BikeService.DeleteBike bikeID w = (None, w') ->
  cache_up w -> cache_up w' -> storage_up w' ->
  fst (BikeService.GetBikeByID bikeID w') = Err (errors_New "bike not found")
  /\ fst (ComponentService.GetComponentsByBikeID bikeID w') = Ok [].
Proof.
  intros Hparse Hdel Hcu Hcu' Hsu'. revert Hdel Hcu' Hsu'.
  unfold BikeService.DeleteBike. rewrite Hparse.
  destruct (BikeRepository.DeleteBike u w) as [[e|] w1] eqn:Hdel; [done|].
  apply BikeRepository_DeleteBike_inv in Hdel
    as (_ & Hb & Hc & _ & _ & _ & Hcf).
  intros [= <-] Hcu' Hsu'.
  destruct (invalidate_frame (cache_key bikeID) w1) as ([Hbi Hci] & _).
  split.
  - rewrite (BikeService_GetBikeByID_miss _ u); try done.
    + simpl db_bikes. rewrite Hbi, Hb. by rewrite lookup_delete_eq.
    + simpl cache_store. apply invalidate_up. unfold cache_up. by rewrite Hcf.
  - unfold ComponentService.GetComponentsByBikeID. rewrite Hparse.
    match goal with
    | |- context [ComponentRepository.GetComponentsByBikeID u ?w0] =>
        pose proof (db_call_up (SqlSelectComponentsByBike u) w0 Hsu') as Hf;
        destruct (ComponentRepository.GetComponentsByBikeID u w0)
          as [[cs|e] w2] eqn:Hget
    end.
    + apply GetComponentsByBikeID_none in Hget as ->; [done|].
      intros k r. simpl db_components. rewrite Hci, Hc.
      by intros [_ Hne]%map_lookup_filter_Some.
    + revert Hget. unfold ComponentRepository.GetComponentsByBikeID.
      destruct (db_call _ _) as [f w3]. simpl in Hf. by subst f.
Qed.

(** X16: A created component is listed: after a successful [CreateComponent] of
    a component whose text is within the column sizes, the components of its
    bike, read from storage, contain the created record. *)
Theorem create_component_then_listed (c c' : Component.t) (bikeID : string)
  (w w' : World) :
  ComponentService.CreateComponent c w = (Ok c', w') ->
  component_text_fits c ->
  uuid_Parse bikeID = Some (Component.BikeID c) ->
  storage_up w' ->
  exists cs : list Component.t,
    fst (ComponentService.GetComponentsByBikeID bikeID w') = Ok cs
    /\ c' ∈ cs.
Proof.
  intros Hcr (Hn & Hb & Hm) Hparse Hsu.
  apply ComponentService_CreateComponent_Ok in Hcr as (-> & Hc).
  unfold ComponentService.GetComponentsByBikeID. rewrite Hparse.
  pose proof (db_call_up (SqlSelectComponentsByBike (Component.BikeID c)) w' Hsu)
    as Hf.
  destruct (ComponentRepository.GetComponentsByBikeID (Component.BikeID c) w')
    as [[cs|e] w2] eqn:Hget.
  - exists cs. split; [done|].
    apply ComponentRepository_GetComponentsByBikeID_Ok in Hget as (Hcs & _).
    apply Hcs. eexists _, _. split; [rewrite Hc; apply lookup_insert_eq|].
    split; [done|].
    unfold ComponentRepository.scan, components_row_of, created_component. simpl.
    by rewrite !substring_fits.
  - revert Hget. unfold ComponentRepository.GetComponentsByBikeID.
    destruct (db_call _ _) as [f w3]. simpl in Hf. by subst f.
Qed.

End ReadAfterWrite.

(** ** The HTTP and RPC surface *)

Section MoreHandlers.
Context `{Externals}.

Ltac unfold_handlers :=
  unfold serve, handle, BikeHandler.CreateBike, BikeHandler.GetMyBikes,
    BikeHandler.GetBike, BikeHandler.GetBikeWithComponents,
    BikeHandler.GetBikeWithUser, BikeHandler.UpdateBike, BikeHandler.DeleteBike,
    ComponentHandler.GetComponent, ComponentHandler.CreateComponent,
    ComponentHandler.UpdateComponent, ComponentHandler.DeleteComponent.

(** X17: A request without an authorization payload is answered 401 on each of
    the eleven routes, before any storage or cache call is made. *)
Theorem unauthenticated_request_touches_nothing (route : Route) (c : Context)
  (w : World) :
  authorization_payload c = None ->
  exists w' : World,
    serve route c w = (newErrorResponse StatusUnauthorized "Unauthorized", w')
    /\ calls w w' [] /\ same_storage w w' /\ same_cache w w'.
Proof.
  intros Hauth.
  destruct route as [body| |op]; [| |destruct op]; unfold_handlers;
    rewrite Hauth; eexists; (split; [reflexivity|]); split_and!; try done;
    unfold calls; simpl; by rewrite app_nil_r.
Qed.

Lemma BikeService_GetBikeByID_parses (bikeID : string) (b : Bike.t)
  (w w' : World) :
  BikeService.GetBikeByID bikeID w = (Ok b, w') -> is_Some (uuid_Parse bikeID).
Proof.
  unfold BikeService.GetBikeByID. by destruct (uuid_Parse bikeID).
Qed.

Lemma ComponentService_GetComponentByID_parses (componentID : string)
  (comp : Component.t) (w w' : World) :
  ComponentService.GetComponentByID componentID w = (Ok comp, w') ->
  is_Some (uuid_Parse componentID).
Proof.
  unfold ComponentService.GetComponentByID. by destruct (uuid_Parse componentID).
Qed.

Ltac parsed_after_load :=
  match goal with
  | Hget : BikeService.GetBikeByID ?s _ = (Ok _, _),
    Hp : uuid_Parse ?s = None |- _ =>
      apply BikeService_GetBikeByID_parses in Hget as [? Hget]; congruence
  | Hget : ComponentService.GetComponentByID ?s _ = (Ok _, _),
    Hp : uuid_Parse ?s = None |- _ =>
      apply ComponentService_GetComponentByID_parses in Hget as [? Hget];
      congruence
  end.

(** X18: The answers "Invalid bike ID" and "Invalid component ID" are never
    given: each handler that parses an identifier has loaded the entity under
    it first, and a load only succeeds for an identifier that parses. *)
Theorem invalid_id_answers_unreachable (op : Operation) (c : Context) (w : World) :
  message (fst (handle op c w)) <> "Invalid bike ID"
  /\ message (fst (handle op c w)) <> "Invalid component ID".
Proof.
  destruct op; unfold_handlers; cbv zeta.
  all: repeat case_match; simplify_eq; simpl; try (split; discriminate).
  all: exfalso; parsed_after_load.
Qed.

(** X19: With a valid identity, a path identifier that is not a UUID is answered
    404 by each of the eight operations that take one, without any storage
    or cache call. *)
Theorem malformed_identifier_is_not_found (op : Operation) (c : Context)
  (w : World) (payload : TokenPayload.t) :
  authorization_payload c = Some payload ->
  uuid_Parse (Param_id c) = None ->
  (forall body, op <> OpCreateComponent body) ->
  status (fst (handle op c w)) = StatusNotFound
  /\ calls w (snd (handle op c w)) []
  /\ same_storage w (snd (handle op c w))
  /\ same_cache w (snd (handle op c w)).
Proof.
  intros Hauth Hparse Hop.
  destruct op; try (exfalso; eapply Hop; reflexivity); unfold_handlers;
    cbv zeta;
    rewrite Hauth;
    unfold BikeService.GetBikeByID, BikeService.GetBikeWithComponents,
      ComponentService.GetComponentByID; rewrite Hparse; simpl;
    split_and!; try done; unfold calls; simpl; by rewrite app_nil_r.
Qed.

Lemma ComponentService_UpdateComponent_uninstalled (comp : Component.t)
  (w : World) :
  Component.InstalledAt comp = time_zero ->
  exists err : error,
    ComponentService.UpdateComponent comp w
    = (Err err, logger LError "Component validation failed" w).
Proof.
  intros Hat. unfold ComponentService.UpdateComponent.
  destruct (validate.Struct _) as [err|] eqn:Hv; [by eexists|].
  by apply component_valid_iff in Hv as (_ & _ & _ & _ & Hi & _).
Qed.

(** X20: [PUT /components/:id] never succeeds and never changes storage: the
    handler builds the component to update without an installation time,
    which the service's validation requires, so a request that passes the
    ownership check is answered 500. *)
Theorem update_component_route_never_succeeds (c : Context)
  (body : option UpdateComponent) (w : World) :
  status (fst (ComponentHandler.UpdateComponent c body w)) <> StatusOK
  /\ same_storage w (snd (ComponentHandler.UpdateComponent c body w))
  /\ forall (payload : TokenPayload.t) (req : UpdateComponent)
            (comp : Component.t) (bike : Bike.t) (w1 w2 : World),
       authorization_payload c = Some payload ->
       body = Some req ->
       ComponentService.GetComponentByID (Param_id c) w = (Ok comp, w1) ->
       BikeService.GetBikeByID (uuid_String (Component.BikeID comp)) w1
       = (Ok bike, w2) ->
       denied payload bike = false ->
       fst (ComponentHandler.UpdateComponent c body w)
       = newErrorResponse StatusInternalServerError "Update failed".
Proof.
  unfold ComponentHandler.UpdateComponent; cbv zeta.
  destruct (authorization_payload c) as [payload|];
    [|split_and!; done].
  destruct (ComponentService.GetComponentByID (Param_id c) w)
    as [[comp|e] w1] eqn:Hload;
    pose proof (ComponentService_GetComponentByID_storage _ _ _ _ Hload) as Hs1;
    [|split_and!; done].
  destruct (BikeService.GetBikeByID _ w1) as [[bike|e] w2] eqn:Hbike;
    pose proof (BikeService_GetBikeByID_storage _ _ _ _ Hbike) as Hs2;
    assert (same_storage w w2) as Hs by (by eapply same_storage_trans);
    [|split_and!; try done; intros; simplify_eq; congruence].
  destruct (denied payload bike) eqn:Hden;
    [split_and!; try done; intros; simplify_eq; congruence|].
  destruct body as [req|]; [|split_and!; done].
  destruct (ComponentService_GetComponentByID_parses _ _ _ _ Hload) as [u Hu].
  rewrite Hu.
  edestruct (ComponentService_UpdateComponent_uninstalled
               (Component.mk u (Component.BikeID comp)
                  (default "" (uc_Name req)) (default "" (uc_Brand req))
                  (default "" (uc_Model req)) time_zero
                  (default 0 (uc_InstalledMileage req))
                  (default 0 (uc_MaxMileage req)) time_zero time_zero) w2)
    as [err Hup]; [done|].
  rewrite Hup. simpl. split_and!; try done.
Qed.

(** X21: With a valid identity, the two create routes answer a body whose
    required number is zero with 400, before any storage or cache call: a
    bike cannot be registered at mileage 0, nor a component at installed
    mileage 0 or maximum mileage 0. *)
Theorem create_routes_reject_zero (c : Context) (w : World)
  (payload : TokenPayload.t) :
  authorization_payload c = Some payload ->
  (forall req : BikeRequest,
     br_Mileage req = 0 ->
     status (fst (BikeHandler.CreateBike c (Some req) w)) = StatusBadRequest
     /\ calls w (snd (BikeHandler.CreateBike c (Some req) w)) []
     /\ same_storage w (snd (BikeHandler.CreateBike c (Some req) w)))
  /\ (forall req : ComponentRequest,
        cr_InstalledMileage req = 0 \/ cr_MaxMileage req = 0 ->
        status (fst (ComponentHandler.CreateComponent c (Some req) w))
        = StatusBadRequest
        /\ calls w (snd (ComponentHandler.CreateComponent c (Some req) w)) []
        /\ same_storage w (snd (ComponentHandler.CreateComponent c (Some req) w))).
Proof.
  intros Hauth. split.
  - intros req Hz. unfold BikeHandler.CreateBike. rewrite Hauth.
    assert (bind_BikeRequest (Some req) = None) as ->.
    { unfold bind_BikeRequest. rewrite (bool_decide_eq_true_2 _ Hz).
      by rewrite !orb_true_r. }
    split_and!; try done; unfold calls; simpl; by rewrite app_nil_r.
  - intros req Hz. unfold ComponentHandler.CreateComponent. rewrite Hauth.
    assert (bind_ComponentRequest (Some req) = None) as ->.
    { unfold bind_ComponentRequest.
      destruct Hz as [Hz|Hz]; rewrite (bool_decide_eq_true_2 _ Hz);
        by rewrite ?orb_true_r. }
    split_and!; try done; unfold calls; simpl; by rewrite app_nil_r.
Qed.

Lemma BikeService_GetBikesByUserID_storage (userID : string) (w w' : World)
  (r : Result (list Bike.t)) :
  BikeService.GetBikesByUserID userID w = (r, w') -> same_storage w w'.
Proof.
  unfold BikeService.GetBikesByUserID.
  destruct (uuid_Parse userID) as [u|]; [|by intros [= <- <-]].
  unfold BikeRepository.GetBikesByUserID.
  destruct (db_call _ w) as [f w1] eqn:Hc.
  apply db_call_frame in Hc as (Hs & _).
  destruct f; by intros [= <- <-].
Qed.

(** X22: The five reading routes never change storage, whatever they answer. *)
Theorem read_routes_leave_storage (route : Route) (c : Context) (w : World) :
  is_read_route route = true -> same_storage w (snd (serve route c w)).
Proof.
  intros Hread.
  destruct route as [body| |op]; [done| |destruct op; try done];
    unfold_handlers; cbv zeta.
  all: repeat case_match; simplify_eq; simpl; try done;
    eauto using BikeService_GetBikeByID_storage,
      BikeService_GetBikeWithComponents_storage,
      ComponentService_GetComponentByID_storage,
      BikeService_GetBikesByUserID_storage, same_storage_trans,
      same_storage_logger.
Qed.

(** X23: [GET /bikes/my] lists the requester's own bikes and no others: every
    bike in a 200 answer is a stored bike whose owner is the identity of the
    token. *)
Theorem my_bikes_are_mine (c : Context) (w : World) (payload : TokenPayload.t) :
  authorization_payload c = Some payload ->
  uuid_Parse (uuid_String (TokenPayload.UserID payload))
  = Some (TokenPayload.UserID payload) ->
  status (fst (BikeHandler.GetMyBikes c w)) = StatusOK ->
  exists bs : list Bike.t,
    data (fst (BikeHandler.GetMyBikes c w)) = BikesData bs
    /\ forall b, b ∈ bs
                 <-> exists k r, db_bikes w !! k = Some r
                                 /\ bikes.user_id r = TokenPayload.UserID payload
                                 /\ b = BikeRepository.scan r Bike.zero.
Proof.
  intros Hauth Hround. unfold BikeHandler.GetMyBikes. rewrite Hauth.
  destruct (BikeService.GetBikesByUserID _ w) as [[bs|e] w1] eqn:Hget;
    [|done].
  intros _. exists bs. split; [done|].
  apply BikeService_GetBikesByUserID_Ok in Hget as (u & Hu & Hbs & _).
  rewrite Hround in Hu. by simplify_eq.
Qed.

Lemma int32_id (z : Z) : int4_ok z = true -> serverAPI.int32 z = z.
Proof.
  unfold int4_ok, serverAPI.int32. intros [Hlo Hhi]%andb_true_iff.
  apply Z.leb_le in Hlo. apply Z.ltb_lt in Hhi.
  rewrite Z.mod_small; lia.
Qed.

(** X24: The RPC [GetBikes] never returns an error and never changes storage or
    cache: a failure of the listing (a user id that is not a UUID, a storage
    error) is answered with the empty list.  Each entry of the answer is a
    stored bike of that user, with its mileage when that is 32-bit. *)
Theorem rpc_get_bikes_never_fails (userID : string) (w : World) :
  exists (pb : list serverAPI.Bike) (w' : World),
    serverAPI.GetBikes userID w = (Ok pb, w')
    /\ same_storage w w' /\ same_cache w w'
    /\ (uuid_Parse userID = None -> pb = [])
    /\ (forall e, fst (BikeService.GetBikesByUserID userID w) = Err e -> pb = [])
    /\ forall x, x ∈ pb ->
         exists k r, db_bikes w !! k = Some r
                     /\ uuid_Parse userID = Some (bikes.user_id r)
                     /\ serverAPI.BikeId x = uuid_String (bikes.bike_id r)
                     /\ serverAPI.Model x = bikes.model r
                     /\ (int4_ok (bikes.mileage r) = true ->
                         serverAPI.Mileage x = bikes.mileage r).
Proof.
  unfold serverAPI.GetBikes.
  destruct (BikeService.GetBikesByUserID userID w) as [[bs|e] w1] eqn:Hget.
  - pose proof (BikeService_GetBikesByUserID_storage _ _ _ _ Hget) as Hs.
    apply BikeService_GetBikesByUserID_Ok in Hget as (u & Hu & Hbs & Hk).
    eexists _, _. split; [reflexivity|]. split_and!; try done.
    + rewrite Hu. done.
    + intros x (b & -> & Hb)%list_elem_of_fmap.
      apply Hbs in Hb as (k & r & Hr & Huser & ->).
      exists k, r. simpl. split_and!; try done; [by rewrite Hu, Huser|].
      apply int32_id.
  - assert (same_storage w w1) as Hs
        by (by eapply BikeService_GetBikesByUserID_storage).
    assert (same_cache w w1) as Hk.
    { revert Hget. unfold BikeService.GetBikesByUserID.
      destruct (uuid_Parse userID) as [u|]; [|by intros [= <- <-]].
      unfold BikeRepository.GetBikesByUserID.
      destruct (db_call _ w) as [f w0] eqn:Hc.
      apply db_call_frame in Hc as (_ & Hk & _).
      destruct f; by intros [= <- <-]. }
    eexists _, _. split; [reflexivity|]. split_and!; try done.
    intros x Hx. by apply elem_of_nil in Hx.
Qed.

(** X25: A token is accepted only with string claims [id] and [user_id] that
    parse as UUIDs and a [role] that is one of the two known roles; the
    payload holds exactly those, and verification touches neither storage
    nor cache. *)
Theorem verified_token_payload
  (jwt_Parse : string -> Result (option (gmap string Claim)))
  (token : string) (w w' : World) (payload : TokenPayload.t) :
  JWTTokenService.VerifyToken jwt_Parse token w = (Ok payload, w') ->
  exists (claims : gmap string Claim) (idStr userIDStr : string),
    jwt_Parse token = Ok (Some claims)
    /\ claims !! "id" = Some (ClaimString idStr)
    /\ uuid_Parse idStr = Some (TokenPayload.ID payload)
    /\ claims !! "user_id" = Some (ClaimString userIDStr)
    /\ uuid_Parse userIDStr = Some (TokenPayload.UserID payload)
    /\ claims !! "role" = Some (ClaimString (TokenPayload.Role payload))
    /\ (TokenPayload.Role payload = Admin \/ TokenPayload.Role payload = AppUser)
    /\ w' = w.
Proof.
  unfold JWTTokenService.VerifyToken, JWTTokenService.claim_string.
  intros Hv. repeat case_match; simplify_eq.
  eexists _, _, _. split_and!; try done. simpl.
  match goal with
  | Hb : negb _ && negb _ = false |- _ =>
      apply andb_false_iff in Hb as [Hb|Hb]; apply negb_false_iff in Hb;
      apply bool_decide_eq_true in Hb; eauto
  end.
Qed.

End MoreHandlers.

(** * More of the program on the example world *)

Section MoreInstances.
Import Canonical Example Scenario.

Lemma world0_linked : storage_linked world0.
Proof.
  split; intros k r Hk.
  - change (db_bikes world0) with ({[bike1 := bike1_row]} : gmap UUID bikes.row) in Hk.
    by apply lookup_singleton_Some in Hk as [<- <-].
  - change (db_components world0)
      with ({[frame2 := frame2_row]} : gmap UUID components.row) in Hk.
    apply lookup_singleton_Some in Hk as [<- <-]. split; [done|].
    exists bike1_row. vm_compute. reflexivity.
Defined.

Lemma world0_checked : storage_checked world0.
Proof.
  split; intros k r Hk.
  - change (db_bikes world0) with ({[bike1 := bike1_row]} : gmap UUID bikes.row) in Hk.
    apply lookup_singleton_Some in Hk as [<- <-]. by vm_compute.
  - change (db_components world0)
      with ({[frame2 := frame2_row]} : gmap UUID components.row) in Hk.
    apply lookup_singleton_Some in Hk as [<- <-]. by vm_compute.
Defined.

Lemma world0_fits : storage_fits world0.
Proof.
  split; intros k r Hk.
  - change (db_bikes world0) with ({[bike1 := bike1_row]} : gmap UUID bikes.row) in Hk.
    apply lookup_singleton_Some in Hk as [<- <-]. vm_compute. split_and!; lia.
  - change (db_components world0)
      with ({[frame2 := frame2_row]} : gmap UUID components.row) in Hk.
    apply lookup_singleton_Some in Hk as [<- <-]. vm_compute. split_and!; lia.
Defined.

(** Alice's road bike is stored under the next random identity. *)
Lemma create_bike_stores_new_row_witness :
  road_bike_created
  = created_bike (assigned_id (Bike.BikeID road_bike) world0) (db_now world0)
      road_bike
  /\ db_bikes world0 !! Bike.BikeID road_bike_created = None
  /\ db_bikes world_road
     = <[Bike.BikeID road_bike_created
         := bikes_row_of road_bike_created (db_now world0)]> (db_bikes world0)
  /\ db_components world_road = db_components world0
  /\ calls world0 world_road [SqlInsertBike (Bike.BikeID road_bike_created)]
  /\ same_cache world0 world_road.
Proof.
  apply (create_bike_stores_new_row road_bike road_bike_created world0 world_road).
  apply run_answer; vm_compute; reflexivity.
Defined.

(** The handlebars are stored for bike 1 under the next random identity. *)
Lemma create_component_stores_new_row_witness :
  component_valid handlebars
  /\ handlebars_created
     = created_component (assigned_id (Component.ID handlebars) world0)
         (db_now world0) handlebars
  /\ is_Some (db_bikes world0 !! Component.BikeID handlebars)
  /\ db_components world0 !! Component.ID handlebars_created = None
  /\ db_components world_handlebars
     = <[Component.ID handlebars_created
         := components_row_of handlebars_created (db_now world0)]>
         (db_components world0)
  /\ db_bikes world_handlebars = db_bikes world0.
Proof.
  apply (create_component_stores_new_row handlebars handlebars_created world0
           world_handlebars).
  apply run_answer; vm_compute; reflexivity.
Defined.

(** The road bike reads back as created. *)
Lemma create_bike_then_get_witness :
  fst (BikeRepository.GetBikeByID (Bike.BikeID road_bike_created) world_road)
  = Ok (Bike.set_Components [] road_bike_created).
Proof.
  apply (create_bike_then_get road_bike road_bike_created world0 world_road).
  - apply run_answer; vm_compute; reflexivity.
  - vm_compute. split_and!; lia.
  - left. vm_compute. reflexivity.
Defined.

(** Deleting bike 1 removes it together with its frame. *)
Lemma delete_bike_cascades_witness :
  is_Some (db_bikes world0 !! bike1)
  /\ db_bikes world_deleted = delete bike1 (db_bikes world0)
  /\ (forall k,
        db_components world_deleted !! k
        = match db_components world0 !! k with
          | Some r => if decide (components.bike_id r = bike1) then None else Some r
          | None => None
          end)
  /\ calls world0 world_deleted [SqlDeleteBike bike1; CacheDelete (cache_key bike1_id)].
Proof.
  apply (delete_bike_cascades bike1_id bike1 world0 world_deleted).
  - vm_compute; reflexivity.
  - apply run_answer; vm_compute; reflexivity.
Defined.

(** Deleting the frame leaves bike 1. *)
Lemma delete_component_removes_one_witness :
  is_Some (db_components world0 !! frame2)
  /\ db_components world_unframed = delete frame2 (db_components world0)
  /\ db_bikes world_unframed = db_bikes world0.
Proof.
  apply (delete_component_removes_one frame2_id frame2 world0 world_unframed).
  - vm_compute; reflexivity.
  - apply run_answer; vm_compute; reflexivity.
Defined.

(** Nothing is stored under identity 9: each mutation of it is answered
    not found. *)
Lemma missing_row_is_not_found_witness :
  (exists w', BikeService.DeleteBike nine_id world0
              = (Some (errors_New "Bike not found"), w')
              /\ same_storage world0 w' /\ same_cache world0 w')
  /\ (exists w', BikeService.UpdateBike nine_update world0
                 = (Err (errors_New "bike not found"), w')
                 /\ same_storage world0 w' /\ same_cache world0 w')
  /\ (exists w', ComponentService.DeleteComponent nine_id world0
                 = (Some (errors_New "component not found"), w')
                 /\ same_storage world0 w' /\ same_cache world0 w')
  /\ (exists w', ComponentService.UpdateComponent nine_component_update world0
                 = (Err (errors_New "component not found"), w')
                 /\ same_storage world0 w' /\ same_cache world0 w').
Proof.
  destruct (missing_row_is_not_found world0) as (Hdb & Hub & Hdc & Huc).
  { left. reflexivity. }
  split_and!.
  - apply (Hdb nine_id nine); vm_compute; reflexivity.
  - apply (Hub nine_update); vm_compute; reflexivity.
  - apply (Hdc nine_id nine); vm_compute; reflexivity.
  - apply Huc; [|vm_compute; reflexivity..].
    vm_compute. split_and!; try lia; discriminate.
Defined.

(** Updating bike 1, resp. the frame, leaves identity 9 as it was. *)
Lemma update_touches_one_row_witness :
  (db_bikes (snd (BikeService.UpdateBike bike1_update world0)) !! nine
   = db_bikes world0 !! nine
   /\ db_components (snd (BikeService.UpdateBike bike1_update world0))
      = db_components world0)
  /\ (db_components (snd (ComponentService.UpdateComponent frame2_update world0))
        !! nine
      = db_components world0 !! nine
      /\ db_bikes (snd (ComponentService.UpdateComponent frame2_update world0))
         = db_bikes world0).
Proof.
  split.
  - apply (proj1 update_touches_one_row bike1_update world0 nine). discriminate.
  - apply (proj2 update_touches_one_row frame2_update world0 nine). discriminate.
Defined.

(** The components of bike 1 are its frame. *)
Lemma components_of_bike_newest_first_witness :
  exists u : UUID,
    uuid_Parse bike1_id = Some u
    /\ (forall c, c ∈ [frame2_component]
                  <-> exists k r, db_components world0 !! k = Some r
                                  /\ components.bike_id r = u
                                  /\ c = ComponentRepository.scan r)
    /\ Sorted newest_first [frame2_component]
    /\ calls world0 (snd (ComponentService.GetComponentsByBikeID bike1_id world0))
         [SqlSelectComponentsByBike u].
Proof.
  apply (components_of_bike_newest_first bike1_id world0
           (snd (ComponentService.GetComponentsByBikeID bike1_id world0))
           [frame2_component]).
  apply run_answer; vm_compute; reflexivity.
Defined.

(** Bike 1 with its components is row 1 with the frame. *)
Lemma bike_with_components_from_storage_witness :
  exists (u : UUID) (r : bikes.row),
    uuid_Parse bike1_id = Some u
    /\ db_bikes world0 !! u = Some r
    /\ Bike.set_Components [frame2_component] (BikeRepository.scan bike1_row Bike.zero)
       = Bike.set_Components [frame2_component] (BikeRepository.scan r Bike.zero)
    /\ (forall c, c ∈ [frame2_component] ->
        exists k r', db_components world0 !! k = Some r'
                     /\ components.bike_id r' = u
                     /\ c = ComponentRepository.scan r')
    /\ Sorted newest_first [frame2_component]
    /\ calls world0 (snd (BikeService.GetBikeWithComponents bike1_id world0))
         [SqlSelectBike u; SqlSelectComponentsByBike u].
Proof.
  apply (bike_with_components_from_storage bike1_id
           (Bike.set_Components [frame2_component]
              (BikeRepository.scan bike1_row Bike.zero))
           world0 (snd (BikeService.GetBikeWithComponents bike1_id world0))).
  apply run_answer; vm_compute; reflexivity.
Defined.

(** Alice's bikes are bike 1. *)
Lemma bikes_of_user_witness :
  exists u : UUID,
    uuid_Parse alice_id = Some u
    /\ (forall b, b ∈ [BikeRepository.scan bike1_row Bike.zero]
                  <-> exists k r, db_bikes world0 !! k = Some r
                                  /\ bikes.user_id r = u
                                  /\ b = BikeRepository.scan r Bike.zero)
    /\ calls world0 (snd (BikeService.GetBikesByUserID alice_id world0))
         [SqlSelectBikesByUser u]
    /\ same_storage world0 (snd (BikeService.GetBikesByUserID alice_id world0))
    /\ same_cache world0 (snd (BikeService.GetBikesByUserID alice_id world0)).
Proof.
  apply (bikes_of_user alice_id world0
           (snd (BikeService.GetBikesByUserID alice_id world0))
           [BikeRepository.scan bike1_row Bike.zero]).
  apply run_answer; vm_compute; reflexivity.
Defined.

(** The example world stays linked when bike 1 is deleted. *)
Lemma referential_integrity_kept_witness :
  storage_linked (snd (run (MDeleteBike bike1_id) world0)).
Proof. apply referential_integrity_kept, world0_linked. Defined.

(** The example world keeps its constraints when bike 1 is updated. *)
Lemma schema_checks_kept_witness :
  storage_checked (snd (run (MUpdateBike bike1_update) world0)).
Proof. apply schema_checks_kept, world0_checked. Defined.

(** The example world keeps its column sizes when handlebars are added. *)
Lemma column_sizes_kept_witness :
  storage_fits (snd (run (MCreateComponent handlebars) world0)).
Proof. apply column_sizes_kept, world0_fits. Defined.

(** Bike 1 reads back with its new model. *)
Lemma update_then_get_witness :
  fst (BikeService.GetBikeByID (uuid_String (Bike.BikeID bike1_update)) world_updated)
  = Ok (Bike.set_Components [] bike1_updated).
Proof.
  apply (update_then_get bike1_update bike1_updated world0 world_updated).
  - apply run_answer; vm_compute; reflexivity.
  - vm_compute; reflexivity.
  - apply world0_linked.
  - left. reflexivity.
  - left. vm_compute. reflexivity.
  - left. vm_compute. reflexivity.
Defined.

(** Bike 1 is gone after its delete. *)
Lemma delete_then_get_not_found_witness :
  fst (BikeService.GetBikeByID bike1_id world_deleted)
  = Err (errors_New "bike not found")
  /\ fst (ComponentService.GetComponentsByBikeID bike1_id world_deleted) = Ok [].
Proof.
  apply (delete_then_get_not_found bike1_id bike1 world0 world_deleted).
  - vm_compute; reflexivity.
  - apply run_answer; vm_compute; reflexivity.
  - left. reflexivity.
  - left. vm_compute. reflexivity.
  - left. vm_compute. reflexivity.
Defined.

(** The handlebars are listed for bike 1. *)
Lemma create_component_then_listed_witness :
  exists cs : list Component.t,
    fst (ComponentService.GetComponentsByBikeID bike1_id world_handlebars) = Ok cs
    /\ handlebars_created ∈ cs.
Proof.
  apply (create_component_then_listed handlebars handlebars_created bike1_id
           world0 world_handlebars).
  - apply run_answer; vm_compute; reflexivity.
  - vm_compute. split_and!; lia.
  - vm_compute; reflexivity.
  - left. vm_compute. reflexivity.
Defined.

(** A request for bike 1 without identity. *)
Lemma unauthenticated_request_touches_nothing_witness :
  exists w' : World,
    serve (Guarded OpDeleteBike) anonymous world0
    = (newErrorResponse StatusUnauthorized "Unauthorized", w')
    /\ calls world0 w' [] /\ same_storage world0 w' /\ same_cache world0 w'.
Proof.
  apply (unauthenticated_request_touches_nothing (Guarded OpDeleteBike) anonymous
           world0).
  reflexivity.
Defined.

(** Alice asks for the bike "bike-one". *)
Lemma malformed_identifier_is_not_found_witness :
  status (fst (handle OpGetBike alice_on_garbage world0)) = StatusNotFound
  /\ calls world0 (snd (handle OpGetBike alice_on_garbage world0)) []
  /\ same_storage world0 (snd (handle OpGetBike alice_on_garbage world0))
  /\ same_cache world0 (snd (handle OpGetBike alice_on_garbage world0)).
Proof.
  apply (malformed_identifier_is_not_found OpGetBike alice_on_garbage world0
           as_alice).
  - reflexivity.
  - vm_compute; reflexivity.
  - discriminate.
Defined.

(** An Admin renames the frame: the request fails. *)
Lemma update_component_route_never_succeeds_witness :
  fst (ComponentHandler.UpdateComponent admin_on_frame2 (Some rename_frame) world0)
  = newErrorResponse StatusInternalServerError "Update failed".
Proof.
  apply (proj2 (proj2 (update_component_route_never_succeeds admin_on_frame2
                         (Some rename_frame) world0))
           as_admin rename_frame frame2_component
           (BikeRepository.scan bike1_row Bike.zero)
           (snd (ComponentService.GetComponentByID frame2_id world0))
           (snd (BikeService.GetBikeByID (uuid_String bike1)
                   (snd (ComponentService.GetComponentByID frame2_id world0))))).
  - reflexivity.
  - reflexivity.
  - apply run_answer; vm_compute; reflexivity.
  - apply run_answer; vm_compute; reflexivity.
  - vm_compute; reflexivity.
Defined.

(** Alice registers a bike, resp. a frame, at mileage 0. *)
Lemma create_routes_reject_zero_witness :
  status (fst (BikeHandler.CreateBike alice_on_bike1 (Some unridden_bike) world0))
  = StatusBadRequest
  /\ status (fst (ComponentHandler.CreateComponent alice_on_bike1
                    (Some unridden_frame) world0))
     = StatusBadRequest.
Proof.
  split.
  - apply (proj1 (create_routes_reject_zero alice_on_bike1 world0 as_alice eq_refl)
             unridden_bike).
    reflexivity.
  - apply (proj2 (create_routes_reject_zero alice_on_bike1 world0 as_alice eq_refl)
             unridden_frame).
    left. reflexivity.
Defined.

(** Alice reads bike 1. *)
Lemma read_routes_leave_storage_witness :
  same_storage world0 (snd (serve (Guarded OpGetBike) alice_on_bike1 world0)).
Proof.
  apply (read_routes_leave_storage (Guarded OpGetBike) alice_on_bike1 world0).
  reflexivity.
Defined.

(** Alice lists her bikes. *)
Lemma my_bikes_are_mine_witness :
  exists bs : list Bike.t,
    data (fst (BikeHandler.GetMyBikes alice_on_bike1 world0)) = BikesData bs
    /\ forall b, b ∈ bs
                 <-> exists k r, db_bikes world0 !! k = Some r
                                 /\ bikes.user_id r = TokenPayload.UserID as_alice
                                 /\ b = BikeRepository.scan r Bike.zero.
Proof.
  apply (my_bikes_are_mine alice_on_bike1 world0 as_alice).
  - reflexivity.
  - vm_compute; reflexivity.
  - vm_compute; reflexivity.
Defined.

(** The RPC for a user id that is not a UUID answers the empty list. *)
Lemma rpc_get_bikes_never_fails_witness :
  exists (pb : list serverAPI.Bike) (w' : World),
    serverAPI.GetBikes "alice" world0 = (Ok pb, w') /\ pb = [].
Proof.
  destruct (rpc_get_bikes_never_fails "alice" world0)
    as (pb & w' & Hrun & _ & _ & Hnone & _).
  exists pb, w'. split; [exact Hrun|]. apply Hnone. vm_compute; reflexivity.
Defined.

(** Alice's token gives Alice's identity. *)
Lemma verified_token_payload_witness :
  exists (claims : gmap string Claim) (idStr userIDStr : string),
    accept_alice "alice.token" = Ok (Some claims)
    /\ claims !! "id" = Some (ClaimString idStr)
    /\ uuid_Parse idStr = Some (TokenPayload.ID as_alice)
    /\ claims !! "user_id" = Some (ClaimString userIDStr)
    /\ uuid_Parse userIDStr = Some (TokenPayload.UserID as_alice)
    /\ claims !! "role" = Some (ClaimString (TokenPayload.Role as_alice))
    /\ (TokenPayload.Role as_alice = Admin \/ TokenPayload.Role as_alice = AppUser)
    /\ snd (JWTTokenService.VerifyToken accept_alice "alice.token" world0) = world0.
Proof.
  apply (verified_token_payload accept_alice "alice.token" world0
           (snd (JWTTokenService.VerifyToken accept_alice "alice.token" world0))
           as_alice).
  apply run_answer; vm_compute; reflexivity.
Defined.

End MoreInstances.
